(** * Qikao Grill: the M-Pesa payment tracker of [server/server.js]

    A shallow embedding of the three Express handlers of [server/server.js]
    (STK push initiation, vendor callback, status polling), of the sibling
    handlers of [server/(nodejs,express)server.js], and of the browser code
    that drives them (click validation and [pollForPayment]).

    JSON values are a first-order tree, JavaScript numbers are binary64
    floats, exceptions are completions, and the module-level [ORDERS] map is
    threaded through the handlers as explicit state. *)

From Stdlib Require Import List String Ascii Bool Arith Lia Floats.
Import ListNotations.
Local Open Scope string_scope.
Set Warnings "-register-all".

(** ** JavaScript values and the engine operations the handlers use *)

Module JS.

(** Values a handler can meet: what [JSON.parse] builds, plus [undefined]
    (an absent property). Strings are sequences of 8-bit code units. An
    object is the sequence of its key/value bindings in the order they were
    written; as in [JSON.parse], a later binding of a key shadows an earlier
    one. *)
Inductive value : Type :=
| VUndefined
| VNull
| VBool (b : bool)
| VNum (n : float)
| VStr (s : string)
| VArr (elems : list value)
| VObj (props : list (string * value)).

(** What a [throw] carries. [AxiosError] is a rejected HTTP call:
    [response_data] is [err.response.data] when the server answered. *)
Inductive error : Type :=
| TypeError (message : string)
| Error (message : string)
| AxiosError (response_data : option value) (message : string).

(** The completion of an expression: a value, or a thrown error. *)
Inductive completion (A : Type) : Type :=
| Normal (a : A)
| Throw (e : error).
Arguments Normal {A} a.
Arguments Throw {A} e.

Definition bind {A B} (c : completion A) (k : A -> completion B) : completion B :=
  match c with
  | Normal a => k a
  | Throw e => Throw e
  end.

Declare Scope js_scope.
Delimit Scope js_scope with js.
Notation "x <- c ;; k" := (bind c (fun x => k))
  (at level 61, c at next level, right associativity) : js_scope.

(** [!!v]: ToBoolean. *)
Definition truthy (v : value) : bool :=
  match v with
  | VUndefined | VNull => false
  | VBool b => b
  | VNum n => negb (is_zero n || is_nan n)
  | VStr s => negb (s =? "")
  | VArr _ | VObj _ => true
  end.

(** [a || b] on values (both operands already evaluated). *)
Definition or_else (a b : value) : value := if truthy a then a else b.

(** The binding of [k] that is in force: the last one written. *)
Fixpoint lookup (k : string) (ps : list (string * value)) : option value :=
  match ps with
  | [] => None
  | (k', v) :: t =>
      match lookup k t with
      | Some w => Some w
      | None => if k' =? k then Some v else None
      end
  end.

Definition has_own (k : string) (ps : list (string * value)) : bool :=
  match lookup k ps with Some _ => true | None => false end.

(** The value of the own property [k], [undefined] when there is none. *)
Definition field (k : string) (ps : list (string * value)) : value :=
  match lookup k ps with Some v => v | None => VUndefined end.

(** [o.k] for the property names the handlers read, none of which is
    inherited from a prototype or defined on arrays and primitives: reading
    from [null] or [undefined] throws, reading from anything else that is
    not an object with that own property yields [undefined]. *)
Definition get (o : value) (k : string) : completion value :=
  match o with
  | VUndefined =>
      Throw (TypeError ("Cannot read properties of undefined (reading '" ++ k ++ "')"))
  | VNull =>
      Throw (TypeError ("Cannot read properties of null (reading '" ++ k ++ "')"))
  | VObj ps => Normal (field k ps)
  | _ => Normal VUndefined
  end.

(** [o[k] = v] on a plain object. Assigning to ["__proto__"] runs the
    setter of [Object.prototype] and creates no own property. *)
Definition set (ps : list (string * value)) (k : string) (v : value)
  : list (string * value) :=
  if k =? "__proto__" then ps else ps ++ [(k, v)].

(** [Object.assign(target, source)]: every own binding of [source] is
    assigned on [target], in order. *)
Definition assign (target source : list (string * value)) : list (string * value) :=
  fold_left (fun t kv => set t (fst kv) (snd kv)) source target.

Definition is_array (v : value) : bool :=
  match v with VArr _ => true | _ => false end.

Definition is_undefined (v : value) : bool :=
  match v with VUndefined => true | _ => false end.

(** [v === 0]: only a number compares equal to a number, and [-0 === 0]. *)
Definition strict_eq_zero (v : value) : bool :=
  match v with
  | VNum n => (n =? 0)%float
  | _ => false
  end.

(** SameValueZero, the key equality of [Map]. Every object a handler puts
    into or looks up in the map was freshly built from its own request, so
    two object keys are never the same object. *)
Definition same_value_zero (a b : value) : bool :=
  match a, b with
  | VUndefined, VUndefined => true
  | VNull, VNull => true
  | VBool x, VBool y => Bool.eqb x y
  | VNum x, VNum y => (x =? y)%float || (is_nan x && is_nan y)
  | VStr x, VStr y => (x =? y)
  | _, _ => false
  end.

Section Engine.

(** Number::toString and StringToNumber are the engine's; the handlers
    only pass their results on. *)
Variable number_to_string : float -> string.
Variable string_to_number : string -> float.

Local Open Scope js_scope.

(** ToString. A parsed object has no callable own [toString], so the
    inherited one answers unless an own property hides it, in which case
    neither [toString] nor [valueOf] yields a primitive. An array is
    joined with commas, [null] and [undefined] elements printing as the
    empty string. *)
Fixpoint to_string (v : value) : completion string :=
  match v with
  | VUndefined => Normal "undefined"
  | VNull => Normal "null"
  | VBool true => Normal "true"
  | VBool false => Normal "false"
  | VNum n => Normal (number_to_string n)
  | VStr s => Normal s
  | VArr elems =>
      (fix join (l : list value) : completion string :=
         match l with
         | [] => Normal ""
         | x :: t =>
             s <- match x with
                  | VUndefined | VNull => Normal ""
                  | _ => to_string x
                  end ;;
             match t with
             | [] => Normal s
             | _ => r <- join t ;; Normal (s ++ "," ++ r)
             end
         end) elems
  | VObj ps =>
      if has_own "toString" ps
      then Throw (TypeError "Cannot convert object to primitive value")
      else Normal "[object Object]"
  end.

(** ToNumber. Objects and arrays convert through their string. *)
Definition to_number (v : value) : completion float :=
  match v with
  | VUndefined => Normal nan
  | VNull => Normal 0%float
  | VBool true => Normal 1%float
  | VBool false => Normal 0%float
  | VNum n => Normal n
  | VStr s => Normal (string_to_number s)
  | VArr _ | VObj _ => s <- to_string v ;; Normal (string_to_number s)
  end.

End Engine.

(** *** Strings *)

(** [\d]. *)
Definition is_digit (c : ascii) : bool :=
  let n := nat_of_ascii c in ((48 <=? n) && (n <=? 57))%nat.

(** [\s] within the 8-bit range: tab, line feed, vertical tab, form feed,
    carriage return, space and no-break space. *)
Definition is_space (c : ascii) : bool :=
  let n := nat_of_ascii c in
  ((9 <=? n) && (n <=? 13) || (n =? 32) || (n =? 160))%nat.

Fixpoint all_digits (s : string) : bool :=
  match s with
  | EmptyString => true
  | String c t => is_digit c && all_digits t
  end.

(** [s.replace(/\s+/g, '')]. *)
Fixpoint remove_spaces (s : string) : string :=
  match s with
  | EmptyString => EmptyString
  | String c t => if is_space c then remove_spaces t else String c (remove_spaces t)
  end.

(** [s.startsWith(c)] for a one-character [c], and [s.slice(1)]. *)
Definition starts_with (c : ascii) (s : string) : bool :=
  match s with
  | String c' _ => Ascii.eqb c' c
  | EmptyString => false
  end.

Definition slice1 (s : string) : string :=
  match s with
  | String _ t => t
  | EmptyString => EmptyString
  end.

(** [/^PREFIX\d{lo,hi}$/.test(s)]. *)
Definition prefix_then_digits (pre : string) (lo hi : nat) (s : string) : bool :=
  let n := String.length pre in
  (String.prefix pre s)
  && (let rest := String.substring n (String.length s - n) s in
      all_digits rest
      && (lo <=? String.length rest)%nat && (String.length rest <=? hi)%nat).

End JS.

(** ** The in-memory store: [const ORDERS = new Map()] *)

Module Orders.
Import JS.

Inductive order_status : Type := PENDING | SUCCESS | FAILED.

Definition status_name (s : order_status) : string :=
  match s with
  | PENDING => "PENDING"
  | SUCCESS => "SUCCESS"
  | FAILED => "FAILED"
  end.

(** The records the handlers put into the map: [{ status, detail }]. *)
Record order : Type := { status : order_status; detail : value }.

(** A [Map] keeps its entries in insertion order, one per key. *)
Definition t : Type := list (value * order).

(** [ORDERS.get(k)]. *)
Fixpoint get (m : t) (k : value) : option order :=
  match m with
  | [] => None
  | (k', r) :: rest => if same_value_zero k' k then Some r else get rest k
  end.

(** [ORDERS.set(k, r)]: the entry of [k] is replaced where it stands, and
    a key that is not there yet is appended. *)
Fixpoint set (m : t) (k : value) (r : order) : t :=
  match m with
  | [] => [(k, r)]
  | (k', r') :: rest =>
      if same_value_zero k' k then (k', r) :: rest else (k', r') :: set rest k r
  end.

Definition terminal (s : order_status) : bool :=
  match s with
  | PENDING => false
  | SUCCESS | FAILED => true
  end.

End Orders.

(** ** What a handler sends back: [res.status(code).json(body)] *)

Record response : Type := { code : nat; body : JS.value }.

Definition json (code : nat) (props : list (string * JS.value)) : response :=
  {| code := code; body := JS.VObj props |}.

(** ** [server/server.js] *)

Module Server.
Import JS.
Import Orders(order_status(..), order, Build_order, status, detail, status_name).

(** [process.env], read once at start-up (lines 12-19). *)
Record environment : Type := {
  MPESA_ENV : option string;
  MPESA_CONSUMER_KEY : option string;
  MPESA_CONSUMER_SECRET : option string;
  MPESA_SHORTCODE : option string;
  MPESA_PASSKEY : option string;
  MPESA_CALLBACK_URL : option string
}.

(** [!!VAR] for an environment variable: unset and empty are both falsy. *)
Definition configured (v : option string) : bool :=
  match v with
  | Some s => negb (s =? "")
  | None => false
  end.

Definition env_value (v : option string) : value :=
  match v with
  | Some s => VStr s
  | None => VUndefined
  end.

Definition BASE_URL (env : environment) : string :=
  match MPESA_ENV env with
  | Some "production" => "https://api.safaricom.co.ke"
  | _ => "https://sandbox.safaricom.co.ke"
  end.

(** The body posted to the vendor (lines 63-75). [Password] and
    [Timestamp] are a digest of the wall clock and are left out: no handler
    reads them back. *)
Record stk_payload : Type := {
  BusinessShortCode : value;
  TransactionType : string;
  Amount : float;
  PartyA : string;
  PartyB : value;
  PhoneNumber : string;
  CallBackURL : value;
  AccountReference : value;
  TransactionDesc : value
}.

(** The outbound HTTP calls, as the vendor sees them; [authorization] is
    the header [`Bearer ${token}`]. *)
Inductive gateway_call : Type :=
| OauthGenerate (url : string)
| ProcessRequest (url : string) (payload : stk_payload) (authorization : string).

(** How the vendor answers during one request: [data] of the response of
    [axios.get] and of [axios.post], or the rejection. *)
Record gateway : Type := {
  oauth_generate : completion value;
  processrequest : stk_payload -> completion value
}.

(** The state the handlers share: the map, and the calls made so far. *)
Record world : Type := { ORDERS : Orders.t; calls : list gateway_call }.

(** Statements: they read and write the world, and may throw. The world
    at the point of a [throw] is what the [catch] block sees. *)
Definition M (A : Type) : Type := world -> completion A * world.

Definition ret {A} (a : A) : M A := fun w => (Normal a, w).

Definition throw {A} (e : error) : M A := fun w => (Throw e, w).

Definition lift {A} (c : completion A) : M A := fun w => (c, w).

Definition mbind {A B} (m : M A) (k : A -> M B) : M B :=
  fun w =>
    match m w with
    | (Normal a, w') => k a w'
    | (Throw e, w') => (Throw e, w')
    end.

Definition try_catch {A} (block : M A) (handler : error -> M A) : M A :=
  fun w =>
    match block w with
    | (Normal a, w') => (Normal a, w')
    | (Throw e, w') => handler e w'
    end.

Declare Scope stmt_scope.
Delimit Scope stmt_scope with stmt.
Notation "x <- c ;; k" := (mbind c (fun x => k))
  (at level 61, c at next level, right associativity) : stmt_scope.
Notation "c ;; k" := (mbind c (fun _ => k))
  (at level 61, right associativity) : stmt_scope.

(** [await axios...]: the call is made, then its answer is awaited. *)
Definition await {A} (call : gateway_call) (answer : completion A) : M A :=
  fun w => (answer, {| ORDERS := ORDERS w; calls := calls w ++ [call] |}).

Definition orders_set (k : value) (r : order) : M unit :=
  fun w => (Normal tt, {| ORDERS := Orders.set (ORDERS w) k r; calls := calls w |}).

Definition orders_get (k : value) : M (option order) :=
  fun w => (Normal (Orders.get (ORDERS w) k), w).

(** A handler's answer. An exception that leaves a handler is answered by
    the framework with a bare 500. *)
Definition respond (handler : M response) (w : world) : response * world :=
  match handler w with
  | (Normal r, w') => (r, w')
  | (Throw _, w') => ({| code := 500; body := VUndefined |}, w')
  end.

Section Handlers.

Variable number_to_string : float -> string.
Variable string_to_number : string -> float.
Variable env : environment.

Local Open Scope stmt_scope.

(** Lines 35-43. *)
Definition getAccessToken (gw : gateway) : M value :=
  if negb (configured (MPESA_CONSUMER_KEY env)) || negb (configured (MPESA_CONSUMER_SECRET env))
  then throw (Error "Missing MPESA_CONSUMER_KEY/MPESA_CONSUMER_SECRET")
  else
    data <- await (OauthGenerate (BASE_URL env ++ "/oauth/v1/generate?grant_type=client_credentials"))
                  (oauth_generate gw) ;;
    lift (get data "access_token").

(** Lines 54-57: the number as the vendor wants it. *)
Definition msisdn_of (phone : string) : string :=
  let msisdn := remove_spaces phone in
  let msisdn := if starts_with "+" msisdn then slice1 msisdn else msisdn in
  if starts_with "0" msisdn then "254" ++ slice1 msisdn else msisdn.

(** A destructuring default: [name = fallback]. *)
Definition default (v fallback : value) : value :=
  if is_undefined v then fallback else v.

(** [err.response ? err.response.data : err.message] (lines 89-90). *)
Definition error_detail (err : error) : value :=
  match err with
  | AxiosError (Some data) _ => data
  | AxiosError None message | TypeError message | Error message => VStr message
  end.

(** [responseData.CheckoutRequestID || responseData.checkoutRequestID ||
    responseData.CheckoutRequestId] (line 82). *)
Definition checkoutId_of (responseData : value) : completion value :=
  (id1 <- get responseData "CheckoutRequestID" ;;
   if truthy id1
   then Normal id1
   else (id2 <- get responseData "checkoutRequestID" ;;
         if truthy id2
         then Normal id2
         else get responseData "CheckoutRequestId"))%js.

(** [POST /api/mpesa/stkpush] (lines 46-92). *)
Definition stkpush (gw : gateway) (req_body : value) : M response :=
  try_catch
    (phone <- lift (get req_body "phone") ;;
     amount <- lift (get req_body "amount") ;;
     accountRef <- lift (get req_body "accountRef") ;;
     description <- lift (get req_body "description") ;;
     let accountRef := default accountRef (VStr "QikaoOrder") in
     let description := default description (VStr "Qikao Grill Order") in
     if negb (truthy phone) || negb (truthy amount)
     then ret (json 400 [("error", VStr "phone and amount required")])
     else if negb (configured (MPESA_SHORTCODE env))
             || negb (configured (MPESA_PASSKEY env))
             || negb (configured (MPESA_CALLBACK_URL env))
     then ret (json 500 [("error", VStr "MPESA_SHORTCODE/MPESA_PASSKEY/MPESA_CALLBACK_URL not set")])
     else
       phone_string <- lift (to_string number_to_string phone) ;;
       let msisdn := msisdn_of phone_string in
       token <- getAccessToken gw ;;
       amount_number <- lift (to_number number_to_string string_to_number amount) ;;
       let payload :=
         {| BusinessShortCode := env_value (MPESA_SHORTCODE env);
            TransactionType := "CustomerPayBillOnline";
            Amount := amount_number;
            PartyA := msisdn;
            PartyB := env_value (MPESA_SHORTCODE env);
            PhoneNumber := msisdn;
            CallBackURL := env_value (MPESA_CALLBACK_URL env);
            AccountReference := accountRef;
            TransactionDesc := description |} in
       token_string <- lift (to_string number_to_string token) ;;
       data <- await (ProcessRequest (BASE_URL env ++ "/mpesa/stkpush/v1/processrequest")
                                     payload ("Bearer " ++ token_string))
                     (processrequest gw payload) ;;
       let responseData := or_else data (VObj []) in
       checkoutId <- lift (checkoutId_of responseData) ;;
       (if truthy checkoutId
        then orders_set checkoutId {| status := PENDING; detail := responseData |}
        else ret tt) ;;
       ret (json 200 [("success", VBool true); ("data", responseData)]))
    (fun err =>
       ret (json 500 [("error", VStr "STK push failed"); ("detail", error_detail err)])).

(** What one item of [meta.Item] asks for (line 113): the assignment
    [detail[i.Name] = i.Value], or nothing. *)
Definition item_binding (i : value) : completion (option (string * value)) :=
  (name <- get i "Name" ;;
   if truthy name
   then
     v <- get i "Value" ;;
     if is_undefined v
     then Normal None
     else (key <- to_string number_to_string name ;; Normal (Some (key, v)))
   else Normal None)%js.

(** [meta.Item.forEach(...)] (lines 112-114), run over the items in order;
    [detail] is the object being filled. *)
Fixpoint collect_items (detail : list (string * value)) (items : list value)
  : completion (list (string * value)) :=
  match items with
  | [] => Normal detail
  | i :: rest =>
      (binding <- item_binding i ;;
       collect_items
         match binding with
         | Some (key, v) => JS.set detail key v
         | None => detail
         end
         rest)%js
  end.

(** [(body.Body && body.Body.stkCallback) || body.stkCallback || null]
    (line 100). *)
Definition envelope (body : value) : completion value :=
  (b <- get body "Body" ;;
   inner <- (if truthy b then get b "stkCallback" else Normal b) ;;
   if truthy inner
   then Normal inner
   else (outer <- get body "stkCallback" ;; Normal (or_else outer VNull)))%js.

(** [stk && stk.CheckoutRequestID] (line 102). *)
Definition envelope_id (stk : value) : completion value :=
  if truthy stk then get stk "CheckoutRequestID" else Normal stk.

(** [stk.CallbackMetadata || stk.callbackMetadata || null] (line 106). *)
Definition metadata (stk : value) : completion value :=
  (meta1 <- get stk "CallbackMetadata" ;;
   if truthy meta1
   then Normal meta1
   else (meta2 <- get stk "callbackMetadata" ;; Normal (or_else meta2 VNull)))%js.

(** The items the success branch walks (line 111): those of [meta.Item]
    when [meta] is there and [meta.Item] is an array. *)
Definition metadata_items (meta : value) : completion (list value) :=
  if truthy meta
  then (items <- get meta "Item" ;;
        match items with
        | VArr elems => Normal elems
        | _ => Normal []
        end)%js
  else Normal [].

Definition acknowledgment : response :=
  json 200 [("ResultCode", VNum 0%float); ("ResultDesc", VStr "Received")].

(** The [try] block of [POST /api/mpesa/callback] (lines 98-126).
    [JSON.stringify] answers [undefined] for an [undefined] body, and
    [.slice] of that throws. *)
Definition callback_block (req_body : value) : M response :=
  lift (if is_undefined req_body
        then Throw (TypeError "Cannot read properties of undefined (reading 'slice')")
        else Normal tt) ;;
  let body := or_else req_body (VObj []) in
  stk <- lift (envelope body) ;;
  id <- lift (envelope_id stk) ;;
  (if truthy id
   then
     checkoutId <- lift (get stk "CheckoutRequestID") ;;
     resultCode <- lift (get stk "ResultCode") ;;
     desc <- lift (get stk "ResultDesc") ;;
     let resultDesc := or_else desc (VStr "") in
     meta <- lift (metadata stk) ;;
     if strict_eq_zero resultCode
     then
       items <- lift (metadata_items meta) ;;
       detail <- lift (collect_items [] items) ;;
       orders_set checkoutId
         {| status := SUCCESS;
            detail := VObj (assign [("ResultDesc", resultDesc)] detail) |}
     else
       orders_set checkoutId
         {| status := FAILED;
            detail := VObj [("ResultCode", resultCode); ("ResultDesc", resultDesc)] |}
   else ret tt) ;;
  ret acknowledgment.

Definition callback_error : response :=
  json 500 [("error", VStr "callback processing error")].

(** [POST /api/mpesa/callback] (lines 95-131). *)
Definition callback (req_body : value) : M response :=
  try_catch (callback_block req_body) (fun e => ret callback_error).

(** [GET /api/mpesa/status] (lines 134-144); [checkoutId] is
    [req.query.checkoutId], [undefined] when the parameter is absent. *)
Definition status_query (checkoutId : value) : M response :=
  if negb (truthy checkoutId)
  then ret (json 400 [("error", VStr "checkoutId required")])
  else
    record <- orders_get checkoutId ;;
    match record with
    | None => ret (json 200 [("status", VStr "PENDING")])
    | Some r =>
        ret (json 200 [("status", VStr (status_name (status r)));
                       ("detail", or_else (detail r) VNull)])
    end.

(** One HTTP request to the server. *)
Inductive request : Type :=
| PostStkpush (gw : gateway) (req_body : value)
| PostCallback (req_body : value)
| GetStatus (checkoutId : value).

Definition handle (r : request) : world -> response * world :=
  match r with
  | PostStkpush gw req_body => respond (stkpush gw req_body)
  | PostCallback req_body => respond (callback req_body)
  | GetStatus checkoutId => respond (status_query checkoutId)
  end.

Definition start : world := {| ORDERS := []; calls := [] |}.

(** The worlds the server can be in: the start, and what a request makes
    of a world it can be in. Requests are handled one after the other
    here. The initiation handler gives way at its two [await]s, so runs of
    it can overlap; no handler reads the map before it writes, and each
    writes at most once, at one go, so the maps reached are the same
    either way. The log of calls of overlapping runs is an interleaving
    of theirs, which this relation does not produce. *)
Inductive reachable : world -> Prop :=
| reachable_start : reachable start
| reachable_handle (r : request) (w : world) :
    reachable w -> reachable (snd (handle r w)).

(** The world after a sequence of requests. *)
Definition serve (rs : list request) (w : world) : world :=
  fold_left (fun w r => snd (handle r w)) rs w.

End Handlers.

(** *** What a statement does to the world

    No statement of the two posting handlers reads the map: each runs to
    the same completion in every world, sends the same calls and makes the
    same writes. *)

Record effect : Type := { sent : list gateway_call; written : list (value * order) }.

Definition nothing : effect := {| sent := []; written := [] |}.

Definition write_all (m : Orders.t) (l : list (value * order)) : Orders.t :=
  fold_left (fun m kr => Orders.set m (fst kr) (snd kr)) l m.

Definition apply (ef : effect) (w : world) : world :=
  {| ORDERS := write_all (ORDERS w) (written ef); calls := calls w ++ sent ef |}.

Definition and_then (ef ef' : effect) : effect :=
  {| sent := sent ef ++ sent ef'; written := written ef ++ written ef' |}.

(** [wp m Q]: in every world [m] completes the same way and has the same
    effect, and the two satisfy [Q]. *)
Definition wp {A} (m : M A) (Q : completion A -> effect -> Prop) : Prop :=
  exists c ef, (forall w, m w = (c, apply ef w)) /\ Q c ef.

(** What [POST /api/mpesa/callback] comes to. *)
Definition callback_post (c : completion response) (ef : effect) : Prop :=
  sent ef = []
  /\ ((c = Normal acknowledgment
       /\ (written ef = []
           \/ exists id r, written ef = [(id, r)] /\ truthy id = true
                /\ Orders.terminal (status r) = true /\ exists ps, detail r = VObj ps))
      \/ (c = Normal callback_error /\ written ef = [])).

(** What [POST /api/mpesa/stkpush] comes to. *)
Definition stkpush_post (gw : gateway) (c : completion response) (ef : effect) : Prop :=
  exists r, c = Normal r
  /\ ((code r = 400 /\ ef = nothing)
      \/ (code r = 500 /\ written ef = [])
      \/ (code r = 200
          /\ exists tok payload data id,
              oauth_generate gw = Normal tok
              /\ processrequest gw payload = Normal data
              /\ body r = VObj [("success", VBool true); ("data", or_else data (VObj []))]
              /\ checkoutId_of (or_else data (VObj [])) = Normal id
              /\ written ef =
                  if truthy id
                  then [(id, {| status := PENDING; detail := or_else data (VObj []) |})]
                  else [])).

(** The assignments a list of item bindings leaves on [detail]. *)
Definition assigned (bindings : list (option (string * value))) : list (string * value) :=
  filter (fun kv => negb (fst kv =? "__proto__"))
         (flat_map (fun b => match b with Some kv => [kv] | None => [] end) bindings).

End Server.

(** ** [server/(nodejs,express)server.js] *)

Module ExpressServer.
Import JS.

Section Handlers.

Variable number_to_string : float -> string.
Variable string_to_number : string -> float.

Local Open Scope js_scope.

(** The checks that open [POST /api/mpesa/stkpush] (lines 117-122):
    [Some] answer when the request is turned away, [None] when the handler
    goes on to the database and the vendor. *)
Definition stkpush_checks (req_body : value) : completion (option response) :=
  phone <- get req_body "phone" ;;
  amount <- get req_body "amount" ;;
  if negb (truthy phone) || negb (truthy amount)
  then Normal (Some (json 400 [("error", VStr "phone and amount required")]))
  else
    phone_string <- to_string number_to_string phone ;;
    if negb (prefix_then_digits "0" 8 9 phone_string)
    then Normal (Some (json 400 [("error", VStr "Invalid phone number format")]))
    else
      n <- to_number number_to_string string_to_number amount ;;
      if is_nan n
      then Normal (Some (json 400 [("error", VStr "Invalid amount")]))
      else
        n' <- to_number number_to_string string_to_number amount ;;
        if (n' <=? 0)%float
        then Normal (Some (json 400 [("error", VStr "Invalid amount")]))
        else Normal None.

(** The same checks under the handler's [catch] (lines 164-167). *)
Definition stkpush_rejection (req_body : value) : option response :=
  match stkpush_checks req_body with
  | Normal answer => answer
  | Throw err =>
      Some (json 500 [("error", VStr "STK push failed");
                      ("details", match err with
                                  | AxiosError (Some data) _ => data
                                  | AxiosError None m | TypeError m | Error m => VStr m
                                  end)])
  end.

(** [body?.Body?.stkCallback] (line 182). *)
Definition stkCallback_of (body : value) : completion value :=
  match body with
  | VUndefined | VNull => Normal VUndefined
  | _ =>
      b <- get body "Body" ;;
      match b with
      | VUndefined | VNull => Normal VUndefined
      | _ => get b "stkCallback"
      end
  end.

(** The loop of lines 199-203: amount, receipt and phone as found so far. *)
Fixpoint metadata_fields (found : value * value * value) (items : list value)
  : completion (value * value * value) :=
  match items with
  | [] => Normal found
  | it :: rest =>
      name <- get it "Name" ;;
      v <- get it "Value" ;;
      let '(amount, receipt, phone) := found in
      let amount := match name with VStr "Amount" => v | _ => amount end in
      let receipt := match name with VStr "MpesaReceiptNumber" => v | _ => receipt end in
      let phone := match name with VStr "PhoneNumber" => v | _ => phone end in
      metadata_fields (amount, receipt, phone) rest
  end.

(** [POST /api/mpesa/callback] (lines 175-240). Lines 207-232 persist the
    payment inside a [try]/[catch] of their own, which swallows whatever
    the database throws: they have no part in the answer. *)
Definition callback (body : value) : response :=
  match
    (_ <- (if is_undefined body
           then Throw (TypeError "Cannot read properties of undefined (reading 'slice')")
           else Normal tt) ;;
     stkCallback <- stkCallback_of body ;;
     if negb (truthy stkCallback)
     then Normal (json 200 [("ResultCode", VNum 0%float); ("ResultDesc", VStr "Received")])
     else
       meta <- get stkCallback "CallbackMetadata" ;;
       _ <- (if truthy meta
             then
               items <- get meta "Item" ;;
               match items with
               | VArr elems => metadata_fields (VNull, VNull, VNull) elems
               | _ => Normal (VNull, VNull, VNull)
               end
             else Normal (VNull, VNull, VNull)) ;;
       Normal (json 200 [("ResultCode", VNum 0%float); ("ResultDesc", VStr "Success")]))
  with
  | Normal r => r
  | Throw _ => json 500 [("ResultCode", VNum 1%float); ("ResultDesc", VStr "Server error")]
  end.

End Handlers.

End ExpressServer.

(** ** The checkout page: the click handler's checks and [pollForPayment] *)

Module Client.
Import JS.

(** What the click on [#mpesa-pay] comes to (lines 155-164 of the page
    script): a message, or the request that is sent. [phone] is the trimmed
    field, [amount] is [Number(amountEl.value)]. *)
Inductive click : Type :=
| InvalidPhone
| InvalidAmount
| Send (phone : string) (amount : float).

Definition on_click (phone : string) (amount : float) : click :=
  if negb (prefix_then_digits "0" 8 9 phone)
     && negb (prefix_then_digits "254" 9 9 phone)
     && negb (prefix_then_digits "+254" 9 9 phone)
  then InvalidPhone
  else if negb (truthy (VNum amount)) || (amount <=? 0)%float
  then InvalidAmount
  else Send phone amount.

(** What [#mpesa-status] shows. *)
Inductive display : Type :=
| Waiting    (* "M-Pesa prompt sent ... Waiting for confirmation..." *)
| Confirmed  (* "Payment confirmed — thank you!" *)
| NotConfirmed. (* "Payment not confirmed yet. Check your phone or try again later." *)

(** The state of one [pollForPayment(checkoutRequestID)]: the counter, whether
    the interval is still set, the page, and the status requests sent to the
    server so far. *)
Record poller : Type := {
  checkoutRequestID : value;
  attempts : nat;
  interval : bool;
  shown : display;
  pay_disabled : bool;
  fetched : list value
}.

Definition max : nat := 8.

(** Lines 202-207: the call itself. The click handler has disabled the button
    and shows the waiting text. *)
Definition pollForPayment (id : value) : poller :=
  {| checkoutRequestID := id; attempts := 0; interval := true;
     shown := Waiting; pay_disabled := true; fetched := [] |}.

(** Lines 208-228: one firing of the interval. A cleared interval does not
    fire. *)
Definition tick (p : poller) : poller :=
  if interval p
  then
    let attempts := S (attempts p) in
    if (attempts =? 3)%nat
    then {| checkoutRequestID := checkoutRequestID p; attempts := attempts;
            interval := false; shown := Confirmed; pay_disabled := false;
            fetched := fetched p |}
    else if (max <=? attempts)%nat
    then {| checkoutRequestID := checkoutRequestID p; attempts := attempts;
            interval := false; shown := NotConfirmed; pay_disabled := false;
            fetched := fetched p |}
    else {| checkoutRequestID := checkoutRequestID p; attempts := attempts;
            interval := true; shown := shown p; pay_disabled := pay_disabled p;
            fetched := fetched p |}
  else p.

(** The poller after [n] periods of four seconds. *)
Fixpoint after (n : nat) (p : poller) : poller :=
  match n with
  | O => p
  | S n' => after n' (tick p)
  end.

End Client.


(** ** Requests, answers of the vendor and configurations used as examples *)

Module Examples.
Import JS Server.

(** The examples run the handlers on requests whose phone numbers and item
    names are strings and whose amounts are numbers. The engine's two
    conversions between numbers and strings are not consulted on those, so
    any function stands for them. *)
Definition any_number_to_string : float -> string := fun _ => "".
Definition any_string_to_number : string -> float := fun _ => nan.

Definition sandbox : environment :=
  {| MPESA_ENV := None;
     MPESA_CONSUMER_KEY := Some "consumer-key";
     MPESA_CONSUMER_SECRET := Some "consumer-secret";
     MPESA_SHORTCODE := Some "174379";
     MPESA_PASSKEY := Some "passkey";
     MPESA_CALLBACK_URL := Some "https://qikao.example/api/mpesa/callback" |}.

(** [{ Body: { stkCallback: { ... } } }]. *)
Definition stk_callback (fields : list (string * value)) : value :=
  VObj [("Body", VObj [("stkCallback", VObj fields)])].

Definition item (name : string) (v : value) : value :=
  VObj [("Name", VStr name); ("Value", v)].

(** The vendor reports that checkout [ws_1] was paid. *)
Definition paid : value :=
  stk_callback
    [("MerchantRequestID", VStr "29115-34620561-1");
     ("CheckoutRequestID", VStr "ws_1");
     ("ResultCode", VNum 0%float);
     ("ResultDesc", VStr "The service request is processed successfully.");
     ("CallbackMetadata",
      VObj [("Item", VArr [item "Amount" (VNum 150%float);
                           item "MpesaReceiptNumber" (VStr "QAX123");
                           item "PhoneNumber" (VNum 254712345678%float)])])].

(** The vendor reports that the payer cancelled checkout [ws_1]. *)
Definition cancelled : value :=
  stk_callback
    [("MerchantRequestID", VStr "29115-34620561-1");
     ("CheckoutRequestID", VStr "ws_1");
     ("ResultCode", VNum 1032%float);
     ("ResultDesc", VStr "Request cancelled by user")].

(** A success report whose item list holds a [null]. *)
Definition paid_with_null_item : value :=
  stk_callback
    [("CheckoutRequestID", VStr "ws_1");
     ("ResultCode", VNum 0%float);
     ("ResultDesc", VStr "The service request is processed successfully.");
     ("CallbackMetadata", VObj [("Item", VArr [VNull])])].

(** A report whose result code is the string ["0"]. *)
Definition string_result_code : value :=
  stk_callback
    [("CheckoutRequestID", VStr "ws_1");
     ("ResultCode", VStr "0");
     ("ResultDesc", VStr "The service request is processed successfully.")].

(** A body with no envelope at all, and one whose envelope names no
    checkout. *)
Definition no_envelope : value := VObj [("hello", VStr "world")].

Definition no_checkout_id : value :=
  stk_callback [("ResultCode", VNum 0%float); ("ResultDesc", VStr "ok")].

(** [{ phone, amount, accountRef: 'QikaoOrder-123' }], as the page posts it. *)
Definition initiation (phone amount : value) : value :=
  VObj [("phone", phone); ("amount", amount); ("accountRef", VStr "QikaoOrder-123")].

Definition token_data : value :=
  VObj [("access_token", VStr "token"); ("expires_in", VStr "3599")].

Definition accepted_data : value :=
  VObj [("MerchantRequestID", VStr "29115-34620561-1");
        ("CheckoutRequestID", VStr "ws_1");
        ("ResponseCode", VStr "0");
        ("ResponseDescription", VStr "Success. Request accepted for processing")].

(** A vendor that accepts the request as checkout [ws_1]. *)
Definition accepting : gateway :=
  {| oauth_generate := Normal token_data;
     processrequest := fun _ => Normal accepted_data |}.

(** A vendor whose answer names no checkout. *)
Definition anonymous : gateway :=
  {| oauth_generate := Normal token_data;
     processrequest := fun _ => Normal (VObj [("ResponseCode", VStr "0")]) |}.

(** A vendor that cannot be reached. *)
Definition unreachable : gateway :=
  {| oauth_generate := Throw (AxiosError None "connect ETIMEDOUT");
     processrequest := fun _ => Throw (AxiosError None "connect ETIMEDOUT") |}.

Definition run (rs : list request) : world :=
  serve any_number_to_string any_string_to_number sandbox rs start.

End Examples.


(** ** More of the code

    The helpers and the flows around the three endpoints: the timestamp
    of the push request, the token cache of the sibling server, the click
    handler of the checkout page, and the cart script of the menu page. *)

(** *** The timestamp of a push request *)

Module Timestamps.

(** What the getters of [new Date()] answer: local time, the month counted
    from zero. *)
Record date : Type := {
  getFullYear : nat;
  getMonth : nat;
  getDate : nat;
  getHours : nat;
  getMinutes : nat;
  getSeconds : nat
}.

Definition digit (n : nat) : ascii := ascii_of_nat (48 + n).

(** [String(n)] for a natural number: its decimal digits. *)
Fixpoint decimal_digits (fuel n : nat) : string :=
  match fuel with
  | O => ""
  | S fuel' =>
      if (n <? 10)%nat
      then String (digit n) ""
      else decimal_digits fuel' (n / 10) ++ String (digit (n mod 10)) ""
  end.

Definition decimal (n : nat) : string := decimal_digits (S n) n.

Fixpoint zeros (n : nat) : string :=
  match n with
  | O => ""
  | S n' => String "0" (zeros n')
  end.

(** [s.padStart(2, '0')]. *)
Definition padStart2 (s : string) : string := zeros (2 - String.length s) ++ s.

(** [timestampNow] of [server.js] (lines 27-31), on the date it reads. *)
Definition timestampNow (d : date) : string :=
  let pad := fun n => padStart2 (decimal n) in
  ((((decimal (getFullYear d) ++ pad (getMonth d + 1)) ++ pad (getDate d))
     ++ pad (getHours d)) ++ pad (getMinutes d)) ++ pad (getSeconds d).

(** [getTimestamp] of the sibling server (lines 57-66). *)
Definition getTimestamp (d : date) : string :=
  let YYYY := decimal (getFullYear d) in
  let MM := padStart2 (decimal (getMonth d + 1)) in
  let DD := padStart2 (decimal (getDate d)) in
  let hh := padStart2 (decimal (getHours d)) in
  let mm := padStart2 (decimal (getMinutes d)) in
  let ss := padStart2 (decimal (getSeconds d)) in
  YYYY ++ (MM ++ (DD ++ (hh ++ (mm ++ ss)))).

(** A date as the clock gives it. *)
Definition on_the_clock (d : date) : Prop :=
  1000 <= getFullYear d < 10 * 1000 /\ getMonth d <= 11 /\ 1 <= getDate d <= 31
  /\ getHours d <= 23 /\ getMinutes d <= 59 /\ getSeconds d <= 59.

End Timestamps.

(** *** The token cache of [server/(nodejs,express)server.js] *)

Module TokenCache.
Import JS.

(** [let cachedToken = null; let tokenExpiry = 0;] (lines 36-37). *)
Record cache : Type := { cachedToken : value; tokenExpiry : float }.

Definition empty : cache := {| cachedToken := VNull; tokenExpiry := 0%float |}.

Section Engine.

Variable number_to_string : float -> string.
Variable string_to_number : string -> float.

Local Open Scope js_scope.

(** [(res.data.expires_in || 3600) * 1000] without the factor. *)
Definition lifetime (data : value) : completion float :=
  e <- get data "expires_in" ;;
  to_number number_to_string string_to_number (or_else e (VNum 3600%float)).

(** [getAccessToken] (lines 39-55) at the time [now], with the vendor
    answering [answer] if asked: what it returns or throws, the cache it
    leaves, and whether the vendor was asked. *)
Definition getAccessToken (now : float) (answer : completion value) (c : cache)
  : completion value * cache * bool :=
  if truthy (cachedToken c) && (now <? tokenExpiry c - 5000)%float
  then (Normal (cachedToken c), c, false)
  else
    match answer with
    | Throw e => (Throw e, c, true)
    | Normal data =>
        match get data "access_token" with
        | Throw e => (Throw e, c, true)
        | Normal token =>
            match lifetime data with
            | Throw e =>
                (Throw e, {| cachedToken := token; tokenExpiry := tokenExpiry c |}, true)
            | Normal seconds =>
                (Normal token,
                 {| cachedToken := token; tokenExpiry := (now + seconds * 1000)%float |},
                 true)
            end
        end
    end.

(** One call after the other: each at its time, with the answer the
    vendor would give it; what each returns and whether it asked, and the
    cache at the end. *)
Fixpoint calls_in_turn (asks : list (float * completion value)) (c : cache)
  : list (completion value * bool) * cache :=
  match asks with
  | [] => ([], c)
  | (now, answer) :: rest =>
      let '(r, c', asked) := getAccessToken now answer c in
      let '(rs, c'') := calls_in_turn rest c' in
      ((r, asked) :: rs, c'')
  end.

End Engine.

End TokenCache.

(** *** JSON on the wire and in the storage *)

Module Json.
Import JS.

(** A number as [JSON.stringify] writes it and [JSON.parse] reads it
    back: [NaN] and the infinities become [null], and zero loses its
    sign. *)
Definition number_image (n : float) : value :=
  if is_nan n || is_infinity n then VNull
  else if is_zero n then VNum 0%float
  else VNum n.

(** The bindings of an object as they are read back: a property whose
    value is [undefined] is left out. *)
Definition image_of_bindings (image : value -> value) (props : list (string * value))
  : list (string * value) -> list (string * value) :=
  fix go (l : list (string * value)) : list (string * value) :=
    match l with
    | [] => []
    | (k, x) :: t =>
        if is_undefined (field k props)
        then go t
        else (k, image x) :: go t
    end.

(** [JSON.parse(JSON.stringify(v))] for a [v] that is not [undefined]; an
    [undefined] array element becomes [null]. *)
Fixpoint json_image (v : value) : value :=
  match v with
  | VUndefined | VNull => VNull
  | VBool b => VBool b
  | VNum n => number_image n
  | VStr s => VStr s
  | VArr elems => VArr (map json_image elems)
  | VObj props => VObj (image_of_bindings json_image props props)
  end.

End Json.


(** *** The click handler of the checkout page *)

Module Page.
Import JS Json.

(** [s.trim()]: white space is cut from both ends. *)
Fixpoint trim_start (s : string) : string :=
  match s with
  | EmptyString => EmptyString
  | String c t => if is_space c then trim_start t else s
  end.

Fixpoint trim_end (s : string) : string :=
  match s with
  | EmptyString => EmptyString
  | String c t =>
      match trim_end t with
      | EmptyString => if is_space c then EmptyString else String c EmptyString
      | t' => String c t'
      end
  end.

Definition trim (s : string) : string := trim_end (trim_start s).

(** What [#mpesa-status] says when no poll is running. *)
Inductive message : Type :=
| EnterValidPhone          (* 'Enter a valid Kenya phone number (07...)' *)
| EnterAmount              (* 'Enter an amount' *)
| RequestFailed (text : string)  (* 'Payment request failed: ' + ... *)
| NetworkError.            (* 'Network error. Try again.' *)

(** The page after a click: at rest with a message and the pay button
    disabled or not, or polling. *)
Inductive page : Type :=
| Settled (says : message) (pay_disabled : bool)
| Polling (p : Client.poller).

(** How the server answers a [fetch]: the call rejects, or there is a
    response with its [ok] flag and what [resp.json()] comes to. *)
Definition answer : Type := completion (bool * completion value).

Section Engine.

Variable number_to_string : float -> string.
Variable string_to_number : string -> float.
Variable json_stringify : value -> string.

Local Open Scope js_scope.

(** The body the page posts (line 174). *)
Definition request_body (phone : string) (amount : float) : value :=
  VObj [("phone", VStr phone); ("amount", VNum amount);
        ("accountRef", VStr "QikaoOrder-123")].

(** The [try] block (lines 170-191), once the checks have passed and the
    button is disabled. [server] answers a body as it arrives: what the
    text written by [JSON.stringify] parses to. *)
Definition request (server : value -> answer) (phone : string) (amount : float)
  : completion page :=
  resp <- server (json_image (request_body phone amount)) ;;
  result <- snd resp ;;
  if negb (fst resp)
  then
    e <- get result "error" ;;
    text <- to_string number_to_string
              (if truthy e then e else VStr (json_stringify result)) ;;
    Normal (Settled (RequestFailed ("Payment request failed: " ++ text)) false)
  else
    data <- get result "data" ;;
    id <- get data "CheckoutRequestID" ;;
    Normal (Polling (Client.pollForPayment id)).

(** The click on [#mpesa-pay] (lines 150-198) with what the two fields
    hold: the page it leaves, and the bodies that arrive at the server.
    The button was enabled, or there would have been no click. *)
Definition click (server : value -> answer) (phone_field amount_field : string)
  : page * list value :=
  let phone := trim phone_field in
  let amount := string_to_number amount_field in
  match Client.on_click phone amount with
  | Client.InvalidPhone => (Settled EnterValidPhone false, [])
  | Client.InvalidAmount => (Settled EnterAmount false, [])
  | Client.Send phone amount =>
      (match request server phone amount with
       | Normal p => p
       | Throw _ => Settled NetworkError false
       end,
       [json_image (request_body phone amount)])
  end.

(** The pay button, [n] firings of the interval after the click. *)
Definition pay_disabled_after (n : nat) (p : page) : bool :=
  match p with
  | Settled _ disabled => disabled
  | Polling poller => Client.pay_disabled (Client.after n poller)
  end.

End Engine.

(** An Express server behind the page: [resp.ok] is a code from 200 to
    299, and [resp.json()] is what the body written by [res.json] parses
    to. The bare 500 of the framework carries no JSON. *)
Definition served (r : response) : answer :=
  Normal (((200 <=? code r) && (code r <=? 299))%nat,
          if is_undefined (body r)
          then Throw (Error "Unexpected token '<' is not valid JSON")
          else Normal (json_image (body r))).

(** The click with [server.js] behind the page, in the world [w] and with
    the vendor answering as [gw]. *)
Definition click_on_server_js
           (number_to_string : float -> string) (string_to_number : string -> float)
           (json_stringify : value -> string)
           (env : Server.environment) (gw : Server.gateway) (w : Server.world)
           (phone_field amount_field : string) : page :=
  fst (click number_to_string string_to_number json_stringify
         (fun req_body =>
            served (fst (Server.respond
                           (Server.stkpush number_to_string string_to_number env gw req_body)
                           w)))
         phone_field amount_field).

End Page.


(** *** The cart script of the menu page *)

Module Cart.
Import JS Json.

(** [s.toLowerCase()] on 8-bit code units: the capitals of ASCII and of
    Latin-1. *)
Definition lower_char (c : ascii) : ascii :=
  let n := nat_of_ascii c in
  if ((65 <=? n) && (n <=? 90) || (192 <=? n) && (n <=? 222) && negb (n =? 215))%nat
  then ascii_of_nat (n + 32)
  else c.

Fixpoint toLowerCase (s : string) : string :=
  match s with
  | EmptyString => EmptyString
  | String c t => String (lower_char c) (toLowerCase t)
  end.

(** [s.replace(/\s+/g, '-')]: every run of white space becomes one dash;
    [in_run] says that the character before was white space. *)
Fixpoint dash_runs (in_run : bool) (s : string) : string :=
  match s with
  | EmptyString => EmptyString
  | String c t =>
      if is_space c
      then (if in_run then dash_runs true t else String "-" (dash_runs true t))
      else String c (dash_runs false t)
  end.

(** [[a-z0-9\-]]. *)
Definition slug_char (c : ascii) : bool :=
  let n := nat_of_ascii c in
  ((97 <=? n) && (n <=? 122) || (48 <=? n) && (n <=? 57) || (n =? 45))%nat.

(** [s.replace(/[^a-z0-9\-]/g, '')]. *)
Fixpoint keep_slug_chars (s : string) : string :=
  match s with
  | EmptyString => EmptyString
  | String c t => if slug_char c then String c (keep_slug_chars t) else keep_slug_chars t
  end.

(** [slugify] (line 87). *)
Definition slugify (s : string) : string :=
  keep_slug_chars (dash_runs false (toLowerCase (Page.trim s))).

(** What [localStorage] holds under ['qikao_cart']: nothing, a text that
    is not JSON, or a text that parses to a value. *)
Inductive stored : Type :=
| Nothing
| NotJson
| Parses (v : value).

(** [readCart] (line 85): [[]] when there is nothing or [JSON.parse]
    throws. *)
Definition readCart (st : stored) : value :=
  match st with
  | Parses v => v
  | Nothing | NotJson => VArr []
  end.

(** [saveCart] (line 86). [JSON.stringify(undefined)] is [undefined],
    which is stored as the text ["undefined"]. *)
Definition saveCart (cart : value) : stored :=
  if is_undefined cart then NotJson else Parses (json_image cart).

(** A card of the page as [CARD_NODES] keeps it (lines 92-98). *)
Record card : Type := { id : string; title : string; img : string; price : float }.

(** [x === id] for a string [id]. *)
Definition is_id (x : value) (id : string) : bool :=
  match x with
  | VStr s => (s =? id)
  | _ => false
  end.

Section Engine.

Variable number_to_string : float -> string.
Variable string_to_number : string -> float.
Variable CARD_NODES : list card.

Local Open Scope js_scope.

(** [items.findIndex(i => i.id === id)]. *)
Fixpoint findIndex (id : string) (items : list value) : completion (option nat) :=
  match items with
  | [] => Normal None
  | i :: rest =>
      x <- get i "id" ;;
      if is_id x id
      then Normal (Some 0)
      else (r <- findIndex id rest ;; Normal (option_map S r))
  end.

(** [items.find(i => i.id === id)]. *)
Fixpoint find (id : string) (items : list value) : completion (option value) :=
  match items with
  | [] => Normal None
  | i :: rest =>
      x <- get i "id" ;;
      if is_id x id then Normal (Some i) else find id rest
  end.

(** The elements of [cart], for the array methods; on anything but an
    array [cart.findIndex] and [cart.find] are not functions. *)
Definition elements (cart : value) : completion (list value) :=
  match cart with
  | VArr elems => Normal elems
  | VUndefined | VNull => Throw (TypeError "Cannot read properties of null")
  | _ => Throw (TypeError "is not a function")
  end.

(** [items.splice(idx, 1)]. *)
Fixpoint splice1 (idx : nat) (items : list value) : list value :=
  match items, idx with
  | [], _ => []
  | _ :: rest, O => rest
  | i :: rest, S idx' => i :: splice1 idx' rest
  end.

(** [items[idx].quantity = newQty]; the element is one whose [id] is a
    string, so an object. *)
Fixpoint assign_quantity (idx : nat) (newQty : value) (items : list value) : list value :=
  match items, idx with
  | [], _ => []
  | i :: rest, O =>
      match i with
      | VObj props => VObj (JS.set props "quantity" newQty) :: rest
      | _ => i :: rest
      end
  | i :: rest, S idx' => i :: assign_quantity idx' newQty rest
  end.

(** [CARD_NODES.find(c => c.id === id)]. *)
Definition card_of (wanted : string) : option card :=
  List.find (fun c => id c =? wanted) CARD_NODES.

(** ToPrimitive, and the operator [+]. *)
Definition to_primitive (v : value) : completion value :=
  match v with
  | VArr _ | VObj _ => s <- to_string number_to_string v ;; Normal (VStr s)
  | _ => Normal v
  end.

Definition add (a b : value) : completion value :=
  pa <- to_primitive a ;;
  pb <- to_primitive b ;;
  match pa, pb with
  | VStr _, _ | _, VStr _ =>
      sa <- to_string number_to_string pa ;;
      sb <- to_string number_to_string pb ;;
      Normal (VStr (sa ++ sb))
  | _, _ =>
      na <- to_number number_to_string string_to_number pa ;;
      nb <- to_number number_to_string string_to_number pb ;;
      Normal (VNum (na + nb)%float)
  end.

(** [newQty <= 0]. *)
Definition at_most_zero (newQty : value) : completion bool :=
  n <- to_number number_to_string string_to_number newQty ;;
  Normal (n <=? 0)%float.

(** [setQuantity] (lines 113-129) on what the storage holds: what it
    holds afterwards, unless an exception leaves it as it is. The page is
    redrawn from the storage afterwards. *)
Definition setQuantity (wanted : string) (newQty : value) (st : stored)
  : completion stored :=
  let cart := readCart st in
  items <- elements cart ;;
  idx <- findIndex wanted items ;;
  remove <- at_most_zero newQty ;;
  items' <- (if remove
             then
               match idx with
               | Some n => Normal (splice1 n items)
               | None => Normal items
               end
             else
               match idx with
               | None =>
                   match card_of wanted with
                   | None =>
                       Throw (TypeError "Cannot read properties of undefined (reading 'title')")
                   | Some meta =>
                       Normal (items ++ [VObj [("id", VStr wanted);
                                               ("name", VStr (title meta));
                                               ("price", VNum (price meta));
                                               ("img", VStr (img meta));
                                               ("quantity", newQty)]])%list
                   end
               | Some n => Normal (assign_quantity n newQty items)
               end) ;;
  Normal (saveCart (VArr items')).

(** [changeQuantity] (lines 131-136). *)
Definition changeQuantity (wanted : string) (delta : float) (st : stored)
  : completion stored :=
  let cart := readCart st in
  items <- elements cart ;;
  item <- find wanted items ;;
  current <- match item with
             | Some i => get i "quantity"
             | None => Normal (VNum 0%float)
             end ;;
  newQty <- add current (VNum delta) ;;
  setQuantity wanted newQty st.

(** The number on the badge of a card (lines 196-198): the quantity of
    its item, or zero. *)
Definition badge (wanted : string) (st : stored) : completion value :=
  items <- elements (readCart st) ;;
  item <- find wanted items ;;
  match item with
  | Some i => get i "quantity"
  | None => Normal (VNum 0%float)
  end.

End Engine.

(** The carts the script itself writes: an array of objects, no two of
    them with the same string [id], holding nothing that JSON would
    change. *)
Definition is_object (v : value) : bool :=
  match v with VObj _ => true | _ => false end.

Definition has_id (wanted : string) (i : value) : bool :=
  match i with
  | VObj props => is_id (field "id" props) wanted
  | _ => false
  end.

Definition ids (items : list value) : list string :=
  flat_map (fun i =>
              match i with
              | VObj props => match field "id" props with VStr s => [s] | _ => [] end
              | _ => []
              end) items.

(** [item ? item.quantity : 0] for the object [find] came back with. *)
Definition quantity_of (r : option value) : value :=
  match r with
  | Some (VObj props) => field "quantity" props
  | Some _ => VUndefined
  | None => VNum 0%float
  end.

Definition kept (cart : value) : Prop :=
  exists items,
    cart = VArr items
    /\ forallb is_object items = true
    /\ NoDup (ids items)
    /\ json_image cart = cart.

End Cart.

(** *** More examples *)

Module Samples.
Import JS Server Examples.

(** A server whose short code is not set, and one whose consumer key is
    not. *)
Definition no_short_code : environment :=
  {| MPESA_ENV := None;
     MPESA_CONSUMER_KEY := Some "consumer-key";
     MPESA_CONSUMER_SECRET := Some "consumer-secret";
     MPESA_SHORTCODE := None;
     MPESA_PASSKEY := Some "passkey";
     MPESA_CALLBACK_URL := Some "https://qikao.example/api/mpesa/callback" |}.

Definition no_consumer_key : environment :=
  {| MPESA_ENV := None;
     MPESA_CONSUMER_KEY := None;
     MPESA_CONSUMER_SECRET := Some "consumer-secret";
     MPESA_SHORTCODE := Some "174379";
     MPESA_PASSKEY := Some "passkey";
     MPESA_CALLBACK_URL := Some "https://qikao.example/api/mpesa/callback" |}.

(** A vendor that hands out a token and refuses the push. *)
Definition refusing : gateway :=
  {| oauth_generate := Normal token_data;
     processrequest := fun _ =>
       Throw (AxiosError (Some (VObj [("errorMessage", VStr "Invalid Access Token")]))
                         "Request failed with status code 400") |}.

(** 2 November 2026, 09:05:07. *)
Definition morning : Timestamps.date :=
  {| Timestamps.getFullYear := 2026; Timestamps.getMonth := 10; Timestamps.getDate := 2;
     Timestamps.getHours := 9; Timestamps.getMinutes := 5; Timestamps.getSeconds := 7 |}.

(** A token that lives for 3599 seconds. *)
Definition token_answer : value :=
  VObj [("access_token", VStr "token"); ("expires_in", VNum 3599%float)].

(** A menu of two cards, and a cart that holds two of the first. *)
Definition menu : list Cart.card :=
  [{| Cart.id := "nyama-choma"; Cart.title := "Nyama Choma";
      Cart.img := "images/nyama-choma.jpg"; Cart.price := 850%float |};
   {| Cart.id := "chips-masala"; Cart.title := "Chips Masala";
      Cart.img := "images/chips-masala.jpg"; Cart.price := 250%float |}].

Definition two_nyama_choma : value :=
  VArr [VObj [("id", VStr "nyama-choma"); ("name", VStr "Nyama Choma");
              ("price", VNum 850%float); ("img", VStr "images/nyama-choma.jpg");
              ("quantity", VNum 2%float)]].

End Samples.

(** * Properties *)

(** ** Values and the map *)

Module Facts.
Import JS.

Lemma truthy_get (v : value) (k : string) :
  truthy v = true ->
  get v k = Normal (match v with VObj ps => field k ps | _ => VUndefined end).
Proof. destruct v; simpl; intros H; try discriminate; reflexivity. Qed.

Lemma truthy_field_object (v : value) (k : string) (x : value) :
  get v k = Normal x -> truthy x = true -> exists ps, v = VObj ps /\ field k ps = x.
Proof.
  destruct v; simpl; intros H T; inversion H; subst; try discriminate.
  eexists; split; reflexivity.
Qed.

Lemma same_value_zero_string_r (k : value) (s : string) :
  same_value_zero k (VStr s) = true -> k = VStr s.
Proof.
  destruct k; simpl; intros H; try discriminate.
  apply String.eqb_eq in H. now subst.
Qed.

Lemma same_value_zero_string_l (k : value) (s : string) :
  same_value_zero (VStr s) k = true -> k = VStr s.
Proof.
  destruct k; simpl; intros H; try discriminate.
  apply String.eqb_eq in H. now subst.
Qed.

Lemma same_value_zero_string_refl (s : string) :
  same_value_zero (VStr s) (VStr s) = true.
Proof. simpl. apply String.eqb_refl. Qed.

Lemma get_set_same (m : Orders.t) (k : value) (r : Orders.order) :
  same_value_zero k k = true -> Orders.get (Orders.set m k r) k = Some r.
Proof.
  intros R. induction m as [|[k' r'] m IH]; simpl.
  - now rewrite R.
  - destruct (same_value_zero k' k) eqn:E; simpl; rewrite E; auto.
Qed.

(** Writing under one key leaves what a string key finds under another. *)
Lemma get_set_other (m : Orders.t) (k : value) (r : Orders.order) (s : string) :
  same_value_zero k (VStr s) = false ->
  Orders.get (Orders.set m k r) (VStr s) = Orders.get m (VStr s).
Proof.
  intros N. induction m as [|[k' r'] m IH]; simpl.
  - now rewrite N.
  - destruct (same_value_zero k' k) eqn:E; simpl.
    + destruct (same_value_zero k' (VStr s)) eqn:E'; [|reflexivity].
      apply same_value_zero_string_r in E'. subst k'.
      apply same_value_zero_string_l in E. subst k.
      now rewrite same_value_zero_string_refl in N.
    + now rewrite IH.
Qed.

Lemma set_length (m : Orders.t) (k : value) (r : Orders.order) :
  List.length m <= List.length (Orders.set m k r) <= S (List.length m).
Proof.
  induction m as [|[k' r'] m IH]; simpl; [lia|].
  destruct (same_value_zero k' k); simpl; lia.
Qed.

(** An entry of the map after a write was there before, or is the one
    written: under the key given, or under the key it replaced. *)
Lemma in_set (m : Orders.t) (k k0 : value) (r r0 : Orders.order) :
  In (k, r) (Orders.set m k0 r0) ->
  In (k, r) m \/ (r = r0 /\ (k = k0 \/ same_value_zero k k0 = true)).
Proof.
  induction m as [|[k' r'] m IH]; simpl.
  - intros [H|[]]. inversion H; subst. right; auto.
  - destruct (same_value_zero k' k0) eqn:E; simpl.
    + intros [H|H]; [|auto]. inversion H; subst. right; auto.
    + intros [H|H]; [auto|]. destruct (IH H); auto.
Qed.

End Facts.

(** ** Statements: the rules of [wp] *)

Module Rules.
Import JS Server.
Import Orders(order_status(..), order, Build_order, status, detail, status_name).

Lemma apply_nothing (w : world) : apply nothing w = w.
Proof. destruct w; unfold apply; simpl. now rewrite app_nil_r. Qed.

Lemma apply_and_then (ef ef' : effect) (w : world) :
  apply ef' (apply ef w) = apply (and_then ef ef') w.
Proof.
  unfold apply, and_then, write_all; simpl. now rewrite fold_left_app, app_assoc.
Qed.

Section Wp.

Context {A : Type}.
Variable Q : completion A -> effect -> Prop.

Lemma wp_ret (a : A) : Q (Normal a) nothing -> wp (ret a) Q.
Proof.
  intros H. exists (Normal a), nothing.
  split; [intros w; now rewrite apply_nothing | exact H].
Qed.

Lemma wp_lift (c : completion A) : Q c nothing -> wp (lift c) Q.
Proof.
  intros H. exists c, nothing.
  split; [intros w; now rewrite apply_nothing | exact H].
Qed.

Lemma wp_throw (e : error) : Q (Throw e) nothing -> wp (throw e) Q.
Proof.
  intros H. exists (Throw e), nothing.
  split; [intros w; now rewrite apply_nothing | exact H].
Qed.

Lemma wp_await (call : gateway_call) (answer : completion A) :
  Q answer {| sent := [call]; written := [] |} -> wp (await call answer) Q.
Proof. intros H. eexists _, _. split; [|exact H]. reflexivity. Qed.

Lemma wp_bind {B : Type} (m : M B) (k : B -> M A) :
  wp m (fun c ef =>
          match c with
          | Normal b => wp (k b) (fun c' ef' => Q c' (and_then ef ef'))
          | Throw e => Q (Throw e) ef
          end) ->
  wp (mbind m k) Q.
Proof.
  intros (c & ef & R & H). destruct c as [b|e].
  - destruct H as (c' & ef' & R' & H'). exists c', (and_then ef ef').
    split; [|exact H']. intros w. unfold mbind. now rewrite R, R', apply_and_then.
  - exists (Throw e), ef. split; [|exact H]. intros w. unfold mbind. now rewrite R.
Qed.

Lemma wp_try_catch (m : M A) (h : error -> M A) :
  wp m (fun c ef =>
          match c with
          | Normal a => Q (Normal a) ef
          | Throw e => wp (h e) (fun c' ef' => Q c' (and_then ef ef'))
          end) ->
  wp (try_catch m h) Q.
Proof.
  intros (c & ef & R & H). destruct c as [a|e].
  - exists (Normal a), ef. split; [|exact H]. intros w. unfold try_catch. now rewrite R.
  - destruct H as (c' & ef' & R' & H'). exists c', (and_then ef ef').
    split; [|exact H']. intros w. unfold try_catch. now rewrite R, R', apply_and_then.
Qed.

End Wp.

Lemma wp_set (Q : completion unit -> effect -> Prop) (k : value) (r : order) :
  Q (Normal tt) {| sent := []; written := [(k, r)] |} -> wp (orders_set k r) Q.
Proof.
  intros H. eexists _, _. split; [|exact H].
  intros w. unfold orders_set, apply; simpl. now rewrite app_nil_r.
Qed.

End Rules.

(** One step of a handler: the rule of its leading statement, or the case
    split of a conditional or of a completion. *)
Ltac wp_step :=
  lazymatch goal with
  | |- Server.wp (Server.mbind _ _) _ => apply Rules.wp_bind
  | |- Server.wp (Server.try_catch _ _) _ => apply Rules.wp_try_catch
  | |- Server.wp (Server.ret _) _ => apply Rules.wp_ret
  | |- Server.wp (Server.lift _) _ => apply Rules.wp_lift
  | |- Server.wp (Server.throw _) _ => apply Rules.wp_throw
  | |- Server.wp (Server.await _ _) _ => apply Rules.wp_await
  | |- Server.wp (Server.orders_set _ _) _ => apply Rules.wp_set
  | |- Server.wp (if ?b then _ else _) _ => destruct b eqn:?
  | |- match ?c with JS.Normal _ => _ | JS.Throw _ => _ end => destruct c eqn:?
  end.

Ltac wp_run :=
  repeat (wp_step;
          cbn [Server.and_then Server.nothing Server.sent Server.written app]).

(** ** The handlers of [server/server.js] *)

Module Handlers.
Import JS Server Facts.
Import Orders(order_status(..), order, Build_order, status, detail, status_name).

Lemma or_else_object_truthy (v : value) : truthy (or_else v (VObj [])) = true.
Proof. unfold or_else. destruct (truthy v) eqn:E; auto. Qed.

(** Line 100 never throws: [body] is an object or [{}]. *)
Lemma envelope_total (body : value) :
  truthy body = true -> exists stk, envelope body = Normal stk.
Proof.
  intros T. unfold envelope.
  rewrite (truthy_get body "Body" T), (truthy_get body "stkCallback" T).
  cbn [bind].
  set (b := match body with VObj ps => field "Body" ps | _ => VUndefined end).
  destruct (truthy b) eqn:Tb.
  - rewrite (truthy_get b "stkCallback" Tb). cbn [bind].
    match goal with |- context [truthy ?x] => destruct (truthy x) end;
      eexists; reflexivity.
  - cbn [bind]. rewrite Tb. eexists; reflexivity.
Qed.

Lemma envelope_id_total (stk : value) : exists id, envelope_id stk = Normal id.
Proof.
  unfold envelope_id. destruct (truthy stk) eqn:T.
  - rewrite (truthy_get _ _ T). eexists; reflexivity.
  - eexists; reflexivity.
Qed.

(** A checkout id that passes line 102 was read from an object. *)
Lemma envelope_id_object (stk id : value) :
  envelope_id stk = Normal id -> truthy id = true ->
  exists ps, stk = VObj ps /\ field "CheckoutRequestID" ps = id.
Proof.
  unfold envelope_id. destruct (truthy stk) eqn:T.
  - intros G Ti. exact (truthy_field_object _ _ _ G Ti).
  - intros E Ti. inversion E; subst. congruence.
Qed.

Lemma metadata_object (ps : list (string * value)) :
  exists meta, metadata (VObj ps) = Normal meta.
Proof.
  unfold metadata; simpl.
  destruct (truthy (field "CallbackMetadata" ps)); eexists; reflexivity.
Qed.

Lemma metadata_items_total (meta : value) :
  exists items, metadata_items meta = Normal items.
Proof.
  unfold metadata_items. destruct (truthy meta) eqn:T.
  - rewrite (truthy_get _ _ T). cbn [bind].
    match goal with |- context [match ?x with VArr _ => _ | _ => _ end] => destruct x end;
      eexists; reflexivity.
  - eexists; reflexivity.
Qed.

(** The id line 82 finds is truthy only if the answer was an object. *)
Lemma checkoutId_object (data id : value) :
  checkoutId_of data = Normal id -> truthy id = true -> exists ps, data = VObj ps.
Proof.
  destruct data; simpl; try (intros H; inversion H; subst; discriminate).
  eauto.
Qed.

Lemma assigned_cons (b : option (string * value)) (bs : list (option (string * value))) :
  assigned (b :: bs) = (assigned [b] ++ assigned bs)%list.
Proof. unfold assigned; simpl. now rewrite app_nil_r, filter_app. Qed.

Lemma set_assigned (d : list (string * value)) (key : string) (v : value) :
  JS.set d key v = (d ++ assigned [Some (key, v)])%list.
Proof.
  unfold JS.set, assigned; simpl. destruct (key =? "__proto__"); simpl; auto.
  now rewrite app_nil_r.
Qed.

(** When no item throws, [forEach] leaves the assignments of the items'
    bindings on [detail], in order. *)
Lemma collect_items_bindings (nts : float -> string)
      (items : list value) (bindings : list (option (string * value))) :
  Forall2 (fun i b => item_binding nts i = Normal b) items bindings ->
  forall d, collect_items nts d items = Normal (d ++ assigned bindings)%list.
Proof.
  induction 1 as [|i b items bindings Hi _ IH]; intros d; simpl.
  - now rewrite app_nil_r.
  - rewrite Hi. cbn [bind]. rewrite IH, (assigned_cons b bindings), app_assoc.
    destruct b as [[key v]|].
    + now rewrite set_assigned.
    + unfold assigned at 2; simpl. now rewrite app_nil_r.
Qed.

(** An item that is an object with a string for [Name] has a binding: its
    name and value, when the name is not empty and the value is there. *)
Lemma name_value_binding (nts : float -> string) (ps : list (string * value)) (s : string) :
  field "Name" ps = VStr s ->
  item_binding nts (VObj ps)
  = Normal (if negb (s =? "") && negb (is_undefined (field "Value" ps))
            then Some (s, field "Value" ps)
            else None).
Proof.
  intros N. unfold item_binding. cbn [get bind]. rewrite N. cbn [truthy].
  destruct (s =? ""); cbn [negb andb]; [reflexivity|].
  now destruct (is_undefined (field "Value" ps)).
Qed.

(** So every list of such items can be walked by [forEach]. *)
Lemma name_value_items_bindings (nts : float -> string) (items : list value) :
  Forall (fun i => exists ps s, i = VObj ps /\ field "Name" ps = VStr s) items ->
  exists bindings, Forall2 (fun i b => item_binding nts i = Normal b) items bindings.
Proof.
  induction 1 as [|i items (ps & s & -> & N) _ [bindings IH]].
  - exists []. constructor.
  - eexists (_ :: bindings). constructor; [|exact IH].
    exact (name_value_binding nts ps s N).
Qed.

Lemma assign_assigned (target source : list (string * value)) :
  assign target source
  = (target ++ filter (fun kv => negb (fst kv =? "__proto__")) source)%list.
Proof.
  unfold assign. revert target.
  induction source as [|[k v] source IH]; intros target; simpl.
  - now rewrite app_nil_r.
  - rewrite IH. unfold JS.set. destruct (k =? "__proto__"); simpl; auto.
    now rewrite <- app_assoc.
Qed.

Lemma assigned_filter (bindings : list (option (string * value))) :
  filter (fun kv => negb (fst kv =? "__proto__")) (assigned bindings) = assigned bindings.
Proof.
  unfold assigned.
  induction (flat_map _ bindings) as [|[k v] l IH]; simpl; auto.
  destruct (k =? "__proto__") eqn:E; simpl; auto. now rewrite E, IH.
Qed.

Section Specs.

Variable number_to_string : float -> string.
Variable string_to_number : string -> float.
Variable env : environment.

(** [POST /api/mpesa/callback] sends nothing and writes at most one
    terminal intent, under a truthy id; it answers the acknowledgment, or
    the error of its [catch] with nothing written. *)
Lemma callback_spec (req_body : value) :
  wp (callback number_to_string req_body) callback_post.
Proof.
  unfold callback, callback_block, callback_post.
  wp_run; try (split; [reflexivity|]); auto.
  all: left; split; [reflexivity|]; right; eexists _, _; split; [reflexivity|].
  all: cbn [status detail Orders.terminal].
  all: match goal with
       | I : envelope_id _ = Normal ?id, T : truthy ?id = true |- _ =>
           destruct (envelope_id_object _ _ I T) as (ps & -> & F)
       end.
  all: match goal with
       | G : get (VObj _) "CheckoutRequestID" = Normal _ |- _ =>
           simpl in G; inversion G; subst
       end.
  all: split; [assumption|]; split; [reflexivity|]; eexists; reflexivity.
Qed.

(** [POST /api/mpesa/stkpush]: what it answers, sends and writes. *)
Lemma stkpush_spec (gw : gateway) (req_body : value) :
  wp (stkpush number_to_string string_to_number env gw req_body) (stkpush_post gw).
Proof.
  unfold stkpush, getAccessToken, stkpush_post.
  wp_run.
  all: eexists; split; [reflexivity|]; cbn [code body json].
  all: try (left; split; reflexivity).
  all: try (right; left; split; reflexivity).
  all: right; right; split; [reflexivity|].
  all: do 4 eexists; repeat (split; [eassumption || reflexivity|]).
  all: match goal with H : truthy _ = _ |- _ => rewrite H end; reflexivity.
Qed.

End Specs.

End Handlers.

(** ** The payment tracker *)

Module Tracker.
Import JS Server Facts Rules Handlers Examples.
Import Orders(order_status(..), order, Build_order, status, detail, status_name).

Section Server.

Variable nts : float -> string.
Variable stn : string -> float.
Variable env : environment.

Lemma respond_apply (m : M response) (c : completion response) (ef : effect) (w : world) :
  (forall w, m w = (c, apply ef w)) -> snd (respond m w) = apply ef w.
Proof. intros R. unfold respond. rewrite R. now destruct c. Qed.

Lemma respond_normal (m : M response) (r : response) (ef : effect) (w : world) :
  (forall w, m w = (Normal r, apply ef w)) -> respond m w = (r, apply ef w).
Proof. intros R. unfold respond. now rewrite R. Qed.

(** Polling changes nothing. *)
Lemma status_query_world (checkoutId : value) (w : world) :
  snd (respond (status_query checkoutId) w) = w.
Proof.
  unfold respond, status_query, mbind, orders_get, ret.
  destruct (truthy checkoutId); simpl; [|reflexivity].
  now destruct (Orders.get (ORDERS w) checkoutId).
Qed.

(** A request leaves the map as it is, or writes one intent into it: a
    pending one that carries the vendor's answer, or a terminal one. *)
Lemma handle_writes (r : request) :
  (forall w, ORDERS (snd (handle nts stn env r w)) = ORDERS w)
  \/ (exists id rec,
        truthy id = true
        /\ (forall w, ORDERS (snd (handle nts stn env r w)) = Orders.set (ORDERS w) id rec)
        /\ match r with
           | PostStkpush _ _ =>
               status rec = PENDING
               /\ exists ps, detail rec = VObj ps /\ checkoutId_of (VObj ps) = Normal id
           | PostCallback _ =>
               Orders.terminal (status rec) = true /\ exists ps, detail rec = VObj ps
           | GetStatus _ => False
           end).
Proof.
  destruct r as [gw req_body|req_body|checkoutId]; cbn [handle].
  - destruct (stkpush_spec nts stn env gw req_body)
      as (c & ef & R & r & -> & [[_ ->]|[[_ W]|(_ & tok & p & data & id & _ & _ & _ & I & W)]]).
    + left. intros w. now rewrite (respond_apply _ _ _ w R).
    + left. intros w. rewrite (respond_apply _ _ _ w R). unfold apply; simpl. now rewrite W.
    + destruct (truthy id) eqn:T.
      * right. exists id, {| status := PENDING; detail := or_else data (VObj []) |}.
        split; [assumption|]. split.
        -- intros w. rewrite (respond_apply _ _ _ w R). unfold apply; simpl. now rewrite W.
        -- split; [reflexivity|]. cbn [detail].
           destruct (checkoutId_object _ _ I T) as [ps E]. rewrite E in *. eauto.
      * left. intros w. rewrite (respond_apply _ _ _ w R). unfold apply; simpl. now rewrite W.
  - destruct (callback_spec nts req_body)
      as (c & ef & R & _ & [[_ [W|(id & rec & W & T & S & D)]]|[_ W]]).
    + left. intros w. rewrite (respond_apply _ _ _ w R). unfold apply; simpl. now rewrite W.
    + right. exists id, rec. split; [assumption|]. split; [|auto].
      intros w. rewrite (respond_apply _ _ _ w R). unfold apply; simpl. now rewrite W.
    + left. intros w. rewrite (respond_apply _ _ _ w R). unfold apply; simpl. now rewrite W.
  - left. intros w. now rewrite status_query_world.
Qed.

Lemma reachable_serve (rs : list request) (w : world) :
  reachable nts stn env w -> reachable nts stn env (serve nts stn env rs w).
Proof.
  revert w. induction rs as [|r rs IH]; intros w H; simpl; [assumption|].
  apply IH. now constructor.
Qed.

(** The [try] block answers nothing but the acknowledgment, and has
    written nothing when it throws. *)
Lemma callback_block_spec (req_body : value) :
  wp (callback_block nts req_body)
     (fun c ef => match c with
                  | Normal r => r = acknowledgment
                  | Throw _ => ef = nothing
                  end).
Proof. unfold callback_block. wp_run; reflexivity. Qed.

(** A callback whose envelope names a checkout writes a terminal intent
    under that id, the same in every world, or throws on the way and
    writes nothing. *)
Lemma callback_writes_under_id
      (req_body : value) (ps : list (string * value)) (id : value) :
  envelope (or_else req_body (VObj [])) = Normal (VObj ps) ->
  field "CheckoutRequestID" ps = id ->
  truthy id = true ->
  (exists rec,
      Orders.terminal (status rec) = true
      /\ forall w,
           respond (callback nts req_body) w
           = (acknowledgment,
              {| ORDERS := Orders.set (ORDERS w) id rec; calls := calls w |}))
  \/ (forall w, respond (callback nts req_body) w = (callback_error, w)).
Proof.
  intros E F T.
  assert (U : is_undefined req_body = false).
  { destruct req_body; try reflexivity. discriminate E. }
  destruct (metadata_object ps) as [meta Hm].
  destruct (metadata_items_total meta) as [items Hi].
  destruct (strict_eq_zero (field "ResultCode" ps)) eqn:Z.
  - destruct (collect_items nts [] items) as [d|e] eqn:C.
    + left. eexists. split; [|intros w].
      2:{ unfold respond, callback, try_catch, callback_block, mbind, lift, ret, orders_set.
          rewrite U, E. cbn [envelope_id truthy get]. rewrite F, T, Hm, Z, Hi, C.
          reflexivity. }
      reflexivity.
    + right. intros w.
      unfold respond, callback, try_catch, callback_block, mbind, lift, ret, orders_set.
      rewrite U, E. cbn [envelope_id truthy get]. rewrite F, T, Hm, Z, Hi, C.
      reflexivity.
  - left. eexists. split; [|intros w].
    2:{ unfold respond, callback, try_catch, callback_block, mbind, lift, ret, orders_set.
        rewrite U, E. cbn [envelope_id truthy get]. rewrite F, T, Hm, Z.
        reflexivity. }
    reflexivity.
Qed.

(** An initiation answered 200 with data that names a checkout has
    written a pending intent with that data under that id, in every
    world. *)
Lemma stkpush_writes_under_id
      (gw : gateway) (req_body : value) (data id : value) (w0 : world) :
  fst (respond (stkpush nts stn env gw req_body) w0)
  = json 200 [("success", VBool true); ("data", data)] ->
  checkoutId_of data = Normal id ->
  truthy id = true ->
  forall w,
    fst (respond (stkpush nts stn env gw req_body) w)
    = json 200 [("success", VBool true); ("data", data)]
    /\ ORDERS (snd (respond (stkpush nts stn env gw req_body) w))
       = Orders.set (ORDERS w) id {| status := PENDING; detail := data |}.
Proof.
  intros A I T w.
  destruct (stkpush_spec nts stn env gw req_body) as (c & ef & R & r & -> & Q).
  rewrite (respond_normal _ _ _ w0 R) in A. cbn [fst] in A. subst r.
  rewrite (respond_normal _ _ _ w R). cbn [fst snd]. split; [reflexivity|].
  destruct Q as [[C _]|[[C _]|(_ & tok & p & d & id' & _ & _ & B & I' & W)]];
    try discriminate C.
  cbn [body json] in B. inversion B as [D]. rewrite <- D in *.
  rewrite I in I'. inversion I'; subst id'.
  rewrite T in W. unfold apply. rewrite W. reflexivity.
Qed.

(** C1, as amended. A stored intent is not protected by its status.
    First, a request either leaves the map alone, or writes one intent
    under one truthy id, the same in every world, that is whatever the map
    held under that id before, a terminal intent included; the write of a
    callback is terminal, the write of an initiation is pending; after it
    a string id finds the written intent, and every other string id finds
    what it found before. Second, the writes do happen, and under the id
    the request names. A callback whose envelope names a truthy checkout
    id and which is answered with the acknowledgment (its [try] block
    threw nothing) has put a terminal intent under that id, an intent
    that is the same whatever the map held. An initiation answered 200
    with data that names a truthy checkout id has put a pending intent
    with that data under that id. In both cases the id then finds the
    intent written, and every other string id finds what it found before.
    A status request changes nothing. *)
Theorem last_write_wins (r : request) :
  ((forall w, ORDERS (snd (handle nts stn env r w)) = ORDERS w)
   \/ (exists id rec,
         truthy id = true
         /\ match r with
            | PostStkpush _ _ => status rec = PENDING
            | PostCallback _ => Orders.terminal (status rec) = true
            | GetStatus _ => False
            end
         /\ forall w,
              ORDERS (snd (handle nts stn env r w)) = Orders.set (ORDERS w) id rec
              /\ (forall s, id = VStr s ->
                    Orders.get (ORDERS (snd (handle nts stn env r w))) (VStr s) = Some rec)
              /\ (forall s, same_value_zero id (VStr s) = false ->
                    Orders.get (ORDERS (snd (handle nts stn env r w))) (VStr s)
                    = Orders.get (ORDERS w) (VStr s))))
  /\ match r with
     | PostCallback req_body =>
         forall ps id,
           envelope (or_else req_body (VObj [])) = Normal (VObj ps) ->
           field "CheckoutRequestID" ps = id ->
           truthy id = true ->
           (exists w, fst (handle nts stn env (PostCallback req_body) w) = acknowledgment) ->
           exists rec,
             Orders.terminal (status rec) = true
             /\ forall w,
                  handle nts stn env (PostCallback req_body) w
                  = (acknowledgment,
                     {| ORDERS := Orders.set (ORDERS w) id rec; calls := calls w |})
                  /\ (same_value_zero id id = true ->
                      Orders.get
                        (ORDERS (snd (handle nts stn env (PostCallback req_body) w))) id
                      = Some rec)
                  /\ (forall s, same_value_zero id (VStr s) = false ->
                        Orders.get
                          (ORDERS (snd (handle nts stn env (PostCallback req_body) w)))
                          (VStr s)
                        = Orders.get (ORDERS w) (VStr s))
     | PostStkpush gw req_body =>
         forall data id,
           (exists w,
               fst (handle nts stn env (PostStkpush gw req_body) w)
               = json 200 [("success", VBool true); ("data", data)]) ->
           checkoutId_of data = Normal id ->
           truthy id = true ->
           forall w,
             ORDERS (snd (handle nts stn env (PostStkpush gw req_body) w))
             = Orders.set (ORDERS w) id {| status := PENDING; detail := data |}
             /\ (same_value_zero id id = true ->
                 Orders.get
                   (ORDERS (snd (handle nts stn env (PostStkpush gw req_body) w))) id
                 = Some {| status := PENDING; detail := data |})
             /\ (forall s, same_value_zero id (VStr s) = false ->
                   Orders.get
                     (ORDERS (snd (handle nts stn env (PostStkpush gw req_body) w)))
                     (VStr s)
                   = Orders.get (ORDERS w) (VStr s))
     | GetStatus checkoutId =>
         forall w, snd (handle nts stn env (GetStatus checkoutId) w) = w
     end.
Proof.
  split.
  - destruct (handle_writes r) as [H|(id & rec & T & W & K)]; [now left|right].
    exists id, rec. split; [assumption|]. split.
    + destruct r; tauto.
    + intros w. rewrite W. split; [reflexivity|]. split.
      * intros s ->. apply get_set_same, same_value_zero_string_refl.
      * intros s N. now apply get_set_other.
  - destruct r as [gw req_body|req_body|checkoutId]; cbn [handle].
    + intros data id [w0 A] I T w.
      destruct (stkpush_writes_under_id gw req_body data id w0 A I T w) as [_ W].
      rewrite W. split; [reflexivity|]. split.
      * intros S. now apply get_set_same.
      * intros s N. now apply get_set_other.
    + intros ps id E F T [w0 A].
      destruct (callback_writes_under_id req_body ps id E F T) as [(rec & K & W)|W].
      * exists rec. split; [exact K|]. intros w. rewrite W. cbn [snd ORDERS].
        split; [reflexivity|]. split.
        -- intros S. now apply get_set_same.
        -- intros s N. now apply get_set_other.
      * rewrite W in A. discriminate A.
    + intros w. apply status_query_world.
Qed.

(** C2, as amended. The callback endpoint answers 200 with the
    acknowledgment exactly when its [try] block runs to its end, whether
    or not an intent was stored; when the block throws, the [catch] block
    answers 500 with an error body and the world is as it was. The block
    runs to its end on every delivered body whose metadata items each have
    a binding, as name/value objects do. *)
Theorem callback_acknowledges_unless_exception (req_body : value) (w : world) :
  (forall r w', callback_block nts req_body w = (Normal r, w') ->
     respond (callback nts req_body) w = (acknowledgment, w'))
  /\ (forall e w', callback_block nts req_body w = (Throw e, w') ->
        respond (callback nts req_body) w = (callback_error, w))
  /\ (is_undefined req_body = false ->
      (forall stk meta items,
          envelope (or_else req_body (VObj [])) = Normal stk ->
          metadata stk = Normal meta ->
          metadata_items meta = Normal items ->
          exists bindings,
            Forall2 (fun i b => item_binding nts i = Normal b) items bindings) ->
      fst (respond (callback nts req_body) w) = acknowledgment).
Proof.
  destruct (callback_block_spec req_body) as (c & ef & R & Q).
  split; [|split].
  - intros r w' B. unfold respond, callback, try_catch. rewrite B.
    rewrite R in B. inversion B; subst. simpl in Q. now subst.
  - intros e w' B. unfold respond, callback, try_catch. rewrite B.
    rewrite R in B. inversion B; subst. simpl in Q. subst. now rewrite apply_nothing.
  - intros U Items.
    destruct (envelope_total _ (or_else_object_truthy req_body)) as [stk E].
    destruct (envelope_id_total stk) as [id I].
    unfold respond, callback, try_catch, callback_block, mbind, lift, ret.
    rewrite U, E, I.
    destruct (truthy id) eqn:T; [|reflexivity].
    destruct (envelope_id_object _ _ I T) as (ps & -> & F).
    destruct (metadata_object ps) as [meta Hm].
    destruct (metadata_items_total meta) as [items Hi].
    destruct (Items _ _ _ E Hm Hi) as [bindings Hb].
    cbn [get]. rewrite Hm.
    destruct (strict_eq_zero (field "ResultCode" ps)); [|reflexivity].
    rewrite Hi, (collect_items_bindings _ _ _ Hb). reflexivity.
Qed.


(** C3, as amended. A delivered callback whose envelope names a checkout
    is answered with the acknowledgment and stores one intent under that
    id. With
    result code zero and metadata items that each have a binding, as
    name/value objects do, the intent is [SUCCESS] and its detail holds the
    result description followed by the bindings of the items, in order:
    [Name] as key and [Value] as value, for each item that has both. With
    any other result code the intent is [FAILED] and its detail holds the
    result code and the result description. *)
Theorem callback_records_outcome
        (req_body : value) (w : world) (ps : list (string * value)) (id : value) :
  is_undefined req_body = false ->
  envelope (or_else req_body (VObj [])) = Normal (VObj ps) ->
  field "CheckoutRequestID" ps = id ->
  truthy id = true ->
  (forall n meta items bindings,
      field "ResultCode" ps = VNum n -> (n =? 0)%float = true ->
      metadata (VObj ps) = Normal meta ->
      metadata_items meta = Normal items ->
      Forall2 (fun i b => item_binding nts i = Normal b) items bindings ->
      respond (callback nts req_body) w
      = (acknowledgment,
         {| ORDERS :=
              Orders.set (ORDERS w) id
                {| status := SUCCESS;
                   detail := VObj (("ResultDesc", or_else (field "ResultDesc" ps) (VStr ""))
                                     :: assigned bindings) |};
            calls := calls w |}))
  /\ ((forall n, field "ResultCode" ps = VNum n -> (n =? 0)%float = false) ->
      respond (callback nts req_body) w
      = (acknowledgment,
         {| ORDERS :=
              Orders.set (ORDERS w) id
                {| status := FAILED;
                   detail := VObj [("ResultCode", field "ResultCode" ps);
                                   ("ResultDesc", or_else (field "ResultDesc" ps) (VStr ""))] |};
            calls := calls w |})).
Proof.
  intros U E F T. split.
  - intros n meta items bindings C Z Hm Hi Hb.
    unfold respond, callback, try_catch, callback_block, mbind, lift, ret, orders_set.
    rewrite U, E. cbn [envelope_id truthy get]. rewrite F, T, Hm, C.
    cbn [strict_eq_zero]. rewrite Z, Hi, (collect_items_bindings _ _ _ Hb).
    cbn [app]. now rewrite assign_assigned, assigned_filter.
  - intros C.
    unfold respond, callback, try_catch, callback_block, mbind, lift, ret, orders_set.
    rewrite U, E. cbn [envelope_id truthy get]. rewrite F, T.
    destruct (metadata_object ps) as [meta ->].
    assert (Z : strict_eq_zero (field "ResultCode" ps) = false).
    { destruct (field "ResultCode" ps); simpl; auto. }
    now rewrite Z.
Qed.

(** C4. The status endpoint answers 400 when [checkoutId] is absent (or
    empty), and [{ status: 'PENDING' }] with code 200 for every id the map
    does not hold; either way the world is as it was. *)
Theorem status_query_unknown_or_missing (w : world) :
  respond (status_query VUndefined) w = (json 400 [("error", VStr "checkoutId required")], w)
  /\ (forall checkoutId,
        truthy checkoutId = false ->
        respond (status_query checkoutId) w
        = (json 400 [("error", VStr "checkoutId required")], w))
  /\ (forall checkoutId,
        truthy checkoutId = true ->
        Orders.get (ORDERS w) checkoutId = None ->
        respond (status_query checkoutId) w = (json 200 [("status", VStr "PENDING")], w)).
Proof.
  split; [reflexivity|]. split.
  - intros checkoutId T. unfold respond, status_query. now rewrite T.
  - intros checkoutId T N. unfold respond, status_query, mbind, orders_get, ret.
    rewrite T. cbn [negb]. now rewrite N.
Qed.

(** C6, as amended. An initiation has one of three outcomes. It answers
    200 with the vendor's answer: then both calls to the vendor succeeded,
    and the answer's checkout id, when it has one, has one [PENDING] intent
    written under it, while an answer without a checkout id writes nothing.
    It answers 400, before any call to the vendor. Or it answers 500 and
    the map is as it was; this is what a vendor that fails either call
    gets. No initiation adds more than one entry to the map. *)
Theorem stkpush_outcomes (gw : gateway) (req_body : value) (w : world) :
  let '(r, w') := respond (stkpush nts stn env gw req_body) w in
  ((code r = 200
    /\ exists tok payload data id,
        oauth_generate gw = Normal tok
        /\ processrequest gw payload = Normal data
        /\ body r = VObj [("success", VBool true); ("data", or_else data (VObj []))]
        /\ checkoutId_of (or_else data (VObj [])) = Normal id
        /\ ORDERS w' =
           if truthy id
           then Orders.set (ORDERS w) id
                  {| status := PENDING; detail := or_else data (VObj []) |}
           else ORDERS w)
   \/ (code r = 400 /\ w' = w)
   \/ (code r = 500 /\ ORDERS w' = ORDERS w))
  /\ ((exists e, oauth_generate gw = Throw e)
      \/ (forall payload, exists e, processrequest gw payload = Throw e) ->
      (code r = 400 \/ code r = 500) /\ ORDERS w' = ORDERS w)
  /\ List.length (ORDERS w) <= List.length (ORDERS w') <= S (List.length (ORDERS w)).
Proof.
  destruct (stkpush_spec nts stn env gw req_body) as (c & ef & R & r & -> & Q).
  rewrite (respond_normal _ _ _ w R).
  destruct Q as [[C ->]|[[C W]|(C & tok & p & data & id & O & P & B & I & W)]].
  - rewrite apply_nothing. split; [auto|]. split; [intros _; auto|lia].
  - assert (K : ORDERS (apply ef w) = ORDERS w) by (unfold apply; simpl; now rewrite W).
    split; [auto|]. rewrite K. split; [intros _; auto|lia].
  - assert (K : ORDERS (apply ef w)
                = if truthy id
                  then Orders.set (ORDERS w) id
                         {| status := PENDING; detail := or_else data (VObj []) |}
                  else ORDERS w).
    { unfold apply; simpl. rewrite W. now destruct (truthy id). }
    split; [|split].
    + left. split; [assumption|]. exists tok, p, data, id.
      repeat (split; [assumption|]). exact K.
    + intros [[e F]|F]; [congruence|]. destruct (F p) as [e F']. congruence.
    + rewrite K. destruct (truthy id); [apply set_length|lia].
Qed.

(** C7, as amended. In every world the server can be in, an intent that
    is [PENDING] has a detail: the object the vendor answered the
    initiation with, which names the checkout id the intent is stored
    under. *)
Theorem pending_detail_is_gateway_response (w : world) (k : value) (r : order) :
  reachable nts stn env w ->
  In (k, r) (ORDERS w) ->
  status r = PENDING ->
  exists ps id,
    detail r = VObj ps
    /\ checkoutId_of (VObj ps) = Normal id
    /\ truthy id = true
    /\ (k = id \/ same_value_zero k id = true).
Proof.
  intros H. revert k r.
  induction H as [|rq w H IH]; intros k r I P.
  - destruct I.
  - destruct (handle_writes rq) as [U|(id & rec & T & W & K)].
    + rewrite U in I. now apply IH.
    + rewrite W in I. destruct (in_set _ _ _ _ _ I) as [I'|[-> S]]; [now apply IH|].
      destruct rq; [|destruct K as [K _]; rewrite P in K; discriminate|destruct K].
      destruct K as (_ & ps & D & C). exists ps, id. auto.
Qed.

(** A delivered body from which line 100 gets no envelope, or an
    envelope without a checkout id, is answered with the acknowledgment,
    and the world is as it was: nothing is written to the map. Lines 100
    and 102 never throw, so every delivered body has an envelope value and
    an id value to look at. *)
Theorem callback_without_envelope (req_body : value) (w : world) :
  is_undefined req_body = false ->
  (exists stk id,
      envelope (or_else req_body (VObj [])) = Normal stk /\ envelope_id stk = Normal id)
  /\ (forall stk id,
        envelope (or_else req_body (VObj [])) = Normal stk ->
        envelope_id stk = Normal id ->
        truthy id = false ->
        respond (callback nts req_body) w = (acknowledgment, w)).
Proof.
  intros U. split.
  - destruct (envelope_total _ (or_else_object_truthy req_body)) as [stk E].
    destruct (envelope_id_total stk) as [id I]. eauto.
  - intros stk id E I T.
    unfold respond, callback, try_catch, callback_block, mbind, lift, ret.
    rewrite U, E, I, T. now destruct w.
Qed.

(** C10. The success branch is taken by [resultCode === 0] alone. A
    delivered callback whose envelope names a checkout and whose result
    code is anything but a number equal to zero (the string ["0"], an
    absent code, any other number) stores a [FAILED] intent under that id,
    and no [SUCCESS] intent is in the map afterwards that was not there
    before. *)
Theorem callback_result_code_strict
        (req_body : value) (w : world) (ps : list (string * value)) (id : value) :
  is_undefined req_body = false ->
  envelope (or_else req_body (VObj [])) = Normal (VObj ps) ->
  field "CheckoutRequestID" ps = id ->
  truthy id = true ->
  (forall n, field "ResultCode" ps = VNum n -> (n =? 0)%float = false) ->
  (exists rec,
      status rec = FAILED
      /\ ORDERS (snd (respond (callback nts req_body) w)) = Orders.set (ORDERS w) id rec)
  /\ (forall k r,
        In (k, r) (ORDERS (snd (respond (callback nts req_body) w))) ->
        status r = SUCCESS ->
        In (k, r) (ORDERS w)).
Proof.
  intros U E F T C.
  assert (R : ORDERS (snd (respond (callback nts req_body) w))
              = Orders.set (ORDERS w) id
                  {| status := FAILED;
                     detail := VObj [("ResultCode", field "ResultCode" ps);
                                     ("ResultDesc", or_else (field "ResultDesc" ps) (VStr ""))] |}).
  { unfold respond, callback, try_catch, callback_block, mbind, lift, ret, orders_set.
    rewrite U, E. cbn [envelope_id truthy get]. rewrite F, T.
    destruct (metadata_object ps) as [meta ->].
    assert (Z : strict_eq_zero (field "ResultCode" ps) = false).
    { destruct (field "ResultCode" ps); simpl; auto. }
    now rewrite Z. }
  split.
  - eexists. split; [|exact R]. reflexivity.
  - intros k r I S. rewrite R in I.
    destruct (in_set _ _ _ _ _ I) as [I'|[-> _]]; [assumption|discriminate].
Qed.

End Server.

(** *** The claims on examples *)

(** C1 as stated fails. Checkout [ws_1] is reported paid and stored as
    [SUCCESS]; a second report for the same checkout turns it into
    [FAILED], and an initiation that the vendor answers with the same
    checkout id turns it back into [PENDING]. *)
Lemma terminal_intent_overwritten :
  Orders.get (ORDERS (run [PostCallback paid])) (VStr "ws_1")
  = Some {| status := SUCCESS;
            detail := VObj [("ResultDesc", VStr "The service request is processed successfully.");
                            ("Amount", VNum 150%float);
                            ("MpesaReceiptNumber", VStr "QAX123");
                            ("PhoneNumber", VNum 254712345678%float)] |}
  /\ Orders.get (ORDERS (run [PostCallback paid; PostCallback cancelled])) (VStr "ws_1")
     = Some {| status := FAILED;
               detail := VObj [("ResultCode", VNum 1032%float);
                               ("ResultDesc", VStr "Request cancelled by user")] |}
  /\ Orders.get
       (ORDERS (run [PostCallback paid;
                     PostStkpush accepting (initiation (VStr "0712345678") (VNum 150%float))]))
       (VStr "ws_1")
     = Some {| status := PENDING; detail := accepted_data |}.
Proof. repeat split; reflexivity. Qed.

(** C1, as amended, on the report of a cancelled payment that arrives
    when checkout [ws_1] is stored as paid: the terminal intent it writes
    is what [ws_1] finds afterwards. *)
Lemma last_write_wins_witness :
  exists rec,
    Orders.terminal (status rec) = true
    /\ Orders.get (ORDERS (run [PostCallback paid])) (VStr "ws_1")
       = Some {| status := SUCCESS;
                 detail := VObj [("ResultDesc",
                                  VStr "The service request is processed successfully.");
                                 ("Amount", VNum 150%float);
                                 ("MpesaReceiptNumber", VStr "QAX123");
                                 ("PhoneNumber", VNum 254712345678%float)] |}
    /\ Orders.get
         (ORDERS (snd (handle any_number_to_string any_string_to_number sandbox
                         (PostCallback cancelled) (run [PostCallback paid]))))
         (VStr "ws_1")
       = Some rec.
Proof.
  destruct (proj2 (last_write_wins any_number_to_string any_string_to_number sandbox
                     (PostCallback cancelled))
                  _ (VStr "ws_1") eq_refl eq_refl eq_refl (ex_intro _ start eq_refl))
    as (rec & K & W).
  exists rec. split; [exact K|]. split; [reflexivity|].
  exact (proj1 (proj2 (W (run [PostCallback paid]))) eq_refl).
Defined.

(** C2 as stated fails. A success report whose item list holds a [null]
    throws at [i.Name]; both servers answer it with code 500, and
    [server.js] stores nothing. *)
Lemma callback_null_item_answers_500 :
  respond (callback any_number_to_string paid_with_null_item) start
  = ({| code := 500; body := VObj [("error", VStr "callback processing error")] |}, start)
  /\ ExpressServer.callback paid_with_null_item
     = {| code := 500;
          body := VObj [("ResultCode", VNum 1%float); ("ResultDesc", VStr "Server error")] |}.
Proof. split; reflexivity. Qed.

(** C3 as stated fails. The report [paid_with_null_item] has a valid
    envelope that names checkout [ws_1] and the result code 0, and its
    item list holds a [null]: line 113 throws at [i.Name], the answer is
    the 500 of the [catch] block, and no intent is stored under [ws_1]. *)
Lemma success_report_with_null_item_stores_nothing :
  (exists ps,
      envelope (or_else paid_with_null_item (VObj [])) = Normal (VObj ps)
      /\ field "CheckoutRequestID" ps = VStr "ws_1"
      /\ field "ResultCode" ps = VNum 0%float)
  /\ fst (respond (callback any_number_to_string paid_with_null_item) start) = callback_error
  /\ Orders.get
       (ORDERS (snd (respond (callback any_number_to_string paid_with_null_item) start)))
       (VStr "ws_1")
     = None.
Proof. split; [eexists; repeat split|split]; reflexivity. Qed.

(** C3, as amended, on the two reports: the paid one stores the amount,
    the receipt and the phone number, the cancelled one the code 1032. *)
Lemma callback_records_outcome_witness :
  respond (callback any_number_to_string paid) start
  = (acknowledgment,
     {| ORDERS :=
          [(VStr "ws_1",
            {| status := SUCCESS;
               detail :=
                 VObj [("ResultDesc", VStr "The service request is processed successfully.");
                       ("Amount", VNum 150%float);
                       ("MpesaReceiptNumber", VStr "QAX123");
                       ("PhoneNumber", VNum 254712345678%float)] |})];
        calls := [] |})
  /\ respond (callback any_number_to_string cancelled) start
     = (acknowledgment,
        {| ORDERS :=
             [(VStr "ws_1",
               {| status := FAILED;
                  detail := VObj [("ResultCode", VNum 1032%float);
                                  ("ResultDesc", VStr "Request cancelled by user")] |})];
           calls := [] |}).
Proof.
  split.
  - refine (proj1 (callback_records_outcome any_number_to_string paid start _ (VStr "ws_1")
                     eq_refl eq_refl eq_refl eq_refl)
                  0%float _ _
                  [Some ("Amount", VNum 150%float);
                   Some ("MpesaReceiptNumber", VStr "QAX123");
                   Some ("PhoneNumber", VNum 254712345678%float)]
                  eq_refl eq_refl eq_refl eq_refl _).
    repeat constructor.
  - refine (proj2 (callback_records_outcome any_number_to_string cancelled start _ (VStr "ws_1")
                     eq_refl eq_refl eq_refl eq_refl) _).
    intros n H. inversion H. reflexivity.
Defined.

(** C5 fails on [server.js]. A request with the phone ["hello"] and the
    amount [-5] passes line 49 and is posted to the vendor as it is; so
    is a negative amount with a well-formed phone. The sibling server
    answers both with 400, and the page sends neither. *)
Theorem stkpush_forwards_unchecked_request :
  (let '(r, w) :=
     respond (stkpush any_number_to_string any_string_to_number sandbox accepting
                      (initiation (VStr "hello") (VNum (-5)%float))) start in
   code r = 200
   /\ map (fun c => match c with
                    | ProcessRequest _ p _ => Some (PartyA p, Amount p)
                    | OauthGenerate _ => None
                    end) (calls w)
      = [None; Some ("hello", (-5)%float)])
  /\ (let '(r, w) :=
        respond (stkpush any_number_to_string any_string_to_number sandbox accepting
                         (initiation (VStr "0712345678") (VNum (-5)%float))) start in
      code r = 200
      /\ map (fun c => match c with
                       | ProcessRequest _ p _ => Some (PartyA p, Amount p)
                       | OauthGenerate _ => None
                       end) (calls w)
         = [None; Some ("254712345678", (-5)%float)])
  /\ ExpressServer.stkpush_rejection any_number_to_string any_string_to_number
       (initiation (VStr "hello") (VNum (-5)%float))
     = Some (json 400 [("error", VStr "Invalid phone number format")])
  /\ ExpressServer.stkpush_rejection any_number_to_string any_string_to_number
       (initiation (VStr "0712345678") (VNum (-5)%float))
     = Some (json 400 [("error", VStr "Invalid amount")])
  /\ Client.on_click "hello" (-5)%float = Client.InvalidPhone
  /\ Client.on_click "0712345678" (-5)%float = Client.InvalidAmount.
Proof. repeat split; reflexivity. Qed.

(** C6 as stated fails. The vendor accepts the call and answers without
    a checkout id: the endpoint answers 200 with [success: true], which is
    neither a correlation id nor an error, and no intent is created. *)
Lemma stkpush_success_without_id :
  fst (respond (stkpush any_number_to_string any_string_to_number sandbox anonymous
                        (initiation (VStr "0712345678") (VNum 150%float))) start)
  = {| code := 200;
       body := VObj [("success", VBool true);
                     ("data", VObj [("ResponseCode", VStr "0")])] |}
  /\ ORDERS (snd (respond (stkpush any_number_to_string any_string_to_number sandbox anonymous
                                   (initiation (VStr "0712345678") (VNum 150%float))) start))
     = [].
Proof. split; reflexivity. Qed.

(** C7 as stated fails. After an accepted initiation the intent of
    [ws_1] is [PENDING] and its detail is the vendor's answer, which the
    status endpoint hands out. *)
Lemma pending_intent_has_detail :
  Orders.get
    (ORDERS (run [PostStkpush accepting (initiation (VStr "0712345678") (VNum 150%float))]))
    (VStr "ws_1")
  = Some {| status := PENDING; detail := accepted_data |}
  /\ fst (handle any_number_to_string any_string_to_number sandbox (GetStatus (VStr "ws_1"))
            (run [PostStkpush accepting (initiation (VStr "0712345678") (VNum 150%float))]))
     = json 200 [("status", VStr "PENDING"); ("detail", accepted_data)].
Proof. split; reflexivity. Qed.

(** C7, as amended, on the world after an accepted initiation. *)
Lemma pending_detail_is_gateway_response_witness :
  exists ps id,
    accepted_data = VObj ps
    /\ checkoutId_of (VObj ps) = Normal id
    /\ truthy id = true
    /\ (VStr "ws_1" = id \/ same_value_zero (VStr "ws_1") id = true).
Proof.
  refine (pending_detail_is_gateway_response
            any_number_to_string any_string_to_number sandbox
            (run [PostStkpush accepting (initiation (VStr "0712345678") (VNum 150%float))])
            (VStr "ws_1") {| status := PENDING; detail := accepted_data |} _ _ _).
  - exact (reachable_serve _ _ _
             [PostStkpush accepting (initiation (VStr "0712345678") (VNum 150%float))]
             start (reachable_start _ _ _)).
  - left. reflexivity.
  - reflexivity.
Defined.

(** A body without an envelope, and an envelope without a checkout
    id. *)
Lemma callback_without_envelope_witness :
  respond (callback any_number_to_string no_envelope) start = (acknowledgment, start)
  /\ respond (callback any_number_to_string no_checkout_id) start = (acknowledgment, start).
Proof.
  split.
  - refine (proj2 (callback_without_envelope any_number_to_string no_envelope start eq_refl)
                  VNull VNull eq_refl eq_refl eq_refl).
  - refine (proj2 (callback_without_envelope any_number_to_string no_checkout_id start eq_refl)
                  _ VUndefined eq_refl eq_refl eq_refl).
Defined.

(** C9 fails on [server.js] for the body that was not delivered. When
    [req.body] is [undefined], line 100 finds no envelope in it, yet the
    request is not acknowledged: the log statement of line 98 throws
    before the guard [req.body || {}] of line 100 is reached, and the
    [catch] block answers 500. The map is left as it was. The empty
    object that the guard would put in its place is acknowledged, and so
    is every delivered body without an envelope or a checkout id
    ([callback_without_envelope]). *)
Theorem callback_missing_body_not_acknowledged :
  envelope (or_else VUndefined (VObj [])) = Normal VNull
  /\ respond (callback any_number_to_string VUndefined) start = (callback_error, start)
  /\ respond (callback any_number_to_string (VObj [])) start = (acknowledgment, start).
Proof. repeat split; reflexivity. Qed.

(** C10 on a report whose result code is the string ["0"]. *)
Lemma callback_result_code_strict_witness :
  (exists rec,
      status rec = FAILED
      /\ ORDERS (snd (respond (callback any_number_to_string string_result_code) start))
         = [(VStr "ws_1", rec)])
  /\ (forall k r,
        In (k, r) (ORDERS (snd (respond (callback any_number_to_string string_result_code) start))) ->
        status r = SUCCESS ->
        In (k, r) []).
Proof.
  refine (callback_result_code_strict any_number_to_string string_result_code start _
            (VStr "ws_1") eq_refl eq_refl eq_refl eq_refl _).
  intros n H. discriminate H.
Defined.

End Tracker.

(** ** The poller of the checkout page *)

Module Poller.
Import JS Client.

Lemma after_cleared (n : nat) (p : poller) : interval p = false -> after n p = p.
Proof.
  intros H. induction n as [|n IH]; simpl; [reflexivity|].
  unfold tick. now rewrite H.
Qed.

(** C8 fails on the page. Whatever the checkout, [pollForPayment] sends
    no status request at all; its third firing shows the payment as
    confirmed and clears the interval, so the text for an unconfirmed
    payment, which waits for the eighth firing, is never shown. *)
Theorem poller_confirms_without_query (id : value) (n : nat) :
  fetched (after n (pollForPayment id)) = []
  /\ shown (after (3 + n) (pollForPayment id)) = Confirmed
  /\ interval (after (3 + n) (pollForPayment id)) = false
  /\ (shown (after n (pollForPayment id)) = Waiting
      \/ shown (after n (pollForPayment id)) = Confirmed).
Proof.
  assert (H : forall m, after (S (S (S m))) (pollForPayment id)
                        = after 3 (pollForPayment id)).
  { intros m. change (after (S (S (S m))) (pollForPayment id))
      with (after m (after 3 (pollForPayment id))).
    now apply after_cleared. }
  cbn [Nat.add]. split; [|split; [|split]].
  - destruct n as [|[|[|n]]]; try reflexivity. now rewrite (H n).
  - now rewrite H.
  - now rewrite H.
  - destruct n as [|[|[|n]]]; try (left; reflexivity). right. now rewrite (H n).
Qed.

End Poller.

(** ** Phone numbers: the page's patterns and the server's normalisation *)

Module Phones.
Import JS Server.

Lemma length_append (a b : string) :
  String.length (a ++ b) = String.length a + String.length b.
Proof. induction a as [|c a IH]; simpl; [reflexivity|now rewrite IH]. Qed.

Lemma append_assoc (a b c : string) : (a ++ b) ++ c = a ++ (b ++ c).
Proof. induction a as [|x a IH]; simpl; [reflexivity|now rewrite IH]. Qed.

Lemma substring_prefix (a b : string) :
  String.substring 0 (String.length a) (a ++ b) = a.
Proof.
  induction a as [|x a IH]; simpl; [now destruct b|now rewrite IH].
Qed.

Lemma prefix_append (pre d : string) : String.prefix pre (pre ++ d) = true.
Proof.
  induction pre as [|c pre IH]; simpl; [now destruct d|].
  destruct (ascii_dec c c); [assumption|contradiction].
Qed.

Lemma substring_all (d : string) : String.substring 0 (String.length d) d = d.
Proof. induction d as [|c d IH]; simpl; [reflexivity|now rewrite IH]. Qed.

Lemma substring_append (pre d : string) (m : nat) :
  String.substring (String.length pre) m (pre ++ d) = String.substring 0 m d.
Proof. induction pre as [|c pre IH]; simpl; [reflexivity|exact IH]. Qed.

Lemma prefix_split (pre s : string) :
  String.prefix pre s = true -> exists d, s = pre ++ d.
Proof.
  revert s. induction pre as [|c pre IH]; intros s H.
  - exists s. reflexivity.
  - destruct s as [|c' s]; simpl in H; [discriminate|].
    destruct (ascii_dec c c') as [->|]; [|discriminate].
    destruct (IH s H) as [d ->]. exists d. reflexivity.
Qed.

(** [/^PREFIX\d{lo,hi}$/] on a string that starts with the prefix. *)
Lemma prefix_then_digits_append (pre d : string) (lo hi : nat) :
  prefix_then_digits pre lo hi (pre ++ d)
  = all_digits d && (lo <=? String.length d)%nat && (String.length d <=? hi)%nat.
Proof.
  unfold prefix_then_digits.
  rewrite prefix_append, length_append, substring_append.
  replace (String.length pre + String.length d - String.length pre) with (String.length d) by lia.
  now rewrite substring_all.
Qed.

(** What the pattern accepts: the prefix, then [lo] to [hi] digits. *)
Lemma prefix_then_digits_inv (pre s : string) (lo hi : nat) :
  prefix_then_digits pre lo hi s = true ->
  exists d, s = pre ++ d /\ all_digits d = true /\ lo <= String.length d <= hi.
Proof.
  intros H. assert (P : String.prefix pre s = true).
  { unfold prefix_then_digits in H. now apply andb_true_iff in H. }
  destruct (prefix_split _ _ P) as [d ->]. exists d.
  rewrite prefix_then_digits_append in H.
  apply andb_true_iff in H. destruct H as [H H3].
  apply andb_true_iff in H. destruct H as [H1 H2].
  apply Nat.leb_le in H2, H3. auto.
Qed.

Lemma digit_not_space (c : ascii) : is_digit c = true -> is_space c = false.
Proof.
  unfold is_digit, is_space. cbv zeta. intros H.
  apply andb_true_iff in H. destruct H as [H1 H2].
  apply Nat.leb_le in H1, H2.
  apply orb_false_iff. split; [apply orb_false_iff; split|].
  - apply andb_false_iff. right. apply Nat.leb_gt. lia.
  - apply Nat.eqb_neq. lia.
  - apply Nat.eqb_neq. lia.
Qed.

Lemma remove_spaces_digits (d : string) : all_digits d = true -> remove_spaces d = d.
Proof.
  induction d as [|c d IH]; simpl; [reflexivity|].
  intros H. apply andb_true_iff in H. destruct H as [H1 H2].
  now rewrite (digit_not_space c H1), IH.
Qed.

Lemma remove_spaces_append (a b : string) :
  remove_spaces (a ++ b) = remove_spaces a ++ remove_spaces b.
Proof.
  induction a as [|c a IH]; simpl; [reflexivity|].
  destruct (is_space c); simpl; now rewrite IH.
Qed.

Lemma remove_spaces_idempotent (s : string) :
  remove_spaces (remove_spaces s) = remove_spaces s.
Proof.
  induction s as [|c s IH]; simpl; [reflexivity|].
  destruct (is_space c) eqn:E; simpl; [assumption|]. now rewrite E, IH.
Qed.

(** X1. The local and the two international spellings of one subscriber
    number reach the vendor as the same string, [254] and the subscriber's
    digits; white space anywhere in the number is ignored, and what is sent
    contains none. *)
Theorem msisdn_spellings_agree (d s : string) :
  msisdn_of ("0" ++ d) = "254" ++ remove_spaces d
  /\ msisdn_of ("254" ++ d) = "254" ++ remove_spaces d
  /\ msisdn_of ("+254" ++ d) = "254" ++ remove_spaces d
  /\ msisdn_of (remove_spaces s) = msisdn_of s
  /\ remove_spaces (msisdn_of s) = msisdn_of s.
Proof.
  repeat split; try reflexivity.
  - unfold msisdn_of. now rewrite remove_spaces_idempotent.
  - unfold msisdn_of.
    set (r := remove_spaces s).
    assert (R : remove_spaces r = r) by apply remove_spaces_idempotent.
    assert (R1 : remove_spaces (slice1 r) = slice1 r).
    { destruct r as [|c r]; [reflexivity|]. simpl in R |- *.
      destruct (is_space c) eqn:E.
      - assert (L : String.length (remove_spaces r) <= String.length r).
        { clear. induction r as [|c r IH]; simpl; [lia|].
          destruct (is_space c); simpl; lia. }
        rewrite R in L. simpl in L. lia.
      - now inversion R as [R']; rewrite R'. }
    destruct (starts_with "+" r).
    + set (r1 := slice1 r) in *.
      destruct (starts_with "0" r1); [|assumption].
      change (remove_spaces ("254" ++ slice1 r1) = "254" ++ slice1 r1).
      rewrite remove_spaces_append. f_equal.
      destruct r1 as [|c r1]; [reflexivity|]. simpl in R1 |- *.
      destruct (is_space c) eqn:E.
      * assert (L : String.length (remove_spaces r1) <= String.length r1).
        { clear. induction r1 as [|c r1 IH]; simpl; [lia|].
          destruct (is_space c); simpl; lia. }
        rewrite R1 in L. simpl in L. lia.
      * now inversion R1 as [R']; rewrite R'.
    + destruct (starts_with "0" r); [|assumption].
      change (remove_spaces ("254" ++ slice1 r) = "254" ++ slice1 r).
      rewrite remove_spaces_append. now rewrite R1.
Qed.

(** X2. Every phone number the page's check lets through (lines 159-163 of
    the page script) is posted to the vendor by [server.js] as [254]
    followed by eight or nine digits. *)
Theorem accepted_phone_is_normalised (phone : string) (amount : float) :
  Client.on_click phone amount = Client.Send phone amount ->
  prefix_then_digits "254" 8 9 (msisdn_of phone) = true.
Proof.
  unfold Client.on_click. intros H.
  destruct (prefix_then_digits "0" 8 9 phone) eqn:L.
  - destruct (prefix_then_digits_inv _ _ _ _ L) as (d & -> & D & B).
    change (msisdn_of ("0" ++ d)) with ("254" ++ remove_spaces d).
    rewrite (remove_spaces_digits d D), prefix_then_digits_append, D.
    destruct B as [B1 B2]. apply Nat.leb_le in B1, B2. now rewrite B1, B2.
  - destruct (prefix_then_digits "254" 9 9 phone) eqn:I.
    + destruct (prefix_then_digits_inv _ _ _ _ I) as (d & -> & D & B).
      change (msisdn_of ("254" ++ d)) with ("254" ++ remove_spaces d).
      rewrite (remove_spaces_digits d D), prefix_then_digits_append, D.
      assert (B1 : (8 <=? String.length d)%nat = true) by (apply Nat.leb_le; lia).
      assert (B2 : (String.length d <=? 9)%nat = true) by (apply Nat.leb_le; lia).
      now rewrite B1, B2.
    + destruct (prefix_then_digits "+254" 9 9 phone) eqn:P; [|discriminate].
      destruct (prefix_then_digits_inv _ _ _ _ P) as (d & -> & D & B).
      change (msisdn_of ("+254" ++ d)) with ("254" ++ remove_spaces d).
      rewrite (remove_spaces_digits d D), prefix_then_digits_append, D.
      assert (B1 : (8 <=? String.length d)%nat = true) by (apply Nat.leb_le; lia).
      assert (B2 : (String.length d <=? 9)%nat = true) by (apply Nat.leb_le; lia).
      now rewrite B1, B2.
Qed.

(** The three spellings the page accepts, on one subscriber. *)
Lemma accepted_phone_is_normalised_witness :
  Client.on_click "+254712345678" 150 = Client.Send "+254712345678" 150
  /\ prefix_then_digits "254" 8 9 (msisdn_of "+254712345678") = true.
Proof.
  split; [reflexivity|].
  apply (accepted_phone_is_normalised "+254712345678" 150%float). reflexivity.
Defined.

End Phones.

(** ** Initiation: what is turned away, and what a failure looks like *)

Module Initiation.
Import JS Server Facts Rules Handlers Examples Samples.
Import Orders(order_status(..), order, Build_order, status, detail, status_name).

Section Server.

Variable nts : float -> string.
Variable stn : string -> float.
Variable env : environment.

(** A 400 comes from line 49 alone. *)
Lemma stkpush_400_spec (gw : gateway) (req_body : value) :
  wp (stkpush nts stn env gw req_body)
     (fun c ef =>
        exists r, c = Normal r
        /\ (code r = 400 \/ code r = 500 \/ code r = 200)
        /\ (code r = 400 <->
            exists phone amount,
              get req_body "phone" = Normal phone
              /\ get req_body "amount" = Normal amount
              /\ truthy phone && truthy amount = false)).
Proof.
  unfold stkpush, getAccessToken.
  wp_run.
  all: eexists; split; [reflexivity|]; cbn [code json].
  all: split; [auto|].
  all: split;
    [ intros E; try discriminate E; do 2 eexists; repeat (split; [reflexivity|]);
      match goal with
      | H : negb (truthy ?p) || negb (truthy ?q) = true |- _ =>
          destruct (truthy p), (truthy q); simpl in *; congruence
      end
    | intros (p & q & P & A & T); try reflexivity;
      try discriminate P; try discriminate A;
      first [ inversion P; inversion A; subst;
              match goal with
              | H : negb (truthy ?p) || negb (truthy ?q) = false |- _ =>
                  destruct (truthy p), (truthy q); simpl in *; congruence
              end
            | destruct req_body; simpl in *; congruence ] ].
Qed.

(** X3. [server.js] answers an initiation with 400, 500 or 200, and with
    400 exactly when the body can be read and [phone] or [amount] is
    missing or falsy (line 49): no other request is turned away as the
    caller's mistake, whatever the phone looks like and whatever the sign
    of the amount. *)
Theorem stkpush_400_iff_missing (gw : gateway) (req_body : value) (w : world) :
  (code (fst (respond (stkpush nts stn env gw req_body) w)) = 400
   \/ code (fst (respond (stkpush nts stn env gw req_body) w)) = 500
   \/ code (fst (respond (stkpush nts stn env gw req_body) w)) = 200)
  /\ (code (fst (respond (stkpush nts stn env gw req_body) w)) = 400 <->
      exists phone amount,
        get req_body "phone" = Normal phone
        /\ get req_body "amount" = Normal amount
        /\ truthy phone && truthy amount = false).
Proof.
  destruct (stkpush_400_spec gw req_body) as (c & ef & R & r & -> & T & I).
  unfold respond. rewrite R. cbn [fst]. auto.
Qed.

(** X4. A server that lacks part of its configuration does not crash and
    calls nobody: a request with phone and amount is answered 500, naming
    the missing variables when the short code, the pass key or the
    callback address is unset (line 50), and with the message of
    [getAccessToken] when the consumer key or secret is (line 36); the
    world is as it was. *)
Theorem stkpush_unconfigured
        (gw : gateway) (req_body : value) (w : world) (phone amount : value) :
  get req_body "phone" = Normal phone ->
  get req_body "amount" = Normal amount ->
  truthy phone && truthy amount = true ->
  (configured (MPESA_SHORTCODE env) && configured (MPESA_PASSKEY env)
   && configured (MPESA_CALLBACK_URL env) = false ->
   respond (stkpush nts stn env gw req_body) w
   = (json 500 [("error", VStr "MPESA_SHORTCODE/MPESA_PASSKEY/MPESA_CALLBACK_URL not set")], w))
  /\ (configured (MPESA_SHORTCODE env) && configured (MPESA_PASSKEY env)
      && configured (MPESA_CALLBACK_URL env) = true ->
      configured (MPESA_CONSUMER_KEY env) && configured (MPESA_CONSUMER_SECRET env) = false ->
      forall p, to_string nts phone = Normal p ->
      respond (stkpush nts stn env gw req_body) w
      = (json 500 [("error", VStr "STK push failed");
                   ("detail", VStr "Missing MPESA_CONSUMER_KEY/MPESA_CONSUMER_SECRET")], w)).
Proof.
  intros P A T. apply andb_true_iff in T. destruct T as [T1 T2].
  assert (G : forall k, exists x, get req_body k = Normal x).
  { intros k. destruct req_body; simpl in *; try discriminate; eauto. }
  destruct (G "accountRef") as [ar Ar]. destruct (G "description") as [ds Ds].
  split.
  - intros C.
    unfold respond, stkpush, try_catch, mbind, lift, ret.
    rewrite P, A, Ar, Ds, T1, T2. cbn [negb orb].
    destruct (configured (MPESA_SHORTCODE env)), (configured (MPESA_PASSKEY env)),
      (configured (MPESA_CALLBACK_URL env)); try discriminate C; reflexivity.
  - intros C K p S.
    apply andb_true_iff in C. destruct C as [C C3].
    apply andb_true_iff in C. destruct C as [C1 C2].
    unfold respond, stkpush, getAccessToken, try_catch, mbind, lift, ret, throw.
    rewrite P, A, Ar, Ds, T1, T2, C1, C2, C3, S. cbn [negb orb].
    destruct (configured (MPESA_CONSUMER_KEY env)), (configured (MPESA_CONSUMER_SECRET env));
      try discriminate K; reflexivity.
Qed.

(** X5. When the vendor fails a configured server, the caller is told:
    the answer is 500 with the vendor's error body as [detail] (the error
    message when the vendor did not answer at all), the map is as it was,
    and the calls made are the token request, followed by the push when it
    was the push that failed. *)
Theorem stkpush_vendor_failure
        (gw : gateway) (req_body : value) (w : world)
        (phone amount : value) (p : string) :
  get req_body "phone" = Normal phone ->
  get req_body "amount" = Normal amount ->
  truthy phone && truthy amount = true ->
  configured (MPESA_SHORTCODE env) && configured (MPESA_PASSKEY env)
  && configured (MPESA_CALLBACK_URL env) && configured (MPESA_CONSUMER_KEY env)
  && configured (MPESA_CONSUMER_SECRET env) = true ->
  to_string nts phone = Normal p ->
  (forall response message,
      oauth_generate gw = Throw (AxiosError response message) ->
      respond (stkpush nts stn env gw req_body) w
      = (json 500 [("error", VStr "STK push failed");
                   ("detail", match response with Some data => data | None => VStr message end)],
         {| ORDERS := ORDERS w;
            calls := calls w
                     ++ [OauthGenerate
                           (BASE_URL env ++ "/oauth/v1/generate?grant_type=client_credentials")] |}))
  /\ (forall token_data token bearer a response message,
        oauth_generate gw = Normal token_data ->
        get token_data "access_token" = Normal token ->
        to_number nts stn amount = Normal a ->
        to_string nts token = Normal bearer ->
        (forall payload, processrequest gw payload = Throw (AxiosError response message)) ->
        exists payload,
          respond (stkpush nts stn env gw req_body) w
          = (json 500 [("error", VStr "STK push failed");
                       ("detail", match response with Some data => data | None => VStr message end)],
             {| ORDERS := ORDERS w;
                calls := calls w
                         ++ [OauthGenerate
                               (BASE_URL env ++ "/oauth/v1/generate?grant_type=client_credentials");
                             ProcessRequest
                               (BASE_URL env ++ "/mpesa/stkpush/v1/processrequest")
                               payload ("Bearer " ++ bearer)] |})
          /\ PartyA payload = msisdn_of p
          /\ PhoneNumber payload = msisdn_of p
          /\ Amount payload = a).
Proof.
  intros P A T C S. apply andb_true_iff in T. destruct T as [T1 T2].
  repeat (apply andb_true_iff in C; let H := fresh "C" in destruct C as [C H]).
  assert (G : forall k, exists x, get req_body k = Normal x).
  { intros k. destruct req_body; simpl in *; try discriminate; eauto. }
  destruct (G "accountRef") as [ar Ar]. destruct (G "description") as [ds Ds].
  split.
  - intros response message O.
    unfold respond, stkpush, getAccessToken, try_catch, mbind, lift, ret, await.
    rewrite P, A, Ar, Ds, T1, T2, C, C0, C1, C2, C3, S, O. cbn [negb orb].
    now destruct response.
  - intros token_data token bearer a response message O K N B R.
    eexists.
    unfold respond, stkpush, getAccessToken, try_catch, mbind, lift, ret, await.
    rewrite P, A, Ar, Ds, T1, T2, C, C0, C1, C2, C3, S, O. cbn [negb orb].
    cbv beta iota. rewrite K, N, B, R. cbv beta iota.
    cbn [ORDERS calls]. rewrite <- app_assoc. cbn [app].
    split; [now destruct response|]. repeat split.
Qed.

End Server.

(** A server without its short code, and one without its consumer key. *)
Lemma stkpush_unconfigured_witness :
  respond (stkpush any_number_to_string any_string_to_number no_short_code accepting
             (initiation (VStr "0712345678") (VNum 150%float))) start
  = (json 500 [("error", VStr "MPESA_SHORTCODE/MPESA_PASSKEY/MPESA_CALLBACK_URL not set")],
     start)
  /\ respond (stkpush any_number_to_string any_string_to_number no_consumer_key accepting
                (initiation (VStr "0712345678") (VNum 150%float))) start
     = (json 500 [("error", VStr "STK push failed");
                  ("detail", VStr "Missing MPESA_CONSUMER_KEY/MPESA_CONSUMER_SECRET")],
        start).
Proof.
  split.
  - refine (proj1 (stkpush_unconfigured any_number_to_string any_string_to_number
                     no_short_code accepting
                     (initiation (VStr "0712345678") (VNum 150%float)) start
                     (VStr "0712345678") (VNum 150%float) eq_refl eq_refl eq_refl) eq_refl).
  - refine (proj2 (stkpush_unconfigured any_number_to_string any_string_to_number
                     no_consumer_key accepting
                     (initiation (VStr "0712345678") (VNum 150%float)) start
                     (VStr "0712345678") (VNum 150%float) eq_refl eq_refl eq_refl)
                  eq_refl eq_refl "0712345678" eq_refl).
Defined.

(** A vendor that cannot be reached, and one that refuses the push. *)
Lemma stkpush_vendor_failure_witness :
  respond (stkpush any_number_to_string any_string_to_number sandbox unreachable
             (initiation (VStr "0712345678") (VNum 150%float))) start
  = (json 500 [("error", VStr "STK push failed"); ("detail", VStr "connect ETIMEDOUT")],
     {| ORDERS := [];
        calls := [OauthGenerate
                    "https://sandbox.safaricom.co.ke/oauth/v1/generate?grant_type=client_credentials"] |})
  /\ exists payload,
       respond (stkpush any_number_to_string any_string_to_number sandbox refusing
                  (initiation (VStr "0712345678") (VNum 150%float))) start
       = (json 500 [("error", VStr "STK push failed");
                    ("detail", VObj [("errorMessage", VStr "Invalid Access Token")])],
          {| ORDERS := [];
             calls := [OauthGenerate
                         "https://sandbox.safaricom.co.ke/oauth/v1/generate?grant_type=client_credentials";
                       ProcessRequest
                         "https://sandbox.safaricom.co.ke/mpesa/stkpush/v1/processrequest"
                         payload "Bearer token"] |})
       /\ PartyA payload = "254712345678"
       /\ PhoneNumber payload = "254712345678"
       /\ Amount payload = 150%float.
Proof.
  split.
  - refine (proj1 (stkpush_vendor_failure any_number_to_string any_string_to_number
                     sandbox unreachable
                     (initiation (VStr "0712345678") (VNum 150%float)) start
                     (VStr "0712345678") (VNum 150%float) "0712345678"
                     eq_refl eq_refl eq_refl eq_refl eq_refl)
                  None "connect ETIMEDOUT" eq_refl).
  - refine (proj2 (stkpush_vendor_failure any_number_to_string any_string_to_number
                     sandbox refusing
                     (initiation (VStr "0712345678") (VNum 150%float)) start
                     (VStr "0712345678") (VNum 150%float) "0712345678"
                     eq_refl eq_refl eq_refl eq_refl eq_refl)
                  token_data (VStr "token") "token" 150%float
                  (Some (VObj [("errorMessage", VStr "Invalid Access Token")]))
                  "Request failed with status code 400"
                  eq_refl eq_refl eq_refl eq_refl (fun _ => eq_refl)).
Defined.

End Initiation.

(** ** From a write to the next poll *)

Module Lifecycle.
Import JS Server Facts Rules Handlers Examples.
Import Orders(order_status(..), order, Build_order, status, detail, status_name).

Lemma get_in (m : Orders.t) (k : value) (r : order) :
  Orders.get m k = Some r -> exists k', In (k', r) m /\ same_value_zero k' k = true.
Proof.
  induction m as [|[k' r'] m IH]; simpl; [discriminate|].
  destruct (same_value_zero k' k) eqn:E.
  - intros H. inversion H; subst. eauto.
  - intros H. destruct (IH H) as (k0 & I & S). eauto.
Qed.

(** An entry of the map after a write was there before, or holds the
    record written, under the key given or under a key that was there. *)
Lemma in_set_key (m : Orders.t) (k k0 : value) (r r0 : order) :
  In (k, r) (Orders.set m k0 r0) ->
  In (k, r) m \/ (r = r0 /\ (k = k0 \/ exists r', In (k, r') m)).
Proof.
  induction m as [|[k' r'] m IH]; simpl.
  - intros [H|[]]. inversion H; subst. right; auto.
  - destruct (same_value_zero k' k0) eqn:E; simpl.
    + intros [H|H]; [|auto]. inversion H; subst. right. split; [reflexivity|].
      right. exists r'. now left.
    + intros [H|H]; [auto|]. destruct (IH H) as [I|[-> [->|[r1 I]]]]; eauto 6.
Qed.

Section Server.

Variable nts : float -> string.
Variable stn : string -> float.
Variable env : environment.

(** What one run of the initiation handler sends, in order: nothing, the
    token request, or the token request and then the push with the token
    it got. *)
Lemma stkpush_sent_spec (gw : gateway) (req_body : value) :
  wp (stkpush nts stn env gw req_body)
     (fun _ ef =>
        sent ef = []
        \/ sent ef
           = [OauthGenerate (BASE_URL env ++ "/oauth/v1/generate?grant_type=client_credentials")]
        \/ exists token_data token bearer payload,
             oauth_generate gw = Normal token_data
             /\ get token_data "access_token" = Normal token
             /\ to_string nts token = Normal bearer
             /\ sent ef
                = [OauthGenerate
                     (BASE_URL env ++ "/oauth/v1/generate?grant_type=client_credentials");
                   ProcessRequest (BASE_URL env ++ "/mpesa/stkpush/v1/processrequest")
                     payload ("Bearer " ++ bearer)]).
Proof.
  unfold stkpush, getAccessToken. wp_run.
  all: try (left; reflexivity).
  all: try (right; left; reflexivity).
  all: right; right; do 4 eexists; repeat split; eassumption.
Qed.

(** X6. The calls to the vendor that one request makes are the same in
    every state of the server. A callback or a status request makes
    none. An initiation makes none, or the token request alone, or the
    token request followed by one push request whose authorization is
    ['Bearer '] and the access token that token request was answered with:
    no run of the handler sends a push without having got a token itself.
    This is about the calls of one run, in the order the run makes them;
    runs that overlap at their [await]s put their calls into the log in
    turns, which [handle] does not describe. *)
Theorem vendor_calls_token_first (r : request) :
  exists l,
    (forall w, calls (snd (handle nts stn env r w)) = (calls w ++ l)%list)
    /\ match r with
       | PostStkpush gw _ =>
           l = []
           \/ l = [OauthGenerate
                     (BASE_URL env ++ "/oauth/v1/generate?grant_type=client_credentials")]
           \/ exists token_data token bearer payload,
                oauth_generate gw = Normal token_data
                /\ get token_data "access_token" = Normal token
                /\ to_string nts token = Normal bearer
                /\ l = [OauthGenerate
                          (BASE_URL env ++ "/oauth/v1/generate?grant_type=client_credentials");
                        ProcessRequest (BASE_URL env ++ "/mpesa/stkpush/v1/processrequest")
                          payload ("Bearer " ++ bearer)]
       | PostCallback _ | GetStatus _ => l = []
       end.
Proof.
  destruct r as [gw req_body|req_body|checkoutId]; cbn [handle].
  - destruct (stkpush_sent_spec gw req_body) as (c & ef & R & Q).
    exists (sent ef). split; [|exact Q].
    intros w. now rewrite (Tracker.respond_apply _ _ _ w R).
  - destruct (callback_spec nts req_body) as (c & ef & R & S & _).
    exists []. split; [|reflexivity].
    intros w. rewrite (Tracker.respond_apply _ _ _ w R). unfold apply; simpl.
    now rewrite S.
  - exists []. split; [|reflexivity].
    intros w. now rewrite Tracker.status_query_world, app_nil_r.
Qed.

(** X7. In every world the server can be in, every stored intent stands
    under a truthy key and has an object for detail. So for every stored
    string id the status endpoint answers 200 with the stored status and
    the stored detail itself, never [null], and leaves the world as it
    is. *)
Theorem stored_intent_is_reported (w : world) :
  reachable nts stn env w ->
  (forall k r, In (k, r) (ORDERS w) -> truthy k = true /\ exists ps, detail r = VObj ps)
  /\ (forall s r,
        Orders.get (ORDERS w) (VStr s) = Some r ->
        respond (status_query (VStr s)) w
        = (json 200 [("status", VStr (status_name (status r))); ("detail", detail r)], w)).
Proof.
  intros H.
  assert (I : forall k r, In (k, r) (ORDERS w) ->
                          truthy k = true /\ exists ps, detail r = VObj ps).
  { induction H as [|rq w H IH]; intros k r I; [destruct I|].
    destruct (Tracker.handle_writes nts stn env rq) as [U|(id & rec & T & W & K)].
    - rewrite U in I. now apply IH.
    - rewrite W in I. destruct (in_set_key _ _ _ _ _ I) as [I'|[-> S]]; [now apply IH|].
      split.
      + destruct S as [->|[r' I']]; [assumption|]. now destruct (IH _ _ I').
      + destruct rq; [destruct K as (_ & ps & D & _)|destruct K as (_ & ps & D)|destruct K];
          eauto. }
  split; [exact I|].
  intros s r G. destruct (get_in _ _ _ G) as (k & K & S).
  apply same_value_zero_string_r in S. subst k.
  destruct (I _ _ K) as (T & ps & D).
  unfold respond, status_query, mbind, orders_get, ret.
  rewrite T. cbn [negb]. rewrite G. cbn [fst snd]. rewrite D. reflexivity.
Qed.

Lemma status_of_written (w : world) (s : string) (r : order) (ps : list (string * value)) :
  s <> "" -> detail r = VObj ps ->
  fst (respond (status_query (VStr s))
         {| ORDERS := Orders.set (ORDERS w) (VStr s) r; calls := calls w |})
  = json 200 [("status", VStr (status_name (status r))); ("detail", detail r)].
Proof.
  intros N D. unfold respond, status_query, mbind, orders_get, ret.
  cbn [truthy]. apply String.eqb_neq in N. rewrite N. cbn [negb ORDERS].
  rewrite (get_set_same _ _ _ (same_value_zero_string_refl s)). cbn [fst].
  now rewrite D.
Qed.

(** X8. A poll right after an accepted initiation sees it: when the
    initiation is answered 200 with the vendor's data and that data names
    the checkout [s], the status endpoint answers [s] with [PENDING] and
    the same data as detail. *)
Theorem status_after_initiation
        (gw : gateway) (req_body : value) (w : world) (s : string) (data : value) :
  fst (respond (stkpush nts stn env gw req_body) w)
  = json 200 [("success", VBool true); ("data", data)] ->
  checkoutId_of data = Normal (VStr s) ->
  s <> "" ->
  fst (handle nts stn env (GetStatus (VStr s))
         (snd (respond (stkpush nts stn env gw req_body) w)))
  = json 200 [("status", VStr "PENDING"); ("detail", data)].
Proof.
  intros A I N.
  destruct (stkpush_spec nts stn env gw req_body) as (c & ef & R & r & -> & Q).
  rewrite (Tracker.respond_normal _ _ _ w R) in *. cbn [fst snd] in *. subst r.
  destruct Q as [[C _]|[[C _]|(_ & tok & p & d & id & _ & _ & B & I' & W)]];
    try discriminate C.
  cbn [body json] in B. inversion B as [D]. rewrite <- D in *.
  rewrite I in I'. inversion I'; subst id.
  assert (T : truthy (VStr s) = true).
  { cbn [truthy]. apply String.eqb_neq in N. now rewrite N. }
  rewrite T in W. cbn [handle]. unfold apply. rewrite W. cbn [write_all fold_left fst snd].
  destruct (checkoutId_object _ _ I T) as [ps E].
  set (rec := {| status := PENDING; detail := data |}).
  assert (K := status_of_written {| ORDERS := ORDERS w; calls := (calls w ++ sent ef)%list |}
                 s rec ps N E).
  exact K.
Qed.

(** X9. A poll right after a delivered callback sees its outcome: for an
    envelope that names the checkout [s], the status endpoint then
    answers [s] with [FAILED], the result code and the description when
    the code is not zero, and with [SUCCESS], the description and the
    bindings of the metadata items when it is. *)
Theorem status_after_callback
        (req_body : value) (w : world) (ps : list (string * value)) (s : string) :
  is_undefined req_body = false ->
  envelope (or_else req_body (VObj [])) = Normal (VObj ps) ->
  field "CheckoutRequestID" ps = VStr s ->
  s <> "" ->
  ((forall n, field "ResultCode" ps = VNum n -> (n =? 0)%float = false) ->
   fst (handle nts stn env (GetStatus (VStr s))
          (snd (handle nts stn env (PostCallback req_body) w)))
   = json 200 [("status", VStr "FAILED");
               ("detail", VObj [("ResultCode", field "ResultCode" ps);
                                ("ResultDesc", or_else (field "ResultDesc" ps) (VStr ""))])])
  /\ (forall n meta items bindings,
        field "ResultCode" ps = VNum n -> (n =? 0)%float = true ->
        metadata (VObj ps) = Normal meta ->
        metadata_items meta = Normal items ->
        Forall2 (fun i b => item_binding nts i = Normal b) items bindings ->
        fst (handle nts stn env (GetStatus (VStr s))
               (snd (handle nts stn env (PostCallback req_body) w)))
        = json 200 [("status", VStr "SUCCESS");
                    ("detail", VObj (("ResultDesc", or_else (field "ResultDesc" ps) (VStr ""))
                                       :: assigned bindings))]).
Proof.
  intros U E F N.
  assert (T : truthy (VStr s) = true).
  { cbn [truthy]. apply String.eqb_neq in N. now rewrite N. }
  split.
  - intros C. cbn [handle].
    assert (Z : strict_eq_zero (field "ResultCode" ps) = false).
    { destruct (field "ResultCode" ps); simpl; auto. }
    destruct (metadata_object ps) as [meta Hm].
    assert (R : respond (callback nts req_body) w
                = (acknowledgment,
                   {| ORDERS := Orders.set (ORDERS w) (VStr s)
                                  {| status := FAILED;
                                     detail := VObj [("ResultCode", field "ResultCode" ps);
                                                     ("ResultDesc",
                                                      or_else (field "ResultDesc" ps) (VStr ""))] |};
                      calls := calls w |})).
    { unfold respond, callback, try_catch, callback_block, mbind, lift, ret, orders_set.
      rewrite U, E. cbn [envelope_id truthy get]. rewrite F, T, Hm, Z.
      reflexivity. }
    rewrite R. cbn [snd]. exact (status_of_written w s (Build_order _ _) _ N eq_refl).
  - intros n meta items bindings C Z Hm Hi Hb. cbn [handle].
    assert (R : respond (callback nts req_body) w
                = (acknowledgment,
                   {| ORDERS := Orders.set (ORDERS w) (VStr s)
                                  {| status := SUCCESS;
                                     detail := VObj (("ResultDesc",
                                                      or_else (field "ResultDesc" ps) (VStr ""))
                                                       :: assigned bindings) |};
                      calls := calls w |})).
    { unfold respond, callback, try_catch, callback_block, mbind, lift, ret, orders_set.
      rewrite U, E. cbn [envelope_id truthy get]. rewrite F, T, Hm, C.
      cbn [strict_eq_zero]. rewrite Z, Hi, (collect_items_bindings _ _ _ Hb).
      cbn [app]. now rewrite assign_assigned, assigned_filter. }
    rewrite R. cbn [snd]. exact (status_of_written w s (Build_order _ _) _ N eq_refl).
Qed.

End Server.

(** The intent an accepted initiation stored, as the status endpoint
    reports it. *)
Lemma stored_intent_is_reported_witness :
  respond (status_query (VStr "ws_1"))
          (run [PostStkpush accepting (initiation (VStr "0712345678") (VNum 150%float))])
  = (json 200 [("status", VStr "PENDING"); ("detail", accepted_data)],
     run [PostStkpush accepting (initiation (VStr "0712345678") (VNum 150%float))]).
Proof.
  refine (proj2 (stored_intent_is_reported any_number_to_string any_string_to_number sandbox
                   (run [PostStkpush accepting
                           (initiation (VStr "0712345678") (VNum 150%float))]) _)
                "ws_1" {| status := PENDING; detail := accepted_data |} eq_refl).
  exact (Tracker.reachable_serve _ _ _
           [PostStkpush accepting (initiation (VStr "0712345678") (VNum 150%float))]
           start (reachable_start _ _ _)).
Defined.

(** An accepted initiation, then the poll for its checkout. *)
Lemma status_after_initiation_witness :
  fst (handle any_number_to_string any_string_to_number sandbox (GetStatus (VStr "ws_1"))
         (snd (respond (stkpush any_number_to_string any_string_to_number sandbox accepting
                          (initiation (VStr "0712345678") (VNum 150%float))) start)))
  = json 200 [("status", VStr "PENDING"); ("detail", accepted_data)].
Proof.
  apply (status_after_initiation any_number_to_string any_string_to_number sandbox accepting
           (initiation (VStr "0712345678") (VNum 150%float)) start "ws_1" accepted_data).
  - reflexivity.
  - reflexivity.
  - discriminate.
Defined.

(** The report of a cancelled payment, then the poll for its checkout. *)
Lemma status_after_callback_witness :
  fst (handle any_number_to_string any_string_to_number sandbox (GetStatus (VStr "ws_1"))
         (snd (handle any_number_to_string any_string_to_number sandbox
                 (PostCallback cancelled) start)))
  = json 200 [("status", VStr "FAILED");
              ("detail", VObj [("ResultCode", VNum 1032%float);
                               ("ResultDesc", VStr "Request cancelled by user")])].
Proof.
  refine (proj1 (status_after_callback any_number_to_string any_string_to_number sandbox
                   cancelled start
                   [("MerchantRequestID", VStr "29115-34620561-1");
                    ("CheckoutRequestID", VStr "ws_1");
                    ("ResultCode", VNum 1032%float);
                    ("ResultDesc", VStr "Request cancelled by user")]
                   "ws_1" eq_refl eq_refl eq_refl _) _).
  - discriminate.
  - intros n H. inversion H. reflexivity.
Defined.

End Lifecycle.

(** ** The timestamp of a push request *)

Module TimestampFacts.
Import JS Timestamps.

Lemma decimal_digits_fuel (f1 : nat) :
  forall f2 n, n < f1 -> n < f2 -> decimal_digits f1 n = decimal_digits f2 n.
Proof.
  induction f1 as [|f1 IH]; intros f2 n H1 H2; [lia|].
  destruct f2 as [|f2]; [lia|]. cbn [decimal_digits].
  destruct (n <? 10)%nat eqn:E; [reflexivity|].
  apply Nat.ltb_ge in E.
  assert (n / 10 < n) by (apply Nat.div_lt; lia).
  rewrite (IH f2 (n / 10)) by lia. reflexivity.
Qed.

(** [String(n)] is the digit of [n] when there is one, and otherwise the
    digits of [n / 10] followed by the last digit. *)
Lemma decimal_step (n : nat) :
  decimal n
  = if (n <? 10)%nat
    then String (digit n) ""
    else decimal (n / 10) ++ String (digit (n mod 10)) "".
Proof.
  unfold decimal. cbn [decimal_digits]. destruct (n <? 10)%nat eqn:E; [reflexivity|].
  apply Nat.ltb_ge in E.
  assert (n / 10 < n) by (apply Nat.div_lt; lia).
  now rewrite (decimal_digits_fuel n (S (n / 10)) (n / 10)) by lia.
Qed.

Lemma digit_is_digit (n : nat) : n < 10 -> is_digit (digit n) = true.
Proof.
  intros H. do 10 (destruct n as [|n]; [reflexivity|]). lia.
Qed.

Lemma all_digits_append (a b : string) :
  all_digits (a ++ b) = all_digits a && all_digits b.
Proof.
  induction a as [|c a IH]; cbn [append all_digits]; [reflexivity|].
  now rewrite IH, andb_assoc.
Qed.

Lemma decimal_all_digits (n : nat) : all_digits (decimal n) = true.
Proof.
  induction n as [n IH] using lt_wf_ind.
  rewrite decimal_step. destruct (n <? 10)%nat eqn:E.
  - apply Nat.ltb_lt in E. cbn [all_digits]. now rewrite digit_is_digit.
  - apply Nat.ltb_ge in E. rewrite all_digits_append, IH.
    + cbn [all_digits andb]. rewrite digit_is_digit; [reflexivity|].
      apply Nat.mod_upper_bound. lia.
    + apply Nat.div_lt; lia.
Qed.

Lemma decimal_length_1 (n : nat) : n < 10 -> String.length (decimal n) = 1.
Proof.
  intros H. rewrite decimal_step. apply Nat.ltb_lt in H. now rewrite H.
Qed.

Lemma decimal_length_next (n k : nat) :
  10 <= n -> String.length (decimal (n / 10)) = k -> String.length (decimal n) = S k.
Proof.
  intros H L. rewrite decimal_step. apply Nat.ltb_ge in H. rewrite H.
  rewrite Phones.length_append, L. cbn [String.length]. lia.
Qed.

Lemma decimal_length_2 (n : nat) : 10 <= n < 100 -> String.length (decimal n) = 2.
Proof.
  intros H. apply decimal_length_next; [lia|]. apply decimal_length_1.
  apply Nat.Div0.div_lt_upper_bound; lia.
Qed.

Lemma decimal_length_4 (n : nat) : 1000 <= n < 10 * 1000 -> String.length (decimal n) = 4.
Proof.
  intros H.
  assert (100 <= n / 10 < 1000).
  { split; [apply Nat.div_le_lower_bound; lia|apply Nat.Div0.div_lt_upper_bound; lia]. }
  assert (10 <= n / 10 / 10 < 100).
  { split; [apply Nat.div_le_lower_bound; lia|apply Nat.Div0.div_lt_upper_bound; lia]. }
  apply decimal_length_next; [lia|]. apply decimal_length_next; [lia|].
  now apply decimal_length_2.
Qed.

(** A number below one hundred is padded to two digits. *)
Lemma padded (n : nat) :
  n < 100 ->
  String.length (padStart2 (decimal n)) = 2 /\ all_digits (padStart2 (decimal n)) = true.
Proof.
  intros H. unfold padStart2. destruct (Nat.lt_ge_cases n 10) as [L|L].
  - rewrite (decimal_length_1 n L). cbn [Nat.sub zeros append String.length all_digits].
    split.
    + now rewrite decimal_length_1.
    + change (is_digit "0") with true. apply decimal_all_digits.
  - rewrite (decimal_length_2 n) by lia. cbn [Nat.sub zeros append]. split.
    + apply decimal_length_2; lia.
    + apply decimal_all_digits.
Qed.

(** X10. For a date as the clock gives it, the timestamp sent to the
    vendor is fourteen digits, year, month counted from one, day, hour,
    minute and second, each but the year padded to two; the helpers of
    the two servers write the same string. *)
Theorem timestamp_is_fourteen_digits (d : date) :
  on_the_clock d ->
  String.length (timestampNow d) = 14
  /\ all_digits (timestampNow d) = true
  /\ String.substring 0 4 (timestampNow d) = decimal (getFullYear d)
  /\ String.substring 4 2 (timestampNow d) = padStart2 (decimal (getMonth d + 1))
  /\ getTimestamp d = timestampNow d.
Proof.
  intros (Y & M & D & H & Mi & S).
  destruct (padded (getMonth d + 1)) as [L1 A1]; [lia|].
  destruct (padded (getDate d)) as [L2 A2]; [lia|].
  destruct (padded (getHours d)) as [L3 A3]; [lia|].
  destruct (padded (getMinutes d)) as [L4 A4]; [lia|].
  destruct (padded (getSeconds d)) as [L5 A5]; [lia|].
  assert (L0 := decimal_length_4 _ Y). assert (A0 := decimal_all_digits (getFullYear d)).
  unfold timestampNow, getTimestamp. cbv zeta.
  set (y := decimal (getFullYear d)) in *.
  set (m := padStart2 (decimal (getMonth d + 1))) in *.
  set (dd := padStart2 (decimal (getDate d))) in *.
  set (h := padStart2 (decimal (getHours d))) in *.
  set (mi := padStart2 (decimal (getMinutes d))) in *.
  set (s := padStart2 (decimal (getSeconds d))) in *.
  assert (E : ((((y ++ m) ++ dd) ++ h) ++ mi) ++ s = y ++ (m ++ (dd ++ (h ++ (mi ++ s))))).
  { clear. now rewrite !Phones.append_assoc. }
  rewrite E. repeat split.
  - rewrite !Phones.length_append. lia.
  - rewrite !all_digits_append. now rewrite A0, A1, A2, A3, A4, A5.
  - rewrite <- L0. apply Phones.substring_prefix.
  - rewrite <- L0, Phones.substring_append, <- L1. apply Phones.substring_prefix.
Qed.

(** 2 November 2026, 09:05:07. *)
Lemma timestamp_is_fourteen_digits_witness :
  on_the_clock Samples.morning
  /\ timestampNow Samples.morning = "20261102090507"
  /\ String.length (timestampNow Samples.morning) = 14
  /\ getTimestamp Samples.morning = timestampNow Samples.morning.
Proof.
  assert (C : on_the_clock Samples.morning) by (unfold on_the_clock; cbn; lia).
  split; [exact C|]. split; [reflexivity|].
  destruct (timestamp_is_fourteen_digits Samples.morning C) as (L & _ & _ & _ & E).
  split; [exact L|exact E].
Defined.

End TimestampFacts.

(** ** The token cache of the sibling server *)

Module TokenCacheFacts.
Import JS TokenCache.

Lemma served_from_cache (nts : float -> string) (stn : string -> float)
      (token : value) (expiry : float) (later : list (float * completion value)) :
  truthy token = true ->
  Forall (fun ask => (fst ask <? expiry - 5000)%float = true) later ->
  calls_in_turn nts stn later {| cachedToken := token; tokenExpiry := expiry |}
  = (map (fun _ => (Normal token, false)) later,
     {| cachedToken := token; tokenExpiry := expiry |}).
Proof.
  intros T. induction 1 as [|[t answer] rest H _ IH]; [reflexivity|].
  cbn [calls_in_turn map]. unfold getAccessToken at 1.
  cbn [cachedToken tokenExpiry fst] in *. rewrite T, H. cbn [andb]. now rewrite IH.
Qed.

(** X11. A call that has to ask the vendor and gets a truthy token with
    a lifetime is followed by any number of calls that are served that
    token from the cache without the vendor being asked, as long as each
    comes more than five seconds before the expiry. A call that comes
    later, or finds a token that is not truthy, asks the vendor again, and
    when the vendor fails then, the failure is passed on and the cache is
    left as it was. *)
Theorem token_is_reused_until_expiry
        (nts : float -> string) (stn : string -> float)
        (now : float) (data token : value) (seconds : float) (c : cache)
        (later : list (float * completion value)) :
  truthy (cachedToken c) && (now <? tokenExpiry c - 5000)%float = false ->
  get data "access_token" = Normal token ->
  lifetime nts stn data = Normal seconds ->
  (truthy token = true ->
   Forall (fun ask => (fst ask <? (now + seconds * 1000) - 5000)%float = true) later ->
   calls_in_turn nts stn ((now, Normal data) :: later) c
   = ((Normal token, true) :: map (fun _ => (Normal token, false)) later,
      {| cachedToken := token; tokenExpiry := (now + seconds * 1000)%float |}))
  /\ (forall t answer,
        truthy token && (t <? (now + seconds * 1000) - 5000)%float = false ->
        snd (getAccessToken nts stn t answer
               {| cachedToken := token; tokenExpiry := (now + seconds * 1000)%float |})
        = true)
  /\ (forall t e,
        truthy token && (t <? (now + seconds * 1000) - 5000)%float = false ->
        getAccessToken nts stn t (Throw e)
          {| cachedToken := token; tokenExpiry := (now + seconds * 1000)%float |}
        = (Throw e,
           {| cachedToken := token; tokenExpiry := (now + seconds * 1000)%float |},
           true)).
Proof.
  intros M T L. split; [|split].
  - intros Tt F. cbn [calls_in_turn]. unfold getAccessToken at 1. rewrite M, T, L.
    now rewrite (served_from_cache nts stn token _ later Tt F).
  - intros t answer F. unfold getAccessToken.
    cbn [cachedToken tokenExpiry]. rewrite F.
    destruct answer as [d|e]; [|reflexivity].
    destruct (get d "access_token"); [|reflexivity].
    destruct (lifetime nts stn d); reflexivity.
  - intros t e F. unfold getAccessToken.
    cbn [cachedToken tokenExpiry]. now rewrite F.
Qed.

(** The first call at time zero, two calls within the hour, and a call one
    second before the token runs out, which is too late by four. *)
Lemma token_is_reused_until_expiry_witness :
  calls_in_turn Examples.any_number_to_string Examples.any_string_to_number
    [(0%float, Normal Samples.token_answer);
     (1000%float, Throw (Error "not asked"));
     (3593999%float, Throw (Error "not asked"))]
    empty
  = ([(Normal (VStr "token"), true); (Normal (VStr "token"), false);
      (Normal (VStr "token"), false)],
     {| cachedToken := VStr "token"; tokenExpiry := (0 + 3599 * 1000)%float |})
  /\ getAccessToken Examples.any_number_to_string Examples.any_string_to_number
       3598000%float (Throw (Error "vendor down"))
       {| cachedToken := VStr "token"; tokenExpiry := (0 + 3599 * 1000)%float |}
     = (Throw (Error "vendor down"),
        {| cachedToken := VStr "token"; tokenExpiry := (0 + 3599 * 1000)%float |}, true).
Proof.
  destruct (token_is_reused_until_expiry
              Examples.any_number_to_string Examples.any_string_to_number
              0%float Samples.token_answer (VStr "token") 3599%float empty
              [(1000%float, Throw (Error "not asked"));
               (3593999%float, Throw (Error "not asked"))]
              eq_refl eq_refl eq_refl) as (H & _ & M).
  split.
  - apply H; [reflexivity|]. repeat constructor.
  - exact (M 3598000%float (Error "vendor down") eq_refl).
Defined.

End TokenCacheFacts.

(** ** JSON images *)

Module JsonFacts.
Import JS Json.

Lemma lookup_image (image : value -> value) (props l : list (string * value)) (k : string) :
  lookup k (image_of_bindings image props l)
  = if is_undefined (field k props) then None else option_map image (lookup k l).
Proof.
  induction l as [|[k' x] t IH]; cbn [image_of_bindings lookup].
  - now destruct (is_undefined (field k props)).
  - destruct (is_undefined (field k' props)) eqn:U.
    + rewrite IH. destruct (is_undefined (field k props)) eqn:U'; [reflexivity|].
      destruct (lookup k t); [reflexivity|].
      destruct (k' =? k) eqn:E; [|reflexivity].
      apply String.eqb_eq in E. subst. congruence.
    + cbn [lookup]. rewrite IH.
      destruct (is_undefined (field k props)) eqn:U'.
      * destruct (k' =? k) eqn:E; [|reflexivity].
        apply String.eqb_eq in E. subst. congruence.
      * destruct (lookup k t); [reflexivity|].
        now destruct (k' =? k).
Qed.

Lemma image_defined (v : value) : is_undefined (json_image v) = false.
Proof.
  destruct v; try reflexivity. cbn [json_image]. unfold number_image.
  now destruct (is_nan n || is_infinity n), (is_zero n).
Qed.

(** Reading a property of an object that went through JSON. *)
Lemma field_image (props : list (string * value)) (k : string) :
  field k (image_of_bindings json_image props props)
  = if is_undefined (field k props) then VUndefined else json_image (field k props).
Proof.
  unfold field at 1. rewrite lookup_image.
  destruct (is_undefined (field k props)) eqn:U; [reflexivity|].
  unfold field in *. now destruct (lookup k props).
Qed.

Lemma image_string (v : value) (s : string) :
  json_image v = VStr s -> v = VStr s.
Proof.
  destruct v; cbn [json_image]; try discriminate; try easy.
  unfold number_image.
  now destruct (is_nan n || is_infinity n), (is_zero n).
Qed.

End JsonFacts.

(** ** The click handler of the checkout page *)

Module PageFacts.
Import JS Json Server Rules Handlers Page.

Lemma after_third_firing (id : value) (n : nat) :
  Client.after (3 + n) (Client.pollForPayment id) = Client.after 3 (Client.pollForPayment id).
Proof.
  change (Client.after (3 + n) (Client.pollForPayment id))
    with (Client.after n (Client.after 3 (Client.pollForPayment id))).
  generalize (eq_refl : Client.interval (Client.after 3 (Client.pollForPayment id)) = false).
  generalize (Client.after 3 (Client.pollForPayment id)) as p.
  intros p H. induction n as [|n IH]; simpl; [reflexivity|].
  unfold Client.tick at 1. now rewrite H.
Qed.

Lemma send_is_checked (p0 : string) (a0 : float) (p : string) (a : float) :
  Client.on_click p0 a0 = Client.Send p a ->
  p = p0 /\ a = a0 /\ Client.on_click p a = Client.Send p a.
Proof.
  intros H. assert (E : p = p0 /\ a = a0).
  { unfold Client.on_click in H.
    repeat match type of H with
           | (if ?b then _ else _) = _ => destruct b; try discriminate H
           end.
    now inversion H. }
  destruct E as [-> ->]. auto.
Qed.

Lemma request_enables (nts : float -> string) (stringify : value -> string)
      (server : value -> answer) (p : string) (a : float) (says : message) (disabled : bool) :
  request nts stringify server p a = Normal (Settled says disabled) -> disabled = false.
Proof.
  unfold request. intros R.
  repeat match type of R with
         | bind ?c _ = _ => destruct c; cbn [bind] in R; try discriminate R
         | (if ?b then _ else _) = _ => destruct b; try discriminate R
         end.
  now inversion R.
Qed.

Lemma request_polls (nts : float -> string) (stringify : value -> string)
      (server : value -> answer) (p : string) (a : float) (poller : Client.poller) :
  request nts stringify server p a = Normal (Polling poller) ->
  exists id, poller = Client.pollForPayment id.
Proof.
  unfold request. intros R.
  repeat match type of R with
         | bind ?c _ = _ => destruct c; cbn [bind] in R; try discriminate R
         | (if ?b then _ else _) = _ => destruct b; try discriminate R
         end.
  inversion R. eexists; reflexivity.
Qed.

(** X12. The pay button never stays disabled: whatever the fields hold and
    whatever the server does, either the click handler leaves the button
    enabled, or it starts the poll, whose third firing enables it. A click posts at most one request, and only a phone
    and an amount that passed the page's check, the phone being the
    trimmed field. *)
Theorem pay_button_comes_back
        (nts : float -> string) (stn : string -> float) (stringify : value -> string)
        (server : value -> answer) (phone_field amount_field : string) (n : nat) :
  pay_disabled_after (3 + n) (fst (click nts stn stringify server phone_field amount_field))
  = false
  /\ (snd (click nts stn stringify server phone_field amount_field) = []
      \/ (snd (click nts stn stringify server phone_field amount_field)
          = [json_image (request_body (trim phone_field) (stn amount_field))]
          /\ Client.on_click (trim phone_field) (stn amount_field)
             = Client.Send (trim phone_field) (stn amount_field))).
Proof.
  unfold click.
  destruct (Client.on_click (trim phone_field) (stn amount_field)) as [| |p a] eqn:C;
    cbn [fst snd]; try (split; [reflexivity|left; reflexivity]).
  destruct (send_is_checked _ _ _ _ C) as (-> & -> & _).
  split; [|right; split; reflexivity].
  destruct (request nts stringify server (trim phone_field) (stn amount_field))
    as [[says disabled|poller]|e] eqn:R; cbn [pay_disabled_after]; try reflexivity.
  - exact (request_enables _ _ _ _ _ _ _ R).
  - destruct (request_polls _ _ _ _ _ _ R) as [id ->]. now rewrite after_third_firing.
Qed.

Lemma posted_body (p : string) (a : float) :
  json_image (request_body p a)
  = VObj [("phone", VStr p); ("amount", number_image a);
          ("accountRef", VStr "QikaoOrder-123")].
Proof. reflexivity. Qed.

Lemma sent_amount (p : string) (a : float) :
  Client.on_click p a = Client.Send p a ->
  truthy (VStr p) = true
  /\ truthy (VNum a) = true
  /\ number_image a = if is_infinity a then VNull else VNum a.
Proof.
  unfold Client.on_click. intros H.
  destruct (negb (prefix_then_digits "0" 8 9 p)
            && negb (prefix_then_digits "254" 9 9 p)
            && negb (prefix_then_digits "+254" 9 9 p)) eqn:P; [discriminate|].
  destruct (negb (truthy (VNum a)) || (a <=? 0)%float) eqn:A; [discriminate|].
  apply orb_false_iff in A. destruct A as [A _]. apply negb_false_iff in A.
  split; [destruct p; [discriminate P|reflexivity]|]. split; [exact A|].
  cbn [truthy] in A. apply negb_true_iff, orb_false_iff in A. destruct A as [Z N].
  unfold number_image. rewrite Z, N. reflexivity.
Qed.

Section Server.

Variable nts : float -> string.
Variable stn : string -> float.
Variable env : environment.

(** The bodies [POST /api/mpesa/stkpush] answers with. *)
Lemma stkpush_body_spec (gw : gateway) (req_body : value) :
  wp (stkpush nts stn env gw req_body)
     (fun c ef =>
        exists r, c = Normal r
        /\ ((code r = 400 /\ body r = VObj [("error", VStr "phone and amount required")])
            \/ (code r = 500
                /\ body r
                   = VObj [("error", VStr "MPESA_SHORTCODE/MPESA_PASSKEY/MPESA_CALLBACK_URL not set")])
            \/ (code r = 500
                /\ exists d, body r = VObj [("error", VStr "STK push failed"); ("detail", d)])
            \/ (code r = 200
                /\ exists payload data,
                   processrequest gw payload = Normal data
                   /\ body r = VObj [("success", VBool true);
                                     ("data", or_else data (VObj []))]))).
Proof.
  unfold stkpush, getAccessToken. wp_run.
  all: eexists; split; [reflexivity|]; cbn [code body json].
  all: try (left; split; reflexivity).
  all: try (right; left; split; reflexivity).
  all: try (right; right; left; split; [reflexivity|eexists; reflexivity]).
  all: right; right; right; split; [reflexivity|].
  all: do 2 eexists; split; [eassumption|reflexivity].
Qed.

Lemma image_of_failure (text : string) (d : value) :
  get (json_image (VObj [("error", VStr text); ("detail", d)])) "error"
  = Normal (VStr text).
Proof.
  cbn [json_image get]. rewrite JsonFacts.field_image. reflexivity.
Qed.

Lemma image_of_success (data : value) :
  truthy data = true ->
  get (json_image (VObj [("success", VBool true); ("data", data)])) "data"
  = Normal (json_image data).
Proof.
  intros T. cbn [json_image get]. rewrite JsonFacts.field_image.
  change (field "data" [("success", VBool true); ("data", data)]) with data.
  now destruct data.
Qed.

(** X13. With [server.js] behind the page, a click ends in one of seven
    ways: one of the two hints of the page's own check; the text 'Payment
    request failed: ' followed by the server's 400 message, which only an
    infinite amount brings about (it arrives as [null]); the same text
    followed by one of the server's two 500 messages; the poll; or
    'Network error. Try again.', which is shown only when the vendor's
    answer is an infinite number. *)
Theorem click_over_server_js
        (stringify : value -> string) (gw : gateway) (w : world)
        (phone_field amount_field : string) :
  click_on_server_js nts stn stringify env gw w phone_field amount_field
  = Settled EnterValidPhone false
  \/ click_on_server_js nts stn stringify env gw w phone_field amount_field
     = Settled EnterAmount false
  \/ (click_on_server_js nts stn stringify env gw w phone_field amount_field
      = Settled (RequestFailed "Payment request failed: phone and amount required") false
      /\ is_infinity (stn amount_field) = true)
  \/ click_on_server_js nts stn stringify env gw w phone_field amount_field
     = Settled (RequestFailed
                  "Payment request failed: MPESA_SHORTCODE/MPESA_PASSKEY/MPESA_CALLBACK_URL not set")
               false
  \/ click_on_server_js nts stn stringify env gw w phone_field amount_field
     = Settled (RequestFailed "Payment request failed: STK push failed") false
  \/ (exists id,
         click_on_server_js nts stn stringify env gw w phone_field amount_field
         = Polling (Client.pollForPayment id))
  \/ (click_on_server_js nts stn stringify env gw w phone_field amount_field
      = Settled NetworkError false
      /\ exists payload n,
           processrequest gw payload = Normal (VNum n) /\ is_infinity n = true).
Proof.
  unfold click_on_server_js, click.
  destruct (Client.on_click (trim phone_field) (stn amount_field)) as [| |p a] eqn:C;
    cbn [fst]; auto.
  destruct (send_is_checked _ _ _ _ C) as (-> & -> & C').
  destruct (sent_amount _ _ C') as (P & Ta & A).
  unfold request. rewrite posted_body, A.
  match goal with
  | |- context [stkpush nts stn env gw ?b] =>
      destruct (stkpush_body_spec gw b)
        as (c & ef & R & r & -> & [[C4 B]|[[C5 B]|[(C5 & d & B)|(C2 & payload & data & G & B)]]]);
      destruct (Initiation.stkpush_400_spec nts stn env gw b)
        as (c' & ef' & R' & r' & E & _ & I);
      assert (X : c' = Normal r) by (specialize (R w); specialize (R' w); congruence);
      rewrite E in X; inversion X; subst r'; clear X E
  end.
  - right; right; left.
    unfold respond. rewrite R. unfold served. cbn [fst snd bind]. rewrite C4, B.
    split; [reflexivity|].
    apply I in C4. destruct C4 as (x & y & X & Y & F).
    destruct (is_infinity (stn amount_field)); [reflexivity|].
    cbn in X, Y. inversion X; inversion Y; subst. rewrite P, Ta in F. discriminate.
  - right; right; right; left.
    unfold respond. rewrite R. unfold served. cbn [fst snd bind]. rewrite C5, B.
    reflexivity.
  - right; right; right; right; left.
    unfold respond. rewrite R. unfold served. cbn [fst snd bind]. rewrite C5, B.
    cbn [is_undefined Nat.leb andb negb bind]. rewrite image_of_failure. reflexivity.
  - assert (T : truthy (or_else data (VObj [])) = true) by apply or_else_object_truthy.
    unfold respond. rewrite R. unfold served. cbn [fst snd bind]. rewrite C2, B.
    cbn [is_undefined Nat.leb andb negb bind]. rewrite (image_of_success _ T). cbn [bind].
    destruct (get (json_image (or_else data (VObj []))) "CheckoutRequestID") as [id|e] eqn:K.
    + do 5 right; left. exists id. reflexivity.
    + do 6 right. split; [reflexivity|]. exists payload.
      unfold or_else in *. destruct (truthy data) eqn:TD; [|discriminate K].
      destruct data; try discriminate K; try discriminate TD.
      exists n. split; [assumption|].
      cbn [json_image truthy] in *. unfold number_image in K.
      apply negb_true_iff, orb_false_iff in TD. destruct TD as [Z N]. rewrite N, Z in K.
      cbn [orb] in K. destruct (is_infinity n); [reflexivity|discriminate K].
Qed.

End Server.

End PageFacts.

(** ** The sibling server *)

Module ExpressFacts.
Import JS Json ExpressServer Page.

Lemma stkCallback_of_total (body : value) : exists sc, stkCallback_of body = Normal sc.
Proof.
  destruct body; cbn [stkCallback_of get bind]; try (eexists; reflexivity).
  destruct (field "Body" props); cbn [get]; eexists; reflexivity.
Qed.

Lemma metadata_fields_objects (elems : list value) (found : value * value * value) :
  (forall i, In i elems -> i <> VNull /\ i <> VUndefined) ->
  exists r, metadata_fields found elems = Normal r.
Proof.
  revert found. induction elems as [|i t IH]; intros found H; cbn [metadata_fields].
  - eexists; reflexivity.
  - destruct (H i (or_introl eq_refl)) as [N U].
    assert (G : forall k, exists x, get i k = Normal x).
    { intros k. destruct i; try congruence; eexists; reflexivity. }
    destruct (G "Name") as [name ->], (G "Value") as [v ->]. cbn [bind].
    destruct found as [[amount receipt] phone]. apply IH.
    intros j I. apply H. now right.
Qed.

Lemma metadata_fields_null (elems : list value) (found : value * value * value) :
  (exists i, In i elems /\ (i = VNull \/ i = VUndefined)) ->
  exists e, metadata_fields found elems = Throw e.
Proof.
  revert found. induction elems as [|i t IH]; intros found (j & I & N); [destruct I|].
  cbn [metadata_fields].
  destruct (get i "Name") as [name|e] eqn:G; [|eexists; reflexivity].
  destruct (get i "Value") as [v|e] eqn:G'; [|eexists; reflexivity].
  cbn [bind]. destruct found as [[amount receipt] phone].
  apply IH. destruct I as [<-|I]; [|eauto].
  destruct N as [->| ->]; discriminate G.
Qed.

Lemma nullish_or_not (elems : list value) :
  (forall i, In i elems -> i <> VNull /\ i <> VUndefined)
  \/ (exists i, In i elems /\ (i = VNull \/ i = VUndefined)).
Proof.
  induction elems as [|i t [IH|(j & I & N)]].
  - left. intros i [].
  - destruct i; try (left; intros j [<-|I]; [split; discriminate|now apply IH]).
    + right. exists VUndefined. split; [now left|now right].
    + right. exists VNull. split; [now left|now left].
  - right. exists j. split; [now right|exact N].
Qed.

(** The paths through the handler. *)
Lemma callback_cases (body : value) :
  (body = VUndefined
   /\ callback body
      = json 500 [("ResultCode", VNum 1%float); ("ResultDesc", VStr "Server error")])
  \/ (body <> VUndefined
      /\ exists sc,
          stkCallback_of body = Normal sc
          /\ ((truthy sc = false
               /\ callback body
                  = json 200 [("ResultCode", VNum 0%float); ("ResultDesc", VStr "Received")])
              \/ (truthy sc = true
                  /\ exists meta,
                      get sc "CallbackMetadata" = Normal meta
                      /\ (((truthy meta = true
                            /\ exists elems i,
                                get meta "Item" = Normal (VArr elems)
                                /\ In i elems /\ (i = VNull \/ i = VUndefined))
                           /\ callback body
                              = json 500 [("ResultCode", VNum 1%float);
                                          ("ResultDesc", VStr "Server error")])
                          \/ (~ (truthy meta = true
                                 /\ exists elems i,
                                     get meta "Item" = Normal (VArr elems)
                                     /\ In i elems /\ (i = VNull \/ i = VUndefined))
                              /\ callback body
                                 = json 200 [("ResultCode", VNum 0%float);
                                             ("ResultDesc", VStr "Success")]))))).
Proof.
  unfold callback.
  destruct (is_undefined body) eqn:U.
  { destruct body; try discriminate U. left. split; reflexivity. }
  right. split; [intros ->; discriminate U|].
  cbn [bind]. destruct (stkCallback_of_total body) as [sc S]. rewrite S. cbn [bind].
  exists sc. split; [reflexivity|].
  destruct (truthy sc) eqn:T; cbn [negb]; [right|left; split; reflexivity].
  split; [reflexivity|].
  rewrite (Facts.truthy_get _ "CallbackMetadata" T). cbn [bind].
  eexists. split; [reflexivity|].
  set (meta := match sc with VObj ps => field "CallbackMetadata" ps | _ => VUndefined end).
  destruct (truthy meta) eqn:Tm.
  2:{ right. split; [intros [K _]; discriminate K|reflexivity]. }
  rewrite (Facts.truthy_get _ "Item" Tm). cbn [bind].
  set (items := match meta with VObj ps => field "Item" ps | _ => VUndefined end).
  destruct items as [| | b | n | s | elems | props] eqn:I;
    try (right; split; [intros (_ & elems' & i & K & _); discriminate K|reflexivity]).
  destruct (nullish_or_not elems) as [A|E].
  - right. destruct (metadata_fields_objects elems (VNull, VNull, VNull) A) as [r ->].
    split; [|reflexivity].
    intros (_ & elems' & i & K & Ii & N). inversion K; subst elems'.
    destruct (A i Ii) as [N1 N2]. destruct N; congruence.
  - left. destruct (metadata_fields_null elems (VNull, VNull, VNull) E) as [e ->].
    destruct E as (i & Ii & N). split; [|reflexivity].
    split; [reflexivity|]. now exists elems, i.
Qed.

(** X14. What the sibling's callback endpoint answers: 200 'Received' when
    the body has no envelope, 200 'Success' when it has one, whatever the
    result code says, and 500 only when the body was not delivered or the
    list of metadata items holds [null]. *)
Theorem express_callback_answers (body : value) :
  (callback body = json 200 [("ResultCode", VNum 0%float); ("ResultDesc", VStr "Received")]
   <-> body <> VUndefined
       /\ exists sc, stkCallback_of body = Normal sc /\ truthy sc = false)
  /\ (callback body = json 500 [("ResultCode", VNum 1%float); ("ResultDesc", VStr "Server error")]
      <-> body = VUndefined
          \/ exists sc meta elems i,
               stkCallback_of body = Normal sc /\ truthy sc = true
               /\ get sc "CallbackMetadata" = Normal meta /\ truthy meta = true
               /\ get meta "Item" = Normal (VArr elems)
               /\ In i elems /\ (i = VNull \/ i = VUndefined))
  /\ (callback body = json 200 [("ResultCode", VNum 0%float); ("ResultDesc", VStr "Received")]
      \/ callback body = json 200 [("ResultCode", VNum 0%float); ("ResultDesc", VStr "Success")]
      \/ callback body
         = json 500 [("ResultCode", VNum 1%float); ("ResultDesc", VStr "Server error")]).
Proof.
  destruct (callback_cases body)
    as [[U ->]|(D & sc & S & [[T ->]|(T & meta & M & [[(Tm & elems & i & G & I & N) ->]|[X ->]])])].
  - split; [split; [discriminate|intros [K _]; congruence]|]. split; [split; auto|auto].
  - split; [split; [intros _; split; [exact D|eauto]|reflexivity]|].
    split; [|auto]. split; [discriminate|].
    intros [K|(sc' & _ & _ & _ & S' & T' & _)]; [congruence|].
    rewrite S in S'. inversion S'; subst. congruence.
  - split; [split; [discriminate|]|].
    { intros (_ & sc' & S' & T'). rewrite S in S'. inversion S'; subst. congruence. }
    split; [|auto]. split; [|reflexivity]. intros _. right.
    exists sc, meta, elems, i. auto 10.
  - split; [split; [discriminate|]|].
    { intros (_ & sc' & S' & T'). rewrite S in S'. inversion S'; subst. congruence. }
    split; [|auto]. split; [discriminate|].
    intros [K|(sc' & meta' & elems & i & S' & T' & M' & Tm & G & I & N)]; [congruence|].
    exfalso. rewrite S in S'. inversion S'; subst sc'.
    rewrite M in M'. inversion M'; subst meta'. apply X. split; [exact Tm|].
    now exists elems, i.
Qed.

(** X15. The two servers do not agree on what the page sends: the sibling
    goes on with a posted phone and amount only when the phone is in the
    local spelling, and turns the two international spellings, which the
    page lets through, away with 400; an infinite amount arrives as
    [null] and is turned away as missing. *)
Theorem express_turns_down_international
        (nts : float -> string) (stn : string -> float) (phone : string) (amount : float) :
  Client.on_click phone amount = Client.Send phone amount ->
  stkpush_rejection nts stn (json_image (request_body phone amount))
  = if is_infinity amount
    then Some (json 400 [("error", VStr "phone and amount required")])
    else if prefix_then_digits "0" 8 9 phone
         then None
         else Some (json 400 [("error", VStr "Invalid phone number format")]).
Proof.
  intros C. destruct (PageFacts.sent_amount _ _ C) as (P & _ & A).
  rewrite PageFacts.posted_body, A.
  unfold stkpush_rejection, stkpush_checks.
  cbn [get field lookup String.eqb Ascii.eqb Bool.eqb bind]. rewrite P.
  destruct (is_infinity amount) eqn:I; [reflexivity|].
  unfold Client.on_click in C.
  destruct (negb (prefix_then_digits "0" 8 9 phone)
            && negb (prefix_then_digits "254" 9 9 phone)
            && negb (prefix_then_digits "+254" 9 9 phone)); [discriminate|].
  destruct (negb (truthy (VNum amount)) || (amount <=? 0)%float) eqn:K; [discriminate|].
  apply orb_false_iff in K. destruct K as [K L]. apply negb_false_iff in K.
  rewrite K. cbn [negb orb to_string bind].
  destruct (prefix_then_digits "0" 8 9 phone); cbn [negb]; [|reflexivity].
  cbn [to_number bind]. cbn [truthy] in K.
  apply negb_true_iff, orb_false_iff in K. destruct K as [_ N]. now rewrite N, L.
Qed.

(** The same subscriber in the international and in the local spelling. *)
Lemma express_turns_down_international_witness :
  Client.on_click "254712345678" 150 = Client.Send "254712345678" 150
  /\ stkpush_rejection Examples.any_number_to_string Examples.any_string_to_number
       (json_image (request_body "254712345678" 150))
     = Some (json 400 [("error", VStr "Invalid phone number format")])
  /\ stkpush_rejection Examples.any_number_to_string Examples.any_string_to_number
       (json_image (request_body "0712345678" 150))
     = None.
Proof.
  split; [reflexivity|]. split.
  - exact (express_turns_down_international
             Examples.any_number_to_string Examples.any_string_to_number
             "254712345678" 150%float eq_refl).
  - exact (express_turns_down_international
             Examples.any_number_to_string Examples.any_string_to_number
             "0712345678" 150%float eq_refl).
Defined.

End ExpressFacts.

Module JsonRoundTrip.
Import JS Json JsonFacts.

Lemma value_ind_nested (P : value -> Prop)
      (HU : P VUndefined) (HN : P VNull) (HB : forall b, P (VBool b))
      (HNum : forall n, P (VNum n)) (HS : forall s, P (VStr s))
      (HA : forall elems, Forall P elems -> P (VArr elems))
      (HO : forall props, Forall (fun kv => P (snd kv)) props -> P (VObj props)) :
  forall v, P v.
Proof.
  fix IH 1. intros [| | b | n | s | elems | props].
  - exact HU.
  - exact HN.
  - apply HB.
  - apply HNum.
  - apply HS.
  - apply HA. induction elems as [|x t IHt]; constructor; [apply IH | exact IHt].
  - apply HO. induction props as [|[k x] t IHt]; constructor; [apply IH | exact IHt].
Qed.

Lemma number_image_twice (n : float) : json_image (number_image n) = number_image n.
Proof.
  unfold number_image.
  destruct (is_nan n || is_infinity n) eqn:A; [reflexivity|].
  destruct (is_zero n) eqn:Z; [reflexivity|].
  cbn [json_image]. unfold number_image. now rewrite A, Z.
Qed.

Lemma in_image (image : value -> value) (props l : list (string * value))
      (k : string) (y : value) :
  In (k, y) (image_of_bindings image props l) ->
  exists x, In (k, x) l /\ y = image x /\ is_undefined (field k props) = false.
Proof.
  induction l as [|[k' x'] t IH]; cbn [image_of_bindings]; [intros []|].
  destruct (is_undefined (field k' props)) eqn:U.
  - intros H. destruct (IH H) as (x & I & E & D). exists x. repeat split; auto. now right.
  - intros [H|H].
    + inversion H; subst. exists x'. repeat split; auto. now left.
    + destruct (IH H) as (x & I & E & D). exists x. repeat split; auto. now right.
Qed.

Lemma image_of_kept (props l : list (string * value)) :
  (forall k x, In (k, x) l -> is_undefined (field k props) = false /\ json_image x = x) ->
  image_of_bindings json_image props l = l.
Proof.
  induction l as [|[k x] t IH]; intros H; cbn [image_of_bindings]; [reflexivity|].
  destruct (H k x (or_introl eq_refl)) as [-> ->].
  f_equal. apply IH. intros k' x' I. apply H. now right.
Qed.

Lemma json_image_idempotent (v : value) : json_image (json_image v) = json_image v.
Proof.
  induction v as [| | b | n | s | elems IH | props IH] using value_ind_nested;
    try reflexivity.
  - apply number_image_twice.
  - cbn [json_image]. f_equal. rewrite map_map.
    induction IH as [|x t H _ IHt]; cbn [map]; [reflexivity|]. now rewrite H, IHt.
  - cbn [json_image]. f_equal. apply image_of_kept.
    intros k y I. destruct (in_image _ _ _ _ _ I) as (x & Ix & -> & D). split.
    + rewrite field_image, D. apply image_defined.
    + rewrite Forall_forall in IH. exact (IH (k, x) Ix).
Qed.

End JsonRoundTrip.

(** ** The cart of the menu page *)

Module CartFacts.
Import JS Json JsonFacts JsonRoundTrip Cart.

Lemma is_id_image (x : value) (id : string) :
  is_id (if is_undefined x then VUndefined else json_image x) id = is_id x id.
Proof.
  destruct x; try reflexivity. cbn [is_undefined json_image]. unfold number_image.
  now destruct (is_nan n || is_infinity n), (is_zero n).
Qed.

Lemma has_id_image (id : string) (i : value) : has_id id (json_image i) = has_id id i.
Proof.
  destruct i; try reflexivity.
  - cbn [json_image]. unfold number_image.
    now destruct (is_nan n || is_infinity n), (is_zero n).
  - cbn [json_image has_id]. rewrite field_image. apply is_id_image.
Qed.

Lemma is_object_image (i : value) : is_object (json_image i) = is_object i.
Proof.
  destruct i; try reflexivity. cbn [json_image]. unfold number_image.
  now destruct (is_nan n || is_infinity n), (is_zero n).
Qed.

Lemma objects_image (items : list value) :
  forallb is_object (map json_image items) = forallb is_object items.
Proof.
  induction items as [|i t IH]; cbn [map forallb]; [reflexivity|].
  now rewrite is_object_image, IH.
Qed.

Lemma ids_app (l l' : list value) : ids (l ++ l') = (ids l ++ ids l')%list.
Proof. unfold ids. now rewrite flat_map_app. Qed.

Lemma ids_cons (i : value) (t : list value) : ids (i :: t) = (ids [i] ++ ids t)%list.
Proof. exact (ids_app [i] t). Qed.

Lemma ids_image (items : list value) : ids (map json_image items) = ids items.
Proof.
  induction items as [|i t IH]; [reflexivity|].
  cbn [map]. rewrite (ids_cons i), (ids_cons (json_image i)), IH. f_equal.
  destruct i; try reflexivity.
  - cbn [json_image]. unfold number_image.
    now destruct (is_nan n || is_infinity n), (is_zero n).
  - cbn [json_image ids flat_map]. rewrite field_image.
    destruct (field "id" props) eqn:F; try reflexivity.
    cbn [is_undefined json_image]. unfold number_image.
    now destruct (is_nan n || is_infinity n), (is_zero n).
Qed.

Lemma find_map_image (id : string) (items : list value) :
  List.find (has_id id) (map json_image items)
  = option_map json_image (List.find (has_id id) items).
Proof.
  induction items as [|i t IH]; cbn [map List.find]; [reflexivity|].
  rewrite has_id_image. now destruct (has_id id i).
Qed.

Lemma has_id_ids (id : string) (i : value) :
  has_id id i = true <-> ids [i] = [id].
Proof.
  destruct i; cbn [has_id ids flat_map app]; try (split; discriminate).
  destruct (field "id" props); cbn [is_id app]; try (split; discriminate).
  rewrite String.eqb_eq. split; [now intros ->|now inversion 1].
Qed.

Lemma not_has_id_ids (id : string) (l : list value) :
  forallb (fun i => negb (has_id id i)) l = true <-> ~ In id (ids l).
Proof.
  induction l as [|i t IH]; cbn [forallb]; [easy|].
  rewrite ids_cons.
  rewrite andb_true_iff, IH, in_app_iff, negb_true_iff.
  destruct (has_id id i) eqn:H.
  - apply has_id_ids in H. rewrite H. split; [intros [? _]; discriminate|].
    intros N. exfalso. apply N. left. now left.
  - split; [|tauto]. intros [_ N] [I|I]; [|tauto].
    assert (K : has_id id i = true); [|congruence].
    destruct i; cbn [ids flat_map app] in I; try easy.
    cbn [has_id]. destruct (field "id" props); cbn [app] in I; try easy.
    destruct I as [->|[]]. cbn [is_id]. apply String.eqb_refl.
Qed.

Lemma find_pre (id : string) (pre rest : list value) :
  forallb (fun i => negb (has_id id i)) pre = true ->
  List.find (has_id id) (pre ++ rest) = List.find (has_id id) rest.
Proof.
  induction pre as [|i t IH]; cbn [forallb app List.find]; [reflexivity|].
  intros H. apply andb_true_iff in H. destruct H as [H T].
  apply negb_true_iff in H. rewrite H. now apply IH.
Qed.

Lemma find_skip (id : string) (pre post : list value) (x : value) :
  has_id id x = false ->
  List.find (has_id id) (pre ++ x :: post) = List.find (has_id id) (pre ++ post).
Proof.
  intros H. induction pre as [|i t IH]; cbn [app List.find].
  - now rewrite H.
  - now rewrite IH.
Qed.

Lemma find_none (id : string) (l : list value) :
  forallb (fun i => negb (has_id id i)) l = true -> List.find (has_id id) l = None.
Proof.
  intros H. rewrite <- (app_nil_r l). rewrite find_pre by assumption. reflexivity.
Qed.

Lemma other_id (id id' : string) (i : value) :
  id' <> id -> has_id id i = true -> has_id id' i = false.
Proof.
  intros N H. destruct i; try reflexivity. cbn [has_id] in *.
  destruct (field "id" props); try discriminate. cbn [is_id] in *.
  apply String.eqb_eq in H. subst. now apply String.eqb_neq.
Qed.

Section Script.

Variable nts : float -> string.
Variable stn : string -> float.
Variable CARD_NODES : list card.

Lemma find_objects (id : string) (items : list value) :
  forallb is_object items = true ->
  find id items = Normal (List.find (has_id id) items).
Proof.
  induction items as [|i t IH]; cbn [forallb find List.find]; [reflexivity|].
  intros H. apply andb_true_iff in H. destruct H as [O T].
  destruct i; try discriminate O. cbn [get bind has_id].
  destruct (is_id (field "id" props) id); [reflexivity|]. now apply IH.
Qed.

(** Where [findIndex] finds the item. *)
Lemma findIndex_objects (id : string) (items : list value) :
  forallb is_object items = true ->
  (findIndex id items = Normal None
   /\ forallb (fun i => negb (has_id id i)) items = true)
  \/ (exists pre props post,
         items = (pre ++ VObj props :: post)%list
         /\ findIndex id items = Normal (Some (List.length pre))
         /\ forallb (fun i => negb (has_id id i)) pre = true
         /\ has_id id (VObj props) = true).
Proof.
  induction items as [|i t IH]; cbn [forallb findIndex]; [now left|].
  intros H. apply andb_true_iff in H. destruct H as [O T].
  destruct i; try discriminate O. cbn [get bind].
  destruct (is_id (field "id" props) id) eqn:E.
  - right. exists [], props, t. cbn [app List.length forallb]. auto.
  - destruct (IH T) as [[F N]|(pre & props' & post & -> & F & N & Y)].
    + left. rewrite F. cbn [bind option_map has_id]. rewrite E. auto.
    + right. exists (VObj props :: pre), props', post.
      rewrite F. cbn [bind option_map app List.length forallb has_id]. rewrite E. auto.
Qed.

Lemma splice1_at (pre post : list value) (x : value) :
  splice1 (List.length pre) (pre ++ x :: post) = (pre ++ post)%list.
Proof. induction pre as [|i t IH]; cbn [List.length app splice1]; [reflexivity|now rewrite IH]. Qed.

Lemma assign_quantity_at (pre post : list value) (props : list (string * value)) (q : value) :
  assign_quantity (List.length pre) q (pre ++ VObj props :: post)
  = (pre ++ VObj (JS.set props "quantity" q) :: post)%list.
Proof.
  induction pre as [|i t IH]; cbn [List.length app assign_quantity]; [reflexivity|now rewrite IH].
Qed.

Lemma lookup_last (k k' : string) (v : value) (ps : list (string * value)) :
  lookup k (ps ++ [(k', v)]) = if k' =? k then Some v else lookup k ps.
Proof.
  induction ps as [|[k0 v0] t IH]; cbn [app lookup]; [reflexivity|].
  rewrite IH. now destruct (k' =? k).
Qed.

Lemma quantity_set (props : list (string * value)) (q : value) :
  field "quantity" (JS.set props "quantity" q) = q.
Proof.
  unfold field. change (JS.set props "quantity" q) with (props ++ [("quantity", q)])%list.
  now rewrite lookup_last.
Qed.

Lemma id_set (props : list (string * value)) (q : value) :
  field "id" (JS.set props "quantity" q) = field "id" props.
Proof.
  unfold field. change (JS.set props "quantity" q) with (props ++ [("quantity", q)])%list.
  now rewrite lookup_last.
Qed.

Lemma badge_objects (id : string) (st : stored) (items : list value) :
  readCart st = VArr items ->
  forallb is_object items = true ->
  badge id st = Normal (quantity_of (List.find (has_id id) items)).
Proof.
  intros R O. unfold badge. rewrite R. cbn [elements bind].
  rewrite (find_objects id items O). cbn [bind].
  destruct (List.find (has_id id) items) as [i|] eqn:F; [|reflexivity].
  apply find_some in F. destruct F as [I _].
  rewrite forallb_forall in O. specialize (O i I). now destruct i.
Qed.

Lemma quantity_of_image (i : value) :
  is_object i = true ->
  quantity_of (Some (json_image i))
  = if is_undefined (quantity_of (Some i)) then VUndefined
    else json_image (quantity_of (Some i)).
Proof.
  destruct i; try discriminate. intros _. cbn [json_image quantity_of]. apply field_image.
Qed.

Lemma fixed_find (id : string) (items : list value) :
  map json_image items = items ->
  option_map json_image (List.find (has_id id) items) = List.find (has_id id) items.
Proof. intros J. rewrite <- find_map_image. now rewrite J. Qed.

(** Saving a list of objects with distinct ids leaves a kept cart. *)
Lemma saved_is_kept (items : list value) :
  forallb is_object items = true ->
  NoDup (ids items) ->
  kept (readCart (saveCart (VArr items))).
Proof.
  intros O N. exists (map json_image items). cbn [saveCart is_undefined readCart json_image].
  repeat split.
  - now rewrite objects_image.
  - now rewrite ids_image.
  - change (VArr (map json_image (map json_image items)))
      with (json_image (json_image (VArr items))).
    now rewrite json_image_idempotent.
Qed.

Lemma badge_saved (id : string) (items : list value) :
  forallb is_object items = true ->
  badge id (saveCart (VArr items))
  = Normal (quantity_of (option_map json_image (List.find (has_id id) items))).
Proof.
  intros O.
  rewrite (badge_objects id _ (map json_image items)); [|reflexivity|now rewrite objects_image].
  now rewrite find_map_image.
Qed.

(** [setQuantity] on a kept cart. *)
Lemma setQuantity_spec (id : string) (q : value) (st : stored)
      (items : list value) (remove : bool) :
  kept (readCart st) ->
  readCart st = VArr items ->
  at_most_zero nts stn q = Normal remove ->
  (setQuantity nts stn CARD_NODES id q st
   = Throw (TypeError "Cannot read properties of undefined (reading 'title')")
   /\ remove = false /\ ~ In id (ids items) /\ card_of CARD_NODES id = None)
  \/ (exists st',
         setQuantity nts stn CARD_NODES id q st = Normal st'
         /\ (remove = true \/ In id (ids items) \/ card_of CARD_NODES id <> None)
         /\ kept (readCart st')
         /\ badge id st'
            = Normal (if remove then VNum 0%float
                      else if is_undefined q then VUndefined else json_image q)
         /\ forall id', id' <> id -> badge id' st' = badge id' st).
Proof.
  intros (items0 & E0 & O & N & J) R A. rewrite R in E0. inversion E0; subst items0. clear E0.
  assert (J' : map json_image items = items) by (rewrite R in J; cbn [json_image] in J; injection J; auto).
  unfold setQuantity. rewrite R, A. cbn [elements bind].
  assert (frame : forall items' id',
             forallb is_object items' = true ->
             List.find (has_id id') items' = List.find (has_id id') items ->
             badge id' (saveCart (VArr items')) = badge id' st).
  { intros items' id' O' F. rewrite (badge_saved _ _ O'), F, (fixed_find _ _ J').
    symmetry. now apply badge_objects. }
  destruct (findIndex_objects id items O)
    as [[F NI]|(pre & props & post & -> & F & NI & Y)]; rewrite F; cbn [bind].
  - destruct remove.
    + right. eexists. split; [reflexivity|]. split; [now left|].
      split; [now apply saved_is_kept|]. split.
      * rewrite (badge_saved _ _ O), (find_none _ _ NI). reflexivity.
      * intros id' _. now apply frame.
    + destruct (card_of CARD_NODES id) as [meta|] eqn:C; cbn [bind].
      * right. eexists. split; [reflexivity|]. split; [right; right; discriminate|].
        assert (O' : forallb is_object
                       (items ++ [VObj [("id", VStr id); ("name", VStr (title meta));
                                        ("price", VNum (price meta)); ("img", VStr (img meta));
                                        ("quantity", q)]]) = true).
        { rewrite forallb_app, O. reflexivity. }
        split; [|split].
        -- apply saved_is_kept; [exact O'|].
           rewrite ids_app. cbn [ids flat_map field lookup String.eqb Ascii.eqb Bool.eqb app].
           apply NoDup_app; [exact N|repeat constructor; intros []|].
           intros x Ix [<-|[]]. now apply not_has_id_ids in NI.
        -- rewrite (badge_saved _ _ O'), (find_pre _ _ _ NI). cbn [List.find has_id].
           cbn [field lookup String.eqb Ascii.eqb Bool.eqb is_id]. rewrite String.eqb_refl.
           cbn [option_map]. rewrite quantity_of_image by reflexivity. reflexivity.
        -- intros id' D. apply frame; [exact O'|].
           rewrite find_skip, app_nil_r; [reflexivity|].
           cbn [has_id field lookup String.eqb Ascii.eqb Bool.eqb is_id].
           now apply String.eqb_neq.
      * left. repeat split. now apply not_has_id_ids.
  - assert (Oa : forallb is_object pre = true /\ forallb is_object post = true).
    { rewrite forallb_app in O. cbn [forallb is_object] in O.
      apply andb_true_iff in O. destruct O as [O1 O2]. auto. }
    destruct Oa as [O1 O2].
    assert (Ip : ids [VObj props] = [id]) by now apply has_id_ids.
    rewrite ids_app, ids_cons, Ip in N.
    destruct remove.
    + right. eexists. split; [reflexivity|]. split; [now left|].
      rewrite splice1_at.
      assert (O' : forallb is_object (pre ++ post) = true) by now rewrite forallb_app, O1, O2.
      split; [|split].
      * apply saved_is_kept; [exact O'|]. rewrite ids_app. now apply NoDup_remove_1 in N.
      * rewrite (badge_saved _ _ O'). rewrite find_none; [reflexivity|].
        apply not_has_id_ids. rewrite ids_app. now apply NoDup_remove_2 in N.
      * intros id' D. apply frame; [exact O'|].
        symmetry. apply find_skip. now apply (other_id id).
    + right. eexists. split; [reflexivity|].
      split; [right; left; rewrite ids_app, ids_cons, Ip, in_app_iff; right; now left|].
      rewrite assign_quantity_at.
      assert (O' : forallb is_object (pre ++ VObj (JS.set props "quantity" q) :: post) = true).
      { rewrite forallb_app, O1. cbn [forallb is_object]. now rewrite O2. }
      assert (Y' : has_id id (VObj (JS.set props "quantity" q)) = true).
      { cbn [has_id] in *. now rewrite id_set. }
      split; [|split].
      * apply saved_is_kept; [exact O'|].
        rewrite ids_app, ids_cons. apply has_id_ids in Y'. now rewrite Y'.
      * rewrite (badge_saved _ _ O'), (find_pre _ _ _ NI). cbn [List.find]. rewrite Y'.
        cbn [option_map]. rewrite quantity_of_image by reflexivity.
        cbn [quantity_of]. now rewrite quantity_set.
      * intros id' D. apply frame; [exact O'|].
        rewrite find_skip by (now apply (other_id id)).
        symmetry. apply find_skip. now apply (other_id id).
Qed.

(** [changeQuantity] is [setQuantity] of what the badge shows plus the
    step. *)
Lemma changeQuantity_spec (id : string) (d : float) (st : stored) :
  kept (readCart st) ->
  exists current,
    badge id st = Normal current
    /\ changeQuantity nts stn CARD_NODES id d st
       = bind (add nts stn current (VNum d))
              (fun newQty => setQuantity nts stn CARD_NODES id newQty st).
Proof.
  intros (items & R & O & _). exists (quantity_of (List.find (has_id id) items)).
  split; [now apply badge_objects|].
  unfold changeQuantity. rewrite R. cbn [elements bind].
  rewrite (find_objects id items O). cbn [bind].
  destruct (List.find (has_id id) items) as [i|] eqn:F; [|reflexivity].
  apply find_some in F. destruct F as [I _].
  rewrite forallb_forall in O. specialize (O i I). now destruct i.
Qed.

(** X16. On a cart the script has kept (an array of objects with distinct
    ids, as JSON reads it back), [setQuantity] throws only when it is
    asked to add an item that is neither in the cart nor a card of the
    page, and then saves nothing. Otherwise the cart it saves is kept
    again, the badge of the card shows zero after a removal and else the
    quantity as JSON reads it back, and the badge of every other card
    shows what it showed. *)
Theorem setQuantity_on_kept_cart (id : string) (q : value) (st : stored)
        (items : list value) (remove : bool) :
  kept (readCart st) ->
  readCart st = VArr items ->
  at_most_zero nts stn q = Normal remove ->
  (setQuantity nts stn CARD_NODES id q st
   = Throw (TypeError "Cannot read properties of undefined (reading 'title')")
   /\ remove = false /\ ~ In id (ids items) /\ card_of CARD_NODES id = None)
  \/ (exists st',
         setQuantity nts stn CARD_NODES id q st = Normal st'
         /\ (remove = true \/ In id (ids items) \/ card_of CARD_NODES id <> None)
         /\ kept (readCart st')
         /\ badge id st'
            = Normal (if remove then VNum 0%float
                      else if is_undefined q then VUndefined else json_image q)
         /\ forall id', id' <> id -> badge id' st' = badge id' st).
Proof. apply setQuantity_spec. Qed.

(** X17. On a kept cart whose badge for a card shows the number [q], a
    click that changes the quantity by [d] leaves a kept cart whose badge
    for that card shows [q + d], or zero when [q + d] is not positive (the
    item is taken out), and leaves the other badges alone; it throws only
    when the item would have to be added and the page has no such card. *)
Theorem changeQuantity_counts (id : string) (d : float) (st : stored)
        (items : list value) (q : float) :
  kept (readCart st) ->
  readCart st = VArr items ->
  badge id st = Normal (VNum q) ->
  (changeQuantity nts stn CARD_NODES id d st
   = Throw (TypeError "Cannot read properties of undefined (reading 'title')")
   /\ (q + d <=? 0)%float = false /\ ~ In id (ids items) /\ card_of CARD_NODES id = None)
  \/ (exists st',
         changeQuantity nts stn CARD_NODES id d st = Normal st'
         /\ kept (readCart st')
         /\ badge id st'
            = Normal (if (q + d <=? 0)%float then VNum 0%float else number_image (q + d))
         /\ forall id', id' <> id -> badge id' st' = badge id' st).
Proof.
  intros K R B.
  destruct (changeQuantity_spec id d st K) as (current & B' & ->).
  rewrite B in B'. inversion B'; subst current. clear B'.
  change (add nts stn (VNum q) (VNum d)) with (@Normal value (VNum (q + d)%float)).
  cbn [bind].
  destruct (setQuantity_spec id (VNum (q + d)%float) st items (q + d <=? 0)%float K R eq_refl)
    as [(T & F & N & C)|(st' & S & _ & K' & Bi & Fr)].
  - left. auto.
  - right. exists st'. auto.
Qed.

(** X18. [readCart] shields the script from text that is not JSON, and
    from nothing else: when the storage holds JSON that is not an array
    ([null], a number, an object), every change of the cart and every
    badge throws a [TypeError], so nothing is saved and the storage stays
    as it is. *)
Theorem cart_unusable_on_foreign_storage (id : string) (q : value) (d : float) (v : value) :
  is_array v = false ->
  (exists m, setQuantity nts stn CARD_NODES id q (Parses v) = Throw (TypeError m))
  /\ (exists m, changeQuantity nts stn CARD_NODES id d (Parses v) = Throw (TypeError m))
  /\ (exists m, badge id (Parses v) = Throw (TypeError m)).
Proof.
  intros A. unfold setQuantity, changeQuantity, badge. cbn [readCart].
  destruct v; try discriminate A; cbn [elements bind]; repeat split; eexists; reflexivity.
Qed.

End Script.

(** X19. What [saveCart] stores is what the next [readCart] returns, up to
    what JSON does to a value, and saving what was read back stores the
    same again: the storage is stable under reading and saving. *)
Theorem saved_cart_is_stable (cart : value) :
  is_undefined cart = false ->
  readCart (saveCart cart) = json_image cart
  /\ saveCart (readCart (saveCart cart)) = saveCart cart.
Proof.
  intros D. unfold saveCart. rewrite D. cbn [readCart].
  rewrite image_defined, json_image_idempotent. auto.
Qed.

(** A cart with a [NaN] quantity and a property that is not defined. *)
Lemma saved_cart_is_stable_witness :
  readCart (saveCart (VArr [VObj [("id", VStr "nyama-choma"); ("quantity", VNum nan);
                                  ("note", VUndefined)]]))
  = VArr [VObj [("id", VStr "nyama-choma"); ("quantity", VNull)]]
  /\ saveCart (readCart (saveCart Samples.two_nyama_choma)) = saveCart Samples.two_nyama_choma.
Proof.
  split.
  - exact (proj1 (saved_cart_is_stable
                    (VArr [VObj [("id", VStr "nyama-choma"); ("quantity", VNum nan);
                                 ("note", VUndefined)]]) eq_refl)).
  - exact (proj2 (saved_cart_is_stable Samples.two_nyama_choma eq_refl)).
Defined.

Lemma kept_nothing : kept (readCart Nothing).
Proof. exists []. repeat split. constructor. Defined.

Lemma kept_two : kept (readCart (Parses Samples.two_nyama_choma)).
Proof.
  eexists. split; [reflexivity|]. repeat split.
  repeat constructor. intros [].
Defined.

(** The first portion of a card goes into an empty storage; a card the
    page does not have cannot be added. *)
Lemma setQuantity_on_kept_cart_witness :
  (exists st',
      setQuantity Examples.any_number_to_string Examples.any_string_to_number Samples.menu
        "chips-masala" (VNum 1%float) (Parses Samples.two_nyama_choma) = Normal st'
      /\ badge "chips-masala" st' = Normal (VNum 1%float)
      /\ badge "nyama-choma" st' = Normal (VNum 2%float))
  /\ setQuantity Examples.any_number_to_string Examples.any_string_to_number Samples.menu
       "ugali" (VNum 1%float) Nothing
     = Throw (TypeError "Cannot read properties of undefined (reading 'title')").
Proof.
  split.
  - destruct (setQuantity_on_kept_cart
                Examples.any_number_to_string Examples.any_string_to_number Samples.menu
                "chips-masala" (VNum 1%float) (Parses Samples.two_nyama_choma) _ false
                kept_two eq_refl eq_refl)
      as [(_ & _ & _ & C)|(st' & S & _ & _ & B & F)]; [discriminate C|].
    exists st'. split; [exact S|]. split; [exact B|].
    rewrite (F "nyama-choma"); [reflexivity|discriminate].
  - destruct (setQuantity_on_kept_cart
                Examples.any_number_to_string Examples.any_string_to_number Samples.menu
                "ugali" (VNum 1%float) Nothing [] false kept_nothing eq_refl eq_refl)
      as [(T & _)|(st' & _ & [R|[I|C]] & _)].
    + exact T.
    + discriminate R.
    + destruct I.
    + exfalso. apply C. reflexivity.
Defined.

(** One more of a card that is in the cart twice, and the last one of a
    card taken out. *)
Lemma changeQuantity_counts_witness :
  (exists st',
      changeQuantity Examples.any_number_to_string Examples.any_string_to_number Samples.menu
        "nyama-choma" 1%float (Parses Samples.two_nyama_choma) = Normal st'
      /\ badge "nyama-choma" st' = Normal (VNum 3%float))
  /\ (exists st',
        changeQuantity Examples.any_number_to_string Examples.any_string_to_number Samples.menu
          "nyama-choma" (-2)%float (Parses Samples.two_nyama_choma) = Normal st'
        /\ badge "nyama-choma" st' = Normal (VNum 0%float)).
Proof.
  split.
  - destruct (changeQuantity_counts
                Examples.any_number_to_string Examples.any_string_to_number Samples.menu
                "nyama-choma" 1%float (Parses Samples.two_nyama_choma) _ 2%float
                kept_two eq_refl eq_refl)
      as [(_ & _ & N & _)|(st' & S & _ & B & _)].
    + exfalso. apply N. left. reflexivity.
    + exists st'. split; [exact S|exact B].
  - destruct (changeQuantity_counts
                Examples.any_number_to_string Examples.any_string_to_number Samples.menu
                "nyama-choma" (-2)%float (Parses Samples.two_nyama_choma) _ 2%float
                kept_two eq_refl eq_refl)
      as [(_ & _ & N & _)|(st' & S & _ & B & _)].
    + exfalso. apply N. left. reflexivity.
    + exists st'. split; [exact S|exact B].
Defined.

(** A storage that holds [{}]. *)
Lemma cart_unusable_on_foreign_storage_witness :
  (exists m,
      setQuantity Examples.any_number_to_string Examples.any_string_to_number Samples.menu
        "nyama-choma" (VNum 1%float) (Parses (VObj [])) = Throw (TypeError m))
  /\ (exists m,
        changeQuantity Examples.any_number_to_string Examples.any_string_to_number Samples.menu
          "nyama-choma" 1%float (Parses (VObj [])) = Throw (TypeError m))
  /\ (exists m, badge "nyama-choma" (Parses (VObj [])) = Throw (TypeError m)).
Proof.
  exact (cart_unusable_on_foreign_storage
           Examples.any_number_to_string Examples.any_string_to_number Samples.menu
           "nyama-choma" (VNum 1%float) 1%float (VObj []) eq_refl).
Defined.

End CartFacts.

(** ** Identifiers of the cards *)

Module SlugFacts.
Import JS Page Cart.

Lemma slug_char_plain (c : ascii) :
  slug_char c = true -> is_space c = false /\ lower_char c = c.
Proof.
  destruct c as [[] [] [] [] [] [] [] []]; vm_compute; intros H;
    try discriminate H; split; reflexivity.
Qed.

Lemma kept_chars (s : string) (c : ascii) :
  In c (list_ascii_of_string (keep_slug_chars s)) -> slug_char c = true.
Proof.
  induction s as [|a t IH]; cbn [keep_slug_chars list_ascii_of_string]; [intros []|].
  destruct (slug_char a) eqn:A; [|exact IH].
  cbn [list_ascii_of_string]. intros [<-|H]; auto.
Qed.

Section Plain.

Variable s : string.
Hypothesis plain : forall c, In c (list_ascii_of_string s) -> slug_char c = true.

Lemma plain_no_space : forall c, In c (list_ascii_of_string s) -> is_space c = false.
Proof. intros c I. now apply slug_char_plain, plain. Qed.

End Plain.

Lemma trim_end_plain (s : string) :
  (forall c, In c (list_ascii_of_string s) -> is_space c = false) -> trim_end s = s.
Proof.
  induction s as [|a t IH]; intros H; cbn [trim_end]; [reflexivity|].
  rewrite IH by (intros c I; apply H; now right).
  destruct t; [|reflexivity]. now rewrite (H a (or_introl eq_refl)).
Qed.

Lemma trim_start_plain (s : string) :
  (forall c, In c (list_ascii_of_string s) -> is_space c = false) -> trim_start s = s.
Proof.
  destruct s as [|a t]; intros H; cbn [trim_start]; [reflexivity|].
  now rewrite (H a (or_introl eq_refl)).
Qed.

Lemma toLowerCase_plain (s : string) :
  (forall c, In c (list_ascii_of_string s) -> slug_char c = true) -> toLowerCase s = s.
Proof.
  induction s as [|a t IH]; intros H; cbn [toLowerCase]; [reflexivity|].
  rewrite IH by (intros c I; apply H; now right).
  now destruct (slug_char_plain a (H a (or_introl eq_refl))) as [_ ->].
Qed.

Lemma dash_runs_plain (s : string) :
  (forall c, In c (list_ascii_of_string s) -> is_space c = false) -> dash_runs false s = s.
Proof.
  induction s as [|a t IH]; intros H; cbn [dash_runs]; [reflexivity|].
  rewrite (H a (or_introl eq_refl)).
  now rewrite IH by (intros c I; apply H; now right).
Qed.

Lemma keep_slug_chars_plain (s : string) :
  (forall c, In c (list_ascii_of_string s) -> slug_char c = true) -> keep_slug_chars s = s.
Proof.
  induction s as [|a t IH]; intros H; cbn [keep_slug_chars]; [reflexivity|].
  rewrite (H a (or_introl eq_refl)).
  now rewrite IH by (intros c I; apply H; now right).
Qed.

Lemma trim_end_twice (s : string) : trim_end (trim_end s) = trim_end s.
Proof.
  induction s as [|a t IH]; [reflexivity|]. cbn [trim_end].
  destruct (trim_end t) as [|b u] eqn:E.
  - destruct (is_space a) eqn:A; [reflexivity|]. cbn [trim_end]. now rewrite A.
  - cbn [trim_end] in *. now rewrite IH.
Qed.

Lemma trim_end_head (a : ascii) (t : string) :
  is_space a = false -> exists u, trim_end (String a t) = String a u.
Proof.
  intros A. cbn [trim_end]. destruct (trim_end t); [rewrite A|]; eexists; reflexivity.
Qed.

Lemma trim_start_head (s : string) :
  trim_start s = "" \/ exists a t, trim_start s = String a t /\ is_space a = false.
Proof.
  induction s as [|a t IH]; [now left|]. cbn [trim_start].
  destruct (is_space a) eqn:A; [exact IH|]. right. now exists a, t.
Qed.

Lemma trim_twice (s : string) : trim (trim s) = trim s.
Proof.
  unfold trim. destruct (trim_start_head s) as [->|(a & t & -> & A)]; [reflexivity|].
  destruct (trim_end_head a t A) as [u E].
  rewrite E. cbn [trim_start]. rewrite A, <- E. apply trim_end_twice.
Qed.

(** X20. What [slugify] returns is made of lower-case letters, digits
    and dashes only; [slugify] leaves such an identifier as it is; and
    white space around its argument does not matter: trimming first, as
    line 215 does and lines 224 and 230 do not, gives the same
    identifier. *)
Theorem slugify_gives_identifiers (s : string) :
  (forall c, In c (list_ascii_of_string (slugify s)) -> slug_char c = true)
  /\ slugify (slugify s) = slugify s
  /\ slugify (trim s) = slugify s.
Proof.
  assert (P : forall c, In c (list_ascii_of_string (slugify s)) -> slug_char c = true).
  { intros c. apply kept_chars. }
  split; [exact P|]. split.
  - assert (N := plain_no_space _ P).
    unfold slugify at 1. unfold trim.
    rewrite (trim_start_plain _ N), (trim_end_plain _ N), (toLowerCase_plain _ P),
      (dash_runs_plain _ N).
    now apply keep_slug_chars_plain.
  - unfold slugify. now rewrite trim_twice.
Qed.

End SlugFacts.
